(** * Bingo pattern matcher, waiting-number analyzer and game session

    A shallow embedding of
      - src/logic/bingoGenerator.ts    (BingoCell, BingoCard, markNumber),
      - src/services/patternService.ts (checkPattern, getMissingNumbers,
        isOnPot, getWinningPaths),
      - src/services/waitingNumberService.ts (analyzeCardForPattern,
        analyzeGame),
      - src/services/gameSession.ts    (isValidBingoNumber, addCalledNumber,
        applyCalledNumbersToCards).

    JavaScript arrays are lists; an index that is out of range reads
    [undefined], and a property read on [undefined] throws a TypeError.  The
    read-only matcher is a family of functions into [option], [None] being
    that TypeError.  Code that allocates or writes objects runs in a small
    state-and-exception monad over an explicit object store. *)

From Stdlib Require Import ZArith String List Bool Lia.
From stdpp Require Import base option list.

Local Open Scope Z_scope.

(** ** Data model (bingoGenerator.ts, patternService.ts) *)

Inductive Column := B | I | N | G | O.

(** [value: number | 'FREE' | '']; the numbers held by cards are integers. *)
Inductive CellValue :=
| Num (n : Z)
| FREE
| Blank.

Record BingoCell := {
  column : Column;
  value : CellValue;
  marked : bool
}.

Record BingoCard := {
  card_id : string;
  card_name : option string;
  cells : list (list BingoCell);
  card_createdAt : Z
}.

Record WinningPattern := {
  pattern_id : string;
  pattern_name : string;
  grid : list (list bool);
  pattern_createdAt : Z
}.

#[global] Instance Column_eq_dec : EqDecision Column.
Proof. solve_decision. Defined.
#[global] Instance CellValue_eq_dec : EqDecision CellValue.
Proof. solve_decision. Defined.
#[global] Instance BingoCell_eq_dec : EqDecision BingoCell.
Proof. solve_decision. Defined.

(** [cell.value === 'FREE'] *)
Definition is_free (c : BingoCell) : bool :=
  match value c with FREE => true | _ => false end.

(** [card.cells[row][col]], about to have a property read. *)
Definition cell_at (card : BingoCard) (row col : nat) : option BingoCell :=
  r ← cells card !! row; r !! col.

(** [pattern.grid[row][col]] used as a condition: a missing row throws, a
    missing column is [undefined], which is falsy. *)
Definition grid_at (pattern : WinningPattern) (row col : nat) : option bool :=
  r ← grid pattern !! row; Some (default false (r !! col)).

(** ** Loops *)

(** A loop whose body may [return true] out of the function. *)
Fixpoint anyM {A} (f : A → option bool) (l : list A) : option bool :=
  match l with
  | [] => Some false
  | x :: l' => b ← f x; if b : bool then Some true else anyM f l'
  end.

(** A loop that stops with [false] at the first failing element ([break]
    after clearing a flag, or [return false]). *)
Fixpoint allM {A} (f : A → option bool) (l : list A) : option bool :=
  match l with
  | [] => Some true
  | x :: l' => b ← f x; if b : bool then allM f l' else Some false
  end.

(** A loop that threads local variables. *)
Fixpoint foldM {A S} (f : S → A → option S) (s : S) (l : list A) : option S :=
  match l with
  | [] => Some s
  | x :: l' => s' ← f s x; foldM f s' l'
  end.

(** [for (let row = 0; row < rows; row++) for (let col = 0; col < cols; col++)] *)
Definition for2 {S} (rows cols : nat) (body : nat → nat → S → option S)
    (s : S) : option S :=
  foldM (λ s row, foldM (λ s col, body row col s) s (seq 0 cols)) s (seq 0 rows).

Definition DIKIT : string := "Dikit"%string.
Definition PATONG : string := "Patong"%string.
Definition HORIZONTAL_LINE : string := "Horizontal Line"%string.
Definition VERTICAL_LINE : string := "Vertical Line"%string.
Definition DIAGONAL_LINE : string := "Diagonal Line"%string.

Definition b2n (b : bool) : nat := if b then 1%nat else 0%nat.

(** ** checkPattern (patternService.ts, lines 19-136) *)

(** The FREE test that opens the body of every Dikit and Patong loop:
    [if (a.value === 'FREE' || b.value === 'FREE') continue;].  [None] inside
    is the [continue]; the second cell is only read when the first is not
    FREE. *)
Definition read_pair (a b : option BingoCell) : option (option (BingoCell * BingoCell)) :=
  a ← a;
  if is_free a then Some None
  else b ← b; if is_free b then Some None else Some (Some (a, b)).

(** [card.cells[row][col]] and [card.cells[row][col + 1]] *)
Definition horizontal_pair (card : BingoCard) (row col : nat)
    : option (option (BingoCell * BingoCell)) :=
  r ← cells card !! row; read_pair (r !! col) (r !! (col + 1)%nat).

(** [card.cells[row][col]] and [card.cells[row + 1][col]] *)
Definition vertical_pair (card : BingoCard) (row col : nat)
    : option (option (BingoCell * BingoCell)) :=
  r1 ← cells card !! row; r2 ← cells card !! (row + 1)%nat;
  read_pair (r1 !! col) (r2 !! col).

(** [if (a.marked && b.marked) return true;] *)
Definition pair_complete (p : option (BingoCell * BingoCell)) : bool :=
  match p with Some (a, b) => marked a && marked b | None => false end.

(** The inner loops of the line patterns: every cell of the line is marked. *)
Definition line_complete (card : BingoCard) (line : list (nat * nat)) : option bool :=
  allM (λ '(row, col), marked <$> cell_at card row col) line.

Definition row_line (row : nat) : list (nat * nat) := map (λ col, (row, col)) (seq 0 5).
Definition col_line (col : nat) : list (nat * nat) := map (λ row, (row, col)) (seq 0 5).
Definition main_diagonal : list (nat * nat) := map (λ i, (i, i)) (seq 0 5).
Definition anti_diagonal : list (nat * nat) := map (λ i, (i, 4 - i)%nat) (seq 0 5).

Definition checkPattern (card : BingoCard) (pattern : WinningPattern) : option bool :=
  if String.eqb (pattern_name pattern) DIKIT then
    anyM (λ row, anyM (λ col,
      pair_complete <$> horizontal_pair card row col) (seq 0 4)) (seq 0 5)
  else if String.eqb (pattern_name pattern) PATONG then
    anyM (λ row, anyM (λ col,
      pair_complete <$> vertical_pair card row col) (seq 0 5)) (seq 0 4)
  else if String.eqb (pattern_name pattern) HORIZONTAL_LINE then
    anyM (λ row, line_complete card (row_line row)) (seq 0 5)
  else if String.eqb (pattern_name pattern) VERTICAL_LINE then
    anyM (λ col, line_complete card (col_line col)) (seq 0 5)
  else if String.eqb (pattern_name pattern) DIAGONAL_LINE then
    mainDiagonalComplete ← line_complete card main_diagonal;
    if mainDiagonalComplete : bool then Some true
    else line_complete card anti_diagonal
  else
    allM (λ row, allM (λ col,
      g ← grid_at pattern row col;
      if g : bool then marked <$> cell_at card row col
      else Some true) (seq 0 5)) (seq 0 5).

(** ** getMissingNumbers (patternService.ts, lines 143-368) *)

(** [Set.prototype.add] on an insertion-ordered set. *)
Definition set_add (s : list CellValue) (v : CellValue) : list CellValue :=
  if decide (v ∈ s) then s else s ++ [v].

(** The unmarked values of a pair, left (top) cell first. *)
Definition pair_missing (a b : BingoCell) : list CellValue :=
  (if marked a then [] else [value a]) ++ (if marked b then [] else [value b]).

Definition pair_markedCount (a b : BingoCell) : nat :=
  (b2n (marked a) + b2n (marked b))%nat.

(** One iteration of the Dikit/Patong loop of getMissingNumbers on the
    local variables [(missingSet, bestPairMarkedCount)]. *)
Definition pair_step_missing (st : list CellValue * nat)
    (p : option (BingoCell * BingoCell)) : list CellValue * nat :=
  match p with
  | None => st
  | Some (a, b) =>
    let markedCount := pair_markedCount a b in
    if (0 <? markedCount)%nat then
      let st1 := if (snd st <? markedCount)%nat then ([], markedCount) else st in
      if (markedCount =? snd st1)%nat
      then (foldl set_add (fst st1) (pair_missing a b), snd st1)
      else st1
    else st
  end.

(** The inner loop of the line patterns on [(markedCount, lineMissing)]:
    [if (cell.marked) markedCount++; else if (cell.value !== 'FREE')
    lineMissing.push(cell.value)]. *)
Definition scan_step (st : nat * list CellValue) (cell : BingoCell)
    : nat * list CellValue :=
  if marked cell then (S (fst st), snd st)
  else if is_free cell then st
  else (fst st, snd st ++ [value cell]).

Definition line_scan (card : BingoCard) (line : list (nat * nat))
    : option (nat * list CellValue) :=
  foldM (λ st '(row, col), scan_step st <$> cell_at card row col) (0%nat, []) line.

(** The tail of one iteration of the Horizontal/Vertical Line loop. *)
Definition line_step_missing (st : list CellValue * nat)
    (scan : nat * list CellValue) : list CellValue * nat :=
  let '(markedCount, lineMissing) := scan in
  if (0 <? markedCount)%nat then
    let st1 := if (snd st <? markedCount)%nat then ([], markedCount) else st in
    if (markedCount =? snd st1)%nat
    then (foldl set_add (fst st1) lineMissing, snd st1)
    else st1
  else st.

(** The standard loop body, the same text in getMissingNumbers and in
    getWinningPaths: the cell is read only where the grid requires it. *)
Definition standard_cell_step (missing : list CellValue) (cell : BingoCell)
    : list CellValue :=
  if negb (marked cell) then
    if is_free cell then missing else missing ++ [value cell]
  else missing.

Definition standard_step (card : BingoCard) (pattern : WinningPattern)
    (row col : nat) (missing : list CellValue) : option (list CellValue) :=
  g ← grid_at pattern row col;
  if g : bool then standard_cell_step missing <$> cell_at card row col
  else Some missing.

Definition getMissingNumbers (card : BingoCard) (pattern : WinningPattern)
    : option (list CellValue) :=
  if String.eqb (pattern_name pattern) DIKIT then
    fst <$> for2 5 4 (λ row col st,
      pair_step_missing st <$> horizontal_pair card row col) ([], 0%nat)
  else if String.eqb (pattern_name pattern) PATONG then
    fst <$> for2 4 5 (λ row col st,
      pair_step_missing st <$> vertical_pair card row col) ([], 0%nat)
  else if String.eqb (pattern_name pattern) HORIZONTAL_LINE then
    fst <$> foldM (λ st row,
      scan ← line_scan card (row_line row);
      Some (line_step_missing st scan)) ([], 0%nat) (seq 0 5)
  else if String.eqb (pattern_name pattern) VERTICAL_LINE then
    fst <$> foldM (λ st col,
      scan ← line_scan card (col_line col);
      Some (line_step_missing st scan)) ([], 0%nat) (seq 0 5)
  else if String.eqb (pattern_name pattern) DIAGONAL_LINE then
    '(mainMarkedCount, mainMissing) ← line_scan card main_diagonal;
    '(antiMarkedCount, antiMissing) ← line_scan card anti_diagonal;
    let bestDiagonalMarkedCount := Nat.max mainMarkedCount antiMarkedCount in
    Some (if (0 <? bestDiagonalMarkedCount)%nat then
            let s1 := if (mainMarkedCount =? bestDiagonalMarkedCount)%nat
                      then foldl set_add [] mainMissing else [] in
            if (antiMarkedCount =? bestDiagonalMarkedCount)%nat
            then foldl set_add s1 antiMissing else s1
          else [])
  else
    for2 5 5 (standard_step card pattern) [].

(** ** isOnPot (patternService.ts, lines 373-376) *)

Definition isOnPot (card : BingoCard) (pattern : WinningPattern) : option bool :=
  missing ← getMissingNumbers card pattern;
  Some (length missing =? 1)%nat.

(** ** getWinningPaths (patternService.ts, lines 382-612) *)

(** One iteration of the Dikit/Patong loop of getWinningPaths on the local
    variables [(paths, bestPairMarkedCount)]; [paths.length = 0] empties the
    array. *)
Definition pair_step_paths (st : list (list CellValue) * nat)
    (p : option (BingoCell * BingoCell)) : list (list CellValue) * nat :=
  match p with
  | None => st
  | Some (a, b) =>
    let markedCount := pair_markedCount a b in
    if (0 <? markedCount)%nat then
      let st1 := if (snd st <? markedCount)%nat then ([], markedCount) else st in
      if (markedCount =? snd st1)%nat then
        let pathMissing := pair_missing a b in
        if (0 <? length pathMissing)%nat
        then (fst st1 ++ [pathMissing], snd st1)
        else st1
      else st1
    else st
  end.

Definition line_step_paths (st : list (list CellValue) * nat)
    (scan : nat * list CellValue) : list (list CellValue) * nat :=
  let '(markedCount, lineMissing) := scan in
  if (0 <? markedCount)%nat then
    let st1 := if (snd st <? markedCount)%nat then ([], markedCount) else st in
    if (markedCount =? snd st1)%nat && (0 <? length lineMissing)%nat
    then (fst st1 ++ [lineMissing], snd st1)
    else st1
  else st.

Definition getWinningPaths (card : BingoCard) (pattern : WinningPattern)
    : option (list (list CellValue)) :=
  if String.eqb (pattern_name pattern) DIKIT then
    fst <$> for2 5 4 (λ row col st,
      pair_step_paths st <$> horizontal_pair card row col) ([], 0%nat)
  else if String.eqb (pattern_name pattern) PATONG then
    fst <$> for2 4 5 (λ row col st,
      pair_step_paths st <$> vertical_pair card row col) ([], 0%nat)
  else if String.eqb (pattern_name pattern) HORIZONTAL_LINE then
    fst <$> foldM (λ st row,
      scan ← line_scan card (row_line row);
      Some (line_step_paths st scan)) ([], 0%nat) (seq 0 5)
  else if String.eqb (pattern_name pattern) VERTICAL_LINE then
    fst <$> foldM (λ st col,
      scan ← line_scan card (col_line col);
      Some (line_step_paths st scan)) ([], 0%nat) (seq 0 5)
  else if String.eqb (pattern_name pattern) DIAGONAL_LINE then
    '(mainMarkedCount, mainMissing) ← line_scan card main_diagonal;
    '(antiMarkedCount, antiMissing) ← line_scan card anti_diagonal;
    let bestDiagonalMarkedCount := Nat.max mainMarkedCount antiMarkedCount in
    Some (if (0 <? bestDiagonalMarkedCount)%nat then
            let p1 := if (mainMarkedCount =? bestDiagonalMarkedCount)%nat
                         && (0 <? length mainMissing)%nat
                      then [mainMissing] else [] in
            if (antiMarkedCount =? bestDiagonalMarkedCount)%nat
               && (0 <? length antiMissing)%nat
            then p1 ++ [antiMissing] else p1
          else [])
  else
    missing ← for2 5 5 (standard_step card pattern) [];
    Some (if (0 <? length missing)%nat then [missing] else []).

(** ** Waiting-number analysis (waitingNumberService.ts) *)

Record WaitingNumberAnalysis := {
  cardId : string;
  patternId : string;
  patternName : string;
  isWinner : bool;
  onPot : bool;                          (* the field [isOnPot] *)
  missingNumbers : list CellValue;
  totalRequired : Z;
  totalMarked : Z;
  pathIndex : option nat
}.

Record GameAnalysis := {
  cardAnalyses : list WaitingNumberAnalysis;
  potCards : list WaitingNumberAnalysis;
  winningCards : list WaitingNumberAnalysis;
  nextNumbersToWatch : list CellValue
}.

(** The counting loop [if (pattern.grid[row][col]) totalRequired++], run
    from the value [totalRequired] has when the loop is entered. *)
Definition count_required (pattern : WinningPattern) (totalRequired : Z) : option Z :=
  for2 5 5 (λ row col n,
    g ← grid_at pattern row col; Some (if g : bool then n + 1 else n))
    totalRequired.

Definition is_dikit_or_patong (pattern : WinningPattern) : bool :=
  String.eqb (pattern_name pattern) DIKIT || String.eqb (pattern_name pattern) PATONG.

Definition is_line (pattern : WinningPattern) : bool :=
  String.eqb (pattern_name pattern) HORIZONTAL_LINE
  || String.eqb (pattern_name pattern) VERTICAL_LINE
  || String.eqb (pattern_name pattern) DIAGONAL_LINE.

(** analyzeCardForPattern (lines 924-973 of the services source).
    [totalRequired] is declared with the value 2 and the counting loop of the
    [else] branch increments that variable. *)
Definition analyzeCardForPattern (card : BingoCard) (pattern : WinningPattern)
    : option WaitingNumberAnalysis :=
  isWinner ← checkPattern card pattern;
  missing ← getMissingNumbers card pattern;
  onPot ← isOnPot card pattern;
  let totalRequired := 2 in
  '(totalRequired, totalMarked) ←
    (if is_dikit_or_patong pattern then
       Some (2, if (length missing =? 0)%nat then 2
                else if (length missing =? 1)%nat then 1
                else 1)
     else
       totalRequired ← count_required pattern totalRequired;
       Some (totalRequired, totalRequired - Z.of_nat (length missing)));
  Some {| cardId := card_id card;
          patternId := pattern_id pattern;
          patternName := pattern_name pattern;
          isWinner := isWinner;
          onPot := onPot;
          missingNumbers := missing;
          totalRequired := totalRequired;
          totalMarked := totalMarked;
          pathIndex := None |}.

(** The numeric reading of a value under the comparator [(a, b) => a - b];
    the empty string converts to 0.  FREE is never put into a missing set. *)
Definition sort_key (v : CellValue) : Z :=
  match v with Num n => n | _ => 0 end.

Fixpoint insert_sorted (v : CellValue) (l : list CellValue) : list CellValue :=
  match l with
  | [] => [v]
  | x :: l' => if sort_key v <=? sort_key x then v :: l else x :: insert_sorted v l'
  end.

(** A stable ascending sort, [Array.prototype.sort((a, b) => a - b)]. *)
Definition sort_numbers (l : list CellValue) : list CellValue :=
  foldr insert_sorted [] l.

(** The local variables of analyzeGame. *)
Record GameState := {
  st_cardAnalyses : list WaitingNumberAnalysis;
  st_potCards : list WaitingNumberAnalysis;
  st_winningCards : list WaitingNumberAnalysis;
  st_nextNumbersSet : list CellValue
}.

(** [totalRequired] of a path record (lines 1011-1025). *)
Definition path_totalRequired (pattern : WinningPattern) : option Z :=
  let totalRequired := 2 in
  if is_line pattern then Some 5
  else if negb (String.eqb (pattern_name pattern) DIKIT)
          && negb (String.eqb (pattern_name pattern) PATONG)
  then count_required pattern 0
  else Some totalRequired.

(** The body of [for (let i = 0; i < paths.length; i++)]. *)
Definition path_step (card : BingoCard) (pattern : WinningPattern)
    (npaths : nat) (st : GameState) (ip : nat * list CellValue) : option GameState :=
  let '(i, pathMissing) := ip in
  if (length pathMissing =? 0)%nat then Some st
  else
    totalRequired ← path_totalRequired pattern;
    let totalMarked := totalRequired - Z.of_nat (length pathMissing) in
    let onPot := (length pathMissing =? 1)%nat in
    if 0 <? totalMarked then
      let analysis :=
        {| cardId := card_id card;
           patternId := pattern_id pattern;
           patternName := pattern_name pattern;
           isWinner := false;
           onPot := onPot;
           missingNumbers := pathMissing;
           totalRequired := totalRequired;
           totalMarked := totalMarked;
           pathIndex := if (1 <? npaths)%nat then Some i else None |} in
      Some {| st_cardAnalyses := st_cardAnalyses st ++ [analysis];
              st_potCards := if onPot then st_potCards st ++ [analysis]
                             else st_potCards st;
              st_winningCards := st_winningCards st;
              st_nextNumbersSet := foldl set_add (st_nextNumbersSet st) pathMissing |}
    else Some st.

(** The body of [for (const pattern of patterns)]. *)
Definition pattern_step (card : BingoCard) (st : GameState)
    (pattern : WinningPattern) : option GameState :=
  isWinner ← checkPattern card pattern;
  if isWinner : bool then
    analysis ← analyzeCardForPattern card pattern;
    Some {| st_cardAnalyses := st_cardAnalyses st ++ [analysis];
            st_potCards := st_potCards st;
            st_winningCards := st_winningCards st ++ [analysis];
            st_nextNumbersSet := st_nextNumbersSet st |}
  else
    paths ← getWinningPaths card pattern;
    foldM (path_step card pattern (length paths)) st
          (zip (seq 0 (length paths)) paths).

(** analyzeGame (lines 978-1063 of the services source). *)
Definition analyzeGame (cards : list BingoCard) (patterns : list WinningPattern)
    : option GameAnalysis :=
  st ← foldM (λ st card, foldM (pattern_step card) st patterns)
         {| st_cardAnalyses := []; st_potCards := [];
            st_winningCards := []; st_nextNumbersSet := [] |} cards;
  Some {| cardAnalyses := st_cardAnalyses st;
          potCards := st_potCards st;
          winningCards := st_winningCards st;
          nextNumbersToWatch := sort_numbers (st_nextNumbersSet st) |}.

(** ** Specification vocabulary *)

(** The positions visited by two nested counting loops, in visiting order. *)
Definition positions (rows cols : nat) : list (nat * nat) :=
  flat_map (λ row, map (λ col, (row, col)) (seq 0 cols)) (seq 0 rows).

(** A position inside the 5x5 grid. *)
Definition in_grid (p : nat * nat) : bool := (fst p <? 5)%nat && (snd p <? 5)%nat.

(** A 5x5 matrix. *)
Definition shape5 {A} (m : list (list A)) : bool :=
  (length m =? 5)%nat && forallb (λ r, (length r =? 5)%nat) m.

Definition card_shape (card : BingoCard) : Prop := shape5 (cells card) = true.
Definition grid_shape (pattern : WinningPattern) : Prop := shape5 (grid pattern) = true.

#[global] Instance BingoCell_inhabited : Inhabited BingoCell :=
  populate {| column := B; value := Blank; marked := false |}.

(** The cell of a well-formed card at a position of the grid. *)
Definition cell (card : BingoCard) (row col : nat) : BingoCell :=
  (cells card !!! row) !!! col.

(** [grid[r][c] == true] on a well-formed grid. *)
Definition required (pattern : WinningPattern) (row col : nat) : bool :=
  (grid pattern !!! row) !!! col.

Definition special_names : list string :=
  [DIKIT; PATONG; HORIZONTAL_LINE; VERTICAL_LINE; DIAGONAL_LINE].

(** A standard pattern: its name is none of the five special names. *)
Definition standard (pattern : WinningPattern) : Prop :=
  forallb (λ s, negb (String.eqb (pattern_name pattern) s)) special_names = true.

(** *** Adjacent pairs (Dikit, Patong) *)

(** All horizontally adjacent pairs [(r,c),(r,c+1)], [c] in [0,3]. *)
Definition horizontal_pairs (card : BingoCard) : list (BingoCell * BingoCell) :=
  map (λ '(r, c), (cell card r c, cell card r (c + 1)%nat)) (positions 5 4).

(** All vertically adjacent pairs [(r,c),(r+1,c)], [r] in [0,3]. *)
Definition vertical_pairs (card : BingoCard) : list (BingoCell * BingoCell) :=
  map (λ '(r, c), (cell card r c, cell card (r + 1)%nat c)) (positions 4 5).

(** A pair after the FREE test of the loop body. *)
Definition pair_of (a b : BingoCell) : option (BingoCell * BingoCell) :=
  if is_free a || is_free b then None else Some (a, b).

Definition touches_free (p : BingoCell * BingoCell) : bool :=
  is_free (fst p) || is_free (snd p).

Definition markedCount (p : BingoCell * BingoCell) : nat :=
  pair_markedCount (fst p) (snd p).

Definition unmarked_values (p : BingoCell * BingoCell) : list CellValue :=
  pair_missing (fst p) (snd p).

(** The pairs that do not touch a FREE cell and have some progress. *)
Definition progressing (pairs : list (BingoCell * BingoCell))
    : list (BingoCell * BingoCell) :=
  List.filter (λ p, (0 <? markedCount p)%nat)
    (List.filter (λ p, negb (touches_free p)) pairs).

(** [best]: the largest [markedCount] among them (0 when there is none). *)
Definition best_count (pairs : list (BingoCell * BingoCell)) : nat :=
  list_max (map markedCount (progressing pairs)).

(** What the matcher says about a pair pattern, in terms of the pairs. *)
Definition pair_pattern_spec (card : BingoCard) (pattern : WinningPattern)
    (pairs : list (BingoCell * BingoCell)) : Prop :=
  let best := best_count pairs in
  let tied := List.filter (λ p, (markedCount p =? best)%nat) (progressing pairs) in
  checkPattern card pattern = Some (best =? 2)%nat
  ∧ (best ≠ 2%nat → getWinningPaths card pattern = Some (map unmarked_values tied))
  ∧ (best = 2%nat → getWinningPaths card pattern = Some [])
  ∧ Forall (λ p, touches_free p = false ∧ markedCount p ≠ 0%nat
                 ∧ markedCount p = best) tied.

(** *** Standard patterns *)

(** The cells where [grid[r][c] == true], in row-major order. *)
Definition required_cells (card : BingoCard) (pattern : WinningPattern)
    : list BingoCell :=
  map (λ '(r, c), cell card r c)
      (List.filter (λ '(r, c), required pattern r c) (positions 5 5)).

(** Their values where unmarked and not FREE. *)
Definition standard_missing (card : BingoCard) (pattern : WinningPattern)
    : list CellValue :=
  map value (List.filter (λ c, negb (marked c) && negb (is_free c))
                         (required_cells card pattern)).

(** Every cell whose value is FREE is marked. *)
Definition free_cells_marked (card : BingoCard) : Prop :=
  forallb (λ '(row, col), implb (is_free (cell card row col))
                                (marked (cell card row col)))
          (positions 5 5) = true.

(** The number of true cells of the grid. *)
Definition grid_cardinality (pattern : WinningPattern) : Z :=
  Z.of_nat (length (List.filter (λ '(r, c), required pattern r c) (positions 5 5))).

(** *** Analysis records *)

(** The pattern-category rule for [totalRequired]. *)
Definition category_rule (pattern : WinningPattern) : Z :=
  if is_dikit_or_patong pattern then 2
  else if is_line pattern then 5
  else grid_cardinality pattern.

(** A per-path record of analyzeGame for [card] and [pattern]. *)
Definition path_record (card : BingoCard) (pattern : WinningPattern)
    (a : WaitingNumberAnalysis) : Prop :=
  isWinner a = false
  ∧ cardId a = card_id card
  ∧ patternId a = pattern_id pattern
  ∧ patternName a = pattern_name pattern
  ∧ totalRequired a = category_rule pattern
  ∧ totalMarked a = totalRequired a - Z.of_nat (length (missingNumbers a)).

(** What analyzeCardForPattern guarantees about the totals of its record. *)
Definition card_record (pattern : WinningPattern) (a : WaitingNumberAnalysis) : Prop :=
  patternName a = pattern_name pattern
  ∧ if is_dikit_or_patong pattern
    then totalRequired a = 2
         ∧ totalMarked a = (if (length (missingNumbers a) =? 0)%nat then 2 else 1)
    else totalMarked a = totalRequired a - Z.of_nat (length (missingNumbers a)).

(** A record of [cardAnalyses]: a winner record made by analyzeCardForPattern
    or a per-path record. *)
Definition game_record (cards : list BingoCard) (patterns : list WinningPattern)
    (a : WaitingNumberAnalysis) : Prop :=
  ∃ card pattern, In card cards ∧ In pattern patterns
    ∧ ((isWinner a = true ∧ analyzeCardForPattern card pattern = Some a)
       ∨ path_record card pattern a).

(** ** Numbers (gameSession.ts)

    A [number] that reaches the session code from its caller is any
    JavaScript number: an integer, a finite value that is not an integer
    (lying strictly between [floor] and [floor + 1], its fractional binary
    digits in [bits]), NaN or an infinity. *)

Inductive number :=
| Int (z : Z)
| Fraction (floor : Z) (bits : positive)
| NaN
| PosInfinity
| NegInfinity.

#[global] Instance number_eq_dec : EqDecision number.
Proof. solve_decision. Defined.

(** [Number.isInteger(num)] *)
Definition isInteger (num : number) : bool :=
  match num with Int _ => true | _ => false end.

(** [num >= k] and [num <= k] against an integer constant. *)
Definition number_geb (num : number) (k : Z) : bool :=
  match num with
  | Int z => k <=? z
  | Fraction floor _ => k <=? floor
  | PosInfinity => true
  | NaN | NegInfinity => false
  end.

Definition number_leb (num : number) (k : Z) : bool :=
  match num with
  | Int z => z <=? k
  | Fraction floor _ => floor <? k
  | NegInfinity => true
  | NaN | PosInfinity => false
  end.

(** isValidBingoNumber (gameSession.ts, lines 45-47) *)
Definition isValidBingoNumber (num : number) : bool :=
  isInteger num && number_geb num 1 && number_leb num 75.

(** [numbers.includes(number)] *)
Definition includes (numbers : list number) (num : number) : bool :=
  bool_decide (num ∈ numbers).

(** [calledNumbers.includes(cell.value)]: a string is in no list of numbers. *)
Definition includes_value (numbers : list number) (v : CellValue) : bool :=
  match v with Num n => includes numbers (Int n) | FREE | Blank => false end.

(** [cell.value !== 0] *)
Definition value_nonzero (v : CellValue) : bool :=
  match v with Num n => negb (n =? 0) | FREE | Blank => true end.

(** [cell.value === number] *)
Definition value_is (v : CellValue) (num : number) : bool :=
  match v with Num n => bool_decide (num = Int n) | FREE | Blank => false end.

(** ** The object store

    Every JavaScript object and array lives at a location of the store;
    a variable or a property holds the location.  Arrays of numbers and of
    strings hold their (primitive) elements themselves. *)

Abbreviation loc := nat.

Inductive object :=
| ObjCell (c : BingoCell)
| ObjArray (elems : list loc)
| ObjCard (id : string) (name : option string) (cellsRef : loc) (createdAt : Z)
| ObjNumbers (ns : list number)
| ObjStrings (ss : list string)
| ObjSession (activeCardIds activePatternIds calledNumbers : loc)
             (sessionStartTime : Z) (isActive : bool).

Abbreviation heap := (list object).

Inductive outcome (A : Type) :=
| Returned (a : A) (h : heap)
| Thrown (e : string) (h : heap).
Arguments Returned {A} a h.
Arguments Thrown {A} e h.

(** Computations that read, allocate and write objects and may throw. *)
Definition M (A : Type) := heap → outcome A.

Definition ret {A} (a : A) : M A := λ h, Returned a h.

Definition bind {A C} (m : M A) (k : A → M C) : M C :=
  λ h, match m h with
       | Returned a h' => k a h'
       | Thrown e h' => Thrown e h'
       end.

Definition throw {A} (e : string) : M A := λ h, Thrown e h.

Declare Scope store_scope.
Delimit Scope store_scope with store.
Notation "'let!' x ':=' m 'in' k" := (bind m (λ x, k))
  (at level 10, x name, m at level 100, k at level 200, only parsing) : store_scope.

Definition TypeError : string := "TypeError"%string.

(** A new object. *)
Definition alloc (o : object) : M loc := λ h, Returned (length h) (h ++ [o]).

(** The object behind a reference. *)
Definition deref (l : loc) : M object :=
  λ h, match h !! l with
       | Some o => Returned o h
       | None => Thrown TypeError h
       end.

(** An assignment to properties of the object at [l], a location that was
    read or allocated before. *)
Definition store (l : loc) (o : object) : M unit :=
  λ h, Returned tt (<[l := o]> h).

Definition read_array (l : loc) : M (list loc) :=
  (let! o := deref l in match o with ObjArray ls => ret ls | _ => throw TypeError end)%store.

Definition read_cell (l : loc) : M BingoCell :=
  (let! o := deref l in match o with ObjCell c => ret c | _ => throw TypeError end)%store.

Definition read_numbers (l : loc) : M (list number) :=
  (let! o := deref l in match o with ObjNumbers ns => ret ns | _ => throw TypeError end)%store.

(** [arr[i]] followed by a property read: [undefined] throws. *)
Definition index (arr : loc) (i : nat) : M loc :=
  (let! ls := read_array arr in
   match ls !! i with Some l => ret l | None => throw TypeError end)%store.

(** [Array.prototype.map] with a callback that runs in the store. *)
Fixpoint mapS {A C} (f : A → M C) (l : list A) : M (list C) :=
  match l with
  | [] => ret []
  | x :: l' => (let! y := f x in let! ys := mapS f l' in ret (y :: ys))%store
  end.

(** A counting loop run for its effects. *)
Fixpoint forS {A} (body : A → M unit) (l : list A) : M unit :=
  match l with
  | [] => ret tt
  | x :: l' => (let! _ := body x in forS body l')%store
  end.

(** [for (let row = 0; row < rows; row++) for (let col = 0; col < cols; col++)]
    run for its effects. *)
Definition for2S (rows cols : nat) (body : nat → nat → M unit) : M unit :=
  forS (λ row, forS (λ col, body row col) (seq 0 cols)) (seq 0 rows).

(** *** Reading values out of the store *)

Definition get_array (h : heap) (l : loc) : option (list loc) :=
  match h !! l with Some (ObjArray ls) => Some ls | _ => None end.

Definition load_cell (h : heap) (l : loc) : option BingoCell :=
  match h !! l with Some (ObjCell c) => Some c | _ => None end.

Definition load_row (h : heap) (l : loc) : option (list BingoCell) :=
  ls ← get_array h l; mapM (load_cell h) ls.

Definition load_cells (h : heap) (l : loc) : option (list (list BingoCell)) :=
  rows ← get_array h l; mapM (load_row h) rows.

(** The card value held by the object graph at [l]. *)
Definition load_card (h : heap) (l : loc) : option BingoCard :=
  match h !! l with
  | Some (ObjCard id name cellsRef createdAt) =>
    cs ← load_cells h cellsRef;
    Some {| card_id := id; card_name := name; cells := cs;
            card_createdAt := createdAt |}
  | _ => None
  end.

Definition load_cards (h : heap) (l : loc) : option (list BingoCard) :=
  ls ← get_array h l; mapM (load_card h) ls.

Definition load_numbers (h : heap) (l : loc) : option (list number) :=
  match h !! l with Some (ObjNumbers ns) => Some ns | _ => None end.

Definition load_strings (h : heap) (l : loc) : option (list string) :=
  match h !! l with Some (ObjStrings ss) => Some ss | _ => None end.

(** Nothing that was in the store has changed. *)
Definition heap_preserved (h h' : heap) : Prop :=
  ∀ l o, h !! l = Some o → h' !! l = Some o.

(** ** markNumber (bingoGenerator.ts, lines 147-159) *)

(** [JSON.stringify(card)]: the card as a value. *)
Definition stringify_card (card : loc) : M BingoCard :=
  λ h, match load_card h card with
       | Some c => Returned c h
       | None => Thrown TypeError h
       end.

(** [JSON.parse(json)]: a graph of new objects. *)
Definition parse_card (json : BingoCard) : M loc :=
  (let! rows := mapS (λ row,
       let! cellRefs := mapS (λ c, alloc (ObjCell c)) row in
       alloc (ObjArray cellRefs)) (cells json) in
   let! cellsRef := alloc (ObjArray rows) in
   alloc (ObjCard (card_id json) (card_name json) cellsRef (card_createdAt json)))%store.

(** [cell.marked = true] *)
Definition set_marked (c : BingoCell) : BingoCell :=
  {| column := column c; value := value c; marked := true |}.

(** The loop body: [if (updatedCard.cells[row][col].value === number)
    updatedCard.cells[row][col].marked = true]. *)
Definition mark_at (updatedCard : loc) (num : number) (row col : nat) : M unit :=
  (let! o := deref updatedCard in
   match o with
   | ObjCard _ _ cellsRef _ =>
     let! rowRef := index cellsRef row in
     let! cellRef := index rowRef col in
     let! c := read_cell cellRef in
     if value_is (value c) num then store cellRef (ObjCell (set_marked c))
     else ret tt
   | _ => throw TypeError
   end)%store.

Definition markNumber (card : loc) (num : number) : M loc :=
  (let! json := stringify_card card in
   let! updatedCard := parse_card json in
   let! _ := for2S 5 5 (mark_at updatedCard num) in
   ret updatedCard)%store.

(** The marking, cell by cell. *)
Definition mark_cell (num : number) (c : BingoCell) : BingoCell :=
  if value_is (value c) num then set_marked c else c.

Definition with_cells (card : BingoCard) (cs : list (list BingoCell)) : BingoCard :=
  {| card_id := card_id card; card_name := card_name card; cells := cs;
     card_createdAt := card_createdAt card |}.

(** ** applyCalledNumbersToCards (gameSession.ts, lines 191-207) *)

(** [{ ...cell, marked: cell.value === "FREE" || (cell.value !== 0 &&
    calledNumbers.includes(cell.value)) }] as a function of the called
    numbers. *)
Definition called_cell (calledNumbers : list number) (c : BingoCell) : BingoCell :=
  {| column := column c;
     value := value c;
     marked := is_free c
               || (value_nonzero (value c) && includes_value calledNumbers (value c)) |}.

(** The [marked] expression as it is evaluated: [||] and [&&] are
    short-circuit, so [calledNumbers] is only read for a non-zero value that
    is not FREE. *)
Definition marked_by_call (calledNumbers : loc) (c : BingoCell) : M bool :=
  (if is_free c then ret true
   else if value_nonzero (value c) then
     let! nums := read_numbers calledNumbers in
     ret (includes_value nums (value c))
   else ret false)%store.

(** The arrow functions of the three nested [map] calls, innermost first. *)

(** [(cell) => ({ ...cell, marked: ... })] *)
Definition new_cell (calledNumbers : loc) (cellRef : loc) : M loc :=
  (let! c := read_cell cellRef in
   let! m := marked_by_call calledNumbers c in
   alloc (ObjCell {| column := column c; value := value c; marked := m |}))%store.

(** [(row) => row.map(...)] *)
Definition new_row (calledNumbers : loc) (row : loc) : M loc :=
  (let! cellRefs := read_array row in
   let! newCells := mapS (new_cell calledNumbers) cellRefs in
   alloc (ObjArray newCells))%store.

(** [(card) => { const updatedCard = { ...card }; updatedCard.cells =
    card.cells.map(...); return updatedCard; }]: the copy shares [cells]
    with [card] until the assignment. *)
Definition updated_card (calledNumbers : loc) (card : loc) : M loc :=
  (let! o := deref card in
   match o with
   | ObjCard id name cellsRef createdAt =>
     let! updatedCard := alloc (ObjCard id name cellsRef createdAt) in
     let! rowRefs := read_array cellsRef in
     let! newRows := mapS (new_row calledNumbers) rowRefs in
     let! newCellsRef := alloc (ObjArray newRows) in
     let! _ := store updatedCard (ObjCard id name newCellsRef createdAt) in
     ret updatedCard
   | _ => throw TypeError
   end)%store.

Definition applyCalledNumbersToCards (cards calledNumbers : loc) : M loc :=
  (let! cardRefs := read_array cards in
   let! out := mapS (updated_card calledNumbers) cardRefs in
   alloc (ObjArray out))%store.

(** ** Game session (gameSession.ts) *)

Record GameSession := {
  activeCardIds : list string;
  activePatternIds : list string;
  calledNumbers : list number;
  sessionStartTime : Z;
  isActive : bool
}.

Definition load_session (h : heap) (l : loc) : option GameSession :=
  match h !! l with
  | Some (ObjSession cardIds patternIds called start active) =>
    cs ← load_strings h cardIds;
    ps ← load_strings h patternIds;
    ns ← load_numbers h called;
    Some {| activeCardIds := cs; activePatternIds := ps; calledNumbers := ns;
            sessionStartTime := start; isActive := active |}
  | _ => None
  end.

Definition INVALID_NUMBER : string := "Invalid Bingo number"%string.
Definition ALREADY_CALLED : string := "Number already called"%string.

(** addCalledNumber (gameSession.ts, lines 68-84) *)
Definition addCalledNumber (session : loc) (num : number) : M loc :=
  (if negb (isValidBingoNumber num) then throw INVALID_NUMBER
   else
     let! o := deref session in
     match o with
     | ObjSession cardIds patternIds called start active =>
       let! ns := read_numbers called in
       if includes ns num then throw ALREADY_CALLED
       else
         let! newCalled := alloc (ObjNumbers (ns ++ [num])) in
         alloc (ObjSession cardIds patternIds newCalled start active)
     | _ => throw TypeError
     end)%store.

(** *** Object graphs *)

Definition cells_at (h : heap) (locs : list (list loc)) (cs : list (list BingoCell)) : Prop :=
  Forall2 (Forall2 (λ l c, h !! l = Some (ObjCell c))) locs cs.

Definition rows_at (h : heap) (rowRefs : list loc) (locs : list (list loc)) : Prop :=
  Forall2 (λ r ls, h !! r = Some (ObjArray ls)) rowRefs locs.

(** The card [c] is laid out at [u], its cell objects at [locs]. *)
Definition card_graph (h : heap) (u : loc) (locs : list (list loc)) (c : BingoCard) : Prop :=
  ∃ cellsRef rowRefs,
    h !! u = Some (ObjCard (card_id c) (card_name c) cellsRef (card_createdAt c))
    ∧ h !! cellsRef = Some (ObjArray rowRefs)
    ∧ rows_at h rowRefs locs
    ∧ cells_at h locs (cells c).

(** The effect of the marking loop on one object. *)
Definition mark_obj (num : number) (o : object) : object :=
  match o with ObjCell c => ObjCell (mark_cell num c) | _ => o end.

(** The session value after a successful call. *)
Definition with_called (s : GameSession) (ns : list number) : GameSession :=
  {| activeCardIds := activeCardIds s; activePatternIds := activePatternIds s;
     calledNumbers := ns; sessionStartTime := sessionStartTime s;
     isActive := isActive s |}.

(** The cards after the called numbers are applied. *)
Definition called_card (nums : list number) (card : BingoCard) : BingoCard :=
  with_cells card (map (map (called_cell nums)) (cells card)).

(** "An integer in 1-75". *)
Definition bingo_number (num : number) : Prop :=
  ∃ z, num = Int z ∧ 1 ≤ z ≤ 75.

(** A row of cells at the array [r], its cell objects no older than [n0]. *)
Definition row_graph (n0 : nat) (h : heap) (row : list BingoCell) (r : loc) : Prop :=
  ∃ ls, h !! r = Some (ObjArray ls)
        ∧ Forall2 (λ l c, h !! l = Some (ObjCell c)) ls row
        ∧ Forall (λ l, (n0 ≤ l)%nat) ls.

(** The store [h] during the marking loop that started from [h1]: every
    object is as it was or is a marked cell, and nothing below [n0] moved. *)
Definition marking_inv (num : number) (n0 : nat) (h1 h : heap) : Prop :=
  length h = length h1
  ∧ (∀ l, h !! l = h1 !! l ∨ h !! l = mark_obj num <$> h1 !! l)
  ∧ (∀ l, (l < n0)%nat → h !! l = h1 !! l).

(** The cells at the positions [ps] of the matrix [locs] have been treated. *)
Definition marked_at (num : number) (locs : list (list loc)) (h1 h : heap)
    (ps : list (nat * nat)) : Prop :=
  ∀ r k lr x, (r, k) ∈ ps → locs !! r = Some lr → lr !! k = Some x →
    h !! x = mark_obj num <$> h1 !! x.

(** Every record collected so far is a record of the game. *)
Definition records_ok (cards : list BingoCard) (patterns : list WinningPattern)
    (st : GameState) : Prop :=
  List.Forall (game_record cards patterns) (st_cardAnalyses st).

(** ** Example data *)

Definition num_cell (col : Column) (n : Z) (m : bool) : BingoCell :=
  {| column := col; value := Num n; marked := m |}.

Definition free_cell (m : bool) : BingoCell :=
  {| column := N; value := FREE; marked := m |}.

Definition example_row (b i n g o : Z) (mb mi mn mg mo : bool) : list BingoCell :=
  [num_cell B b mb; num_cell I i mi; num_cell N n mn; num_cell G g mg; num_cell O o mo].

Definition example_card (cs : list (list BingoCell)) : BingoCard :=
  {| card_id := "card_1"%string; card_name := None; cells := cs; card_createdAt := 0 |}.

(** 1 and 2 are marked: two horizontal pairs with one marked cell each, and
    the vertical pair 1-2 complete. *)
Definition card_two_pairs : BingoCard :=
  example_card
    [ example_row 1 16 31 46 61 true false false false false;
      example_row 2 17 32 47 62 true false false false false;
      [num_cell B 3 false; num_cell I 18 false; free_cell true;
       num_cell G 48 false; num_cell O 63 false];
      example_row 4 19 34 49 64 false false false false false;
      example_row 5 20 35 50 65 false false false false false ].

(** A card as the manual card editor builds it (its FREE cell is created
    unmarked), after every one of its numbers has been marked. *)
Definition card_manual_complete : BingoCard :=
  example_card
    [ example_row 1 16 31 46 61 true true true true true;
      example_row 2 17 32 47 62 true true true true true;
      [num_cell B 3 true; num_cell I 18 true; free_cell false;
       num_cell G 48 true; num_cell O 63 true];
      example_row 4 19 34 49 64 true true true true true;
      example_row 5 20 35 50 65 true true true true true ].

(** The centre is FREE and marked; the top-left corner holds a second,
    unmarked FREE value; the other three corners are marked. *)
Definition card_free_corner : BingoCard :=
  example_card
    [ [free_cell false; num_cell I 16 false; num_cell N 31 false;
       num_cell G 46 false; num_cell O 61 true];
      example_row 2 17 32 47 62 false false false false false;
      [num_cell B 3 false; num_cell I 18 false; free_cell true;
       num_cell G 48 false; num_cell O 63 false];
      example_row 4 19 34 49 64 false false false false false;
      example_row 5 20 35 50 65 true false false false true ].

(** A card whose first cell still holds the generator's placeholder 0. *)
Definition card_placeholder : BingoCard :=
  example_card
    [ example_row 0 16 31 46 61 false false false false false;
      example_row 2 17 32 47 62 false false false false false;
      [num_cell B 3 false; num_cell I 18 false; free_cell true;
       num_cell G 48 false; num_cell O 63 false];
      example_row 4 19 34 49 64 false false false false false;
      example_row 5 20 35 50 65 false false false false false ].

(** Row 0 is marked except for 61. *)
Definition card_row_on_pot : BingoCard :=
  example_card
    [ example_row 1 16 31 46 61 true true true true false;
      example_row 2 17 32 47 62 false false false false false;
      [num_cell B 3 false; num_cell I 18 false; free_cell true;
       num_cell G 48 false; num_cell O 63 false];
      example_row 4 19 34 49 64 false false false false false;
      example_row 5 20 35 50 65 false false false false false ].

(** Three cells of the main diagonal and two of the anti-diagonal are
    marked (the FREE centre lies on both). *)
Definition card_diagonals : BingoCard :=
  example_card
    [ example_row 1 16 31 46 61 true false false false true;
      example_row 2 17 32 47 62 false true false false false;
      [num_cell B 3 false; num_cell I 18 false; free_cell true;
       num_cell G 48 false; num_cell O 63 false];
      example_row 4 19 34 49 64 false false false false false;
      example_row 5 20 35 50 65 false false false false false ].

(** Only the four corners (and the FREE centre) are marked. *)
Definition card_corners : BingoCard :=
  example_card
    [ example_row 1 16 31 46 61 true false false false true;
      example_row 2 17 32 47 62 false false false false false;
      [num_cell B 3 false; num_cell I 18 false; free_cell true;
       num_cell G 48 false; num_cell O 63 false];
      example_row 4 19 34 49 64 false false false false false;
      example_row 5 20 35 50 65 true false false false true ].

Definition example_pattern (name : string) (g : list (list bool)) : WinningPattern :=
  {| pattern_id := "pattern_1"%string; pattern_name := name; grid := g;
     pattern_createdAt := 0 |}.

Definition createEmptyPattern : list (list bool) := replicate 5 (replicate 5 false).

Definition createDikitPattern : list (list bool) :=
  [true; true; false; false; false] :: replicate 4 (replicate 5 false).

Definition createPatongPattern : list (list bool) :=
  [ [true; false; false; false; false]; [true; false; false; false; false] ]
  ++ replicate 3 (replicate 5 false).

Definition createFourCornersPattern : list (list bool) :=
  [ [true; false; false; false; true] ]
  ++ replicate 3 (replicate 5 false)
  ++ [ [true; false; false; false; true] ].

Definition createFullHousePattern : list (list bool) := replicate 5 (replicate 5 true).

Definition dikit_pattern : WinningPattern := example_pattern DIKIT createDikitPattern.
Definition dikit_other_grid : WinningPattern := example_pattern DIKIT createFullHousePattern.
Definition patong_pattern : WinningPattern := example_pattern PATONG createPatongPattern.
Definition four_corners : WinningPattern :=
  example_pattern "Four Corners"%string createFourCornersPattern.
Definition full_house : WinningPattern :=
  example_pattern "Full House"%string createFullHousePattern.
Definition horizontal_line : WinningPattern :=
  example_pattern HORIZONTAL_LINE
    ([true; true; true; true; true] :: replicate 4 (replicate 5 false)).
Definition diagonal_line : WinningPattern :=
  example_pattern DIAGONAL_LINE createEmptyPattern.
(** A custom pattern: the two topmost cells of the B column. *)
Definition left_pair : WinningPattern :=
  example_pattern "Left Pair"%string createPatongPattern.

(** The heap left by a computation. *)
Definition heap_of {A} (r : outcome A) : heap :=
  match r with Returned _ h => h | Thrown _ h => h end.

(** A store holding [card_two_pairs] at 31, the card list at 32 and the
    called numbers 1 and 2 at 33. *)
Definition example_heap : heap :=
  heap_of (parse_card card_two_pairs []) ++ [ObjArray [31%nat]; ObjNumbers [Int 1; Int 2]].

(** A store holding [card_placeholder] at 31, the card list at 32 and the
    called number 0 at 33. *)
Definition placeholder_heap : heap :=
  heap_of (parse_card card_placeholder []) ++ [ObjArray [31%nat]; ObjNumbers [Int 0]].

(** A store holding a session at 3 in which 5 has been called. *)
Definition session_heap : heap :=
  [ ObjStrings ["card_1"%string]; ObjStrings ["pattern_1"%string];
    ObjNumbers [Int 5]; ObjSession 0 1 2 0 true ].

Definition example_session : GameSession :=
  {| activeCardIds := ["card_1"%string]; activePatternIds := ["pattern_1"%string];
     calledNumbers := [Int 5]; sessionStartTime := 0; isActive := true |}.

(** *** The marking relations of the claims *)

(** [cell'] is [cell] after the called numbers were applied. *)
Definition cell_called (nums : list number) (cell cell' : BingoCell) : Prop :=
  column cell' = column cell
  ∧ value cell' = value cell
  ∧ (marked cell' = true
     ↔ value cell = FREE ∨ ∃ n, value cell = Num n ∧ n ≠ 0 ∧ In (Int n) nums).

Definition card_called (nums : list number) (card card' : BingoCard) : Prop :=
  card_id card' = card_id card
  ∧ card_name card' = card_name card
  ∧ card_createdAt card' = card_createdAt card
  ∧ Forall2 (Forall2 (cell_called nums)) (cells card) (cells card').

(** The value of a cell equals the number [num]. *)
Definition value_equals (v : CellValue) (num : number) : Prop :=
  ∃ n, v = Num n ∧ num = Int n.

(** [cell'] is [cell] after [num] was marked. *)
Definition cell_marked (num : number) (cell cell' : BingoCell) : Prop :=
  column cell' = column cell
  ∧ value cell' = value cell
  ∧ (value_equals (value cell) num → marked cell' = true)
  ∧ (¬ value_equals (value cell) num → marked cell' = marked cell).

(** * The rest of the services

    The functions of patternService.ts, waitingNumberService.ts,
    gameSession.ts, bingoGenerator.ts and cardValidation.ts that sit next to
    the matcher, the analyzer and the session code above. *)

(** ** patternService.ts: positions and validation *)

(** getPatternPositions (lines 617-629); a position is [{ row, col }]. *)
Definition getPatternPositions (pattern : WinningPattern) : option (list (nat * nat)) :=
  for2 5 5 (λ row col positions,
    g ← grid_at pattern row col;
    Some (if g : bool then positions ++ [(row, col)] else positions)) [].

(** validatePattern (lines 865-885): the length tests come first, so the
    reads of the two loops stay inside the grid. *)
Definition validatePattern (grid : list (list bool)) : option bool :=
  if negb (length grid =? 5)%nat then Some false
  else
    rowsOk ← allM (λ row, r ← grid !! row; Some (length r =? 5)%nat) (seq 0 5);
    if negb rowsOk then Some false
    else
      anyM (λ row, anyM (λ col,
        r ← grid !! row; Some (default false (r !! col))) (seq 0 5)) (seq 0 5).

(** isBuiltInPattern (lines 890-893) *)
Definition builtInNames : list string :=
  [DIKIT; PATONG; HORIZONTAL_LINE; VERTICAL_LINE; DIAGONAL_LINE; "Full House"%string].

Definition isBuiltInPattern (patternName : string) : bool :=
  existsb (String.eqb patternName) builtInNames.

(** ** waitingNumberService.ts: queries over the analysis *)

(** [Array.prototype.sort(compare)]: a stable sort; an element goes before
    the first one it does not compare greater than. *)
Fixpoint insert_by {A} (compare : A → A → Z) (x : A) (l : list A) : list A :=
  match l with
  | [] => [x]
  | y :: l' => if compare x y <=? 0 then x :: l else y :: insert_by compare x l'
  end.

Definition sort_by {A} (compare : A → A → Z) (l : list A) : list A :=
  foldr (insert_by compare) [] l.

(** [arr.slice(0, limit)] for an integer [limit]: a negative limit counts
    from the end. *)
Definition slice0 {A} (l : list A) (limit : Z) : list A :=
  if limit <? 0 then take (Z.to_nat (Z.of_nat (length l) + limit)) l
  else take (Z.to_nat limit) l.

(** [(a, b) => a.missingNumbers.length - b.missingNumbers.length] *)
Definition missing_compare (a b : WaitingNumberAnalysis) : Z :=
  Z.of_nat (length (missingNumbers a)) - Z.of_nat (length (missingNumbers b)).

(** getClosestPatterns (lines 1068-1079 of the services source); [limit]
    defaults to 3 at the call. *)
Definition getClosestPatterns (card : BingoCard) (patterns : list WinningPattern)
    (limit : Z) : option (list WaitingNumberAnalysis) :=
  mapped ← mapM (analyzeCardForPattern card) patterns;
  let analyses :=
    sort_by missing_compare (List.filter (λ analysis, negb (isWinner analysis)) mapped) in
  Some (slice0 analyses limit).

(** [missing.includes(number)] on the values of a missing list. *)
Definition includes_number (missing : list CellValue) (num : number) : bool :=
  existsb (λ v, value_is v num) missing.

(** isNumberImportant (lines 1084-1098) *)
Definition isNumberImportant (num : number) (cards : list BingoCard)
    (patterns : list WinningPattern) : option bool :=
  anyM (λ card, anyM (λ pattern,
    missing ← getMissingNumbers card pattern;
    Some (includes_number missing num)) patterns) cards.

(** getCardsWaitingForNumber (lines 1103-1121); an entry is
    [{ card, pattern, analysis }]. *)
Definition getCardsWaitingForNumber (num : number) (cards : list BingoCard)
    (patterns : list WinningPattern)
    : option (list (BingoCard * WinningPattern * WaitingNumberAnalysis)) :=
  foldM (λ results card, foldM (λ results pattern,
    analysis ← analyzeCardForPattern card pattern;
    Some (if negb (isWinner analysis) && includes_number (missingNumbers analysis) num
          then results ++ [(card, pattern, analysis)] else results))
    results patterns) [] cards.

(** The value of [numbersNeeded / numbersRemaining], kept as the operands of
    the division, or the literal 0. *)
Inductive Probability :=
| Ratio (needed remaining : Z)
| Zero.

Record ProbabilityInsight := {
  numbersRemaining : Z;
  numbersNeeded : Z;
  probability : Probability
}.

(** getProbabilityInsight (lines 1132-1147) *)
Definition getProbabilityInsight (called missing : list number) : ProbabilityInsight :=
  let totalNumbers := 75 in
  let numbersRemaining := totalNumbers - Z.of_nat (length called) in
  let numbersNeeded :=
    Z.of_nat (length (List.filter (λ num, negb (includes called num)) missing)) in
  {| numbersRemaining := numbersRemaining;
     numbersNeeded := numbersNeeded;
     probability := if 0 <? numbersRemaining
                    then Ratio numbersNeeded numbersRemaining else Zero |}.

(** The comparator of sortCardsByCloseness. *)
Definition closeness_compare (a b : WaitingNumberAnalysis) : Z :=
  if isWinner a && negb (isWinner b) then -1
  else if negb (isWinner a) && isWinner b then 1
  else if onPot a && negb (onPot b) then -1
  else if negb (onPot a) && onPot b then 1
  else Z.of_nat (length (missingNumbers a)) - Z.of_nat (length (missingNumbers b)).

(** sortCardsByCloseness (lines 1173-1188): the copy [[...analyses]] is
    sorted, the argument is left alone. *)
Definition sortCardsByCloseness (analyses : list WaitingNumberAnalysis)
    : list WaitingNumberAnalysis :=
  sort_by closeness_compare analyses.

(** *** Vocabulary for the line patterns *)

(** The lines a line pattern is matched against, in scan order. *)
Definition lines_of (pattern : WinningPattern) : list (list (nat * nat)) :=
  if String.eqb (pattern_name pattern) HORIZONTAL_LINE then map row_line (seq 0 5)
  else if String.eqb (pattern_name pattern) VERTICAL_LINE then map col_line (seq 0 5)
  else if String.eqb (pattern_name pattern) DIAGONAL_LINE then [main_diagonal; anti_diagonal]
  else [].

Definition line_cells (card : BingoCard) (line : list (nat * nat)) : list BingoCell :=
  map (λ '(r, c), cell card r c) line.

(** The number of marked cells of a line. *)
Definition line_marked (card : BingoCard) (line : list (nat * nat)) : nat :=
  length (List.filter marked (line_cells card line)).

(** The values of its cells that are unmarked and not FREE. *)
Definition line_missing (card : BingoCard) (line : list (nat * nat)) : list CellValue :=
  map value (List.filter (λ c, negb (marked c) && negb (is_free c)) (line_cells card line)).

(** The largest number of marked cells over the lines. *)
Definition line_best (card : BingoCard) (lines : list (list (nat * nat))) : nat :=
  list_max (map (line_marked card) lines).

(** The lines with progress that tie at the best count. *)
Definition tied_lines (card : BingoCard) (lines : list (list (nat * nat)))
    : list (list (nat * nat)) :=
  List.filter (λ line, (0 <? line_marked card line)%nat
                       && (line_marked card line =? line_best card lines)%nat) lines.

(** The same over the scans [(markedCount, lineMissing)] of the lines. *)
Definition scan_of (card : BingoCard) (line : list (nat * nat)) : nat * list CellValue :=
  (line_marked card line, line_missing card line).

Definition scans_best (scans : list (nat * list CellValue)) : nat :=
  list_max (map fst scans).

Definition scans_tied (scans : list (nat * list CellValue)) (best : nat)
    : list (nat * list CellValue) :=
  List.filter (λ s, (0 <? fst s)%nat && (fst s =? best)%nat) scans.

(** *** Vocabulary for sorted results *)

(** [l] is ordered by the comparator: no element compares greater than a
    later one. *)
Definition ordered_by {A} (compare : A → A → Z) (l : list A) : Prop :=
  ∀ i j x y, (i < j)%nat → l !! i = Some x → l !! j = Some y → compare x y ≤ 0.

(** The analyses of the patterns that [card] has not won. *)
Definition open_analysis (card : BingoCard) (patterns : list WinningPattern)
    (a : WaitingNumberAnalysis) : Prop :=
  isWinner a = false
  ∧ ∃ pattern, In pattern patterns ∧ analyzeCardForPattern card pattern = Some a.

(** *** Vocabulary for the game analysis *)

(** A record that is not a winner record. *)
Definition open_record (a : WaitingNumberAnalysis) : bool := negb (isWinner a).

(** A record one number away from a win. *)
Definition pot_record (a : WaitingNumberAnalysis) : bool :=
  negb (isWinner a) && (length (missingNumbers a) =? 1)%nat.

(** A record that is not a winner record has something missing, and its
    pot flag says whether that is one number. *)
Definition waiting_record (a : WaitingNumberAnalysis) : Prop :=
  isWinner a = false →
  onPot a = (length (missingNumbers a) =? 1)%nat ∧ missingNumbers a ≠ [].

(** The lists analyzeGame keeps beside [cardAnalyses], as functions of it. *)
Definition lists_ok (st : GameState) : Prop :=
  Forall waiting_record (st_cardAnalyses st) ∧
  st_winningCards st = List.filter isWinner (st_cardAnalyses st)
  ∧ st_potCards st = List.filter pot_record (st_cardAnalyses st)
  ∧ st_nextNumbersSet st
    = foldl set_add []
        (concat (map missingNumbers (List.filter open_record (st_cardAnalyses st)))).

(** The number is on the missing list of the card for the pattern. *)
Definition waits_for (num : number) (card : BingoCard) (pattern : WinningPattern) : bool :=
  includes_number (default [] (getMissingNumbers card pattern)) num.

(** The pairs of a card and a pattern, cards first, in loop order. *)
Definition card_pattern_pairs (cards : list BingoCard) (patterns : list WinningPattern)
    : list (BingoCard * WinningPattern) :=
  flat_map (λ card, map (λ pattern, (card, pattern)) patterns) cards.

(** ** gameSession.ts: the rest of the session *)

(** [num < k] and [num > k] against an integer constant. *)
Definition number_ltb (num : number) (k : Z) : bool :=
  match num with
  | Int z => z <? k
  | Fraction floor _ => floor <? k
  | NegInfinity => true
  | NaN | PosInfinity => false
  end.

Definition number_gtb (num : number) (k : Z) : bool :=
  match num with
  | Int z => k <? z
  | Fraction floor _ => k <=? floor
  | PosInfinity => true
  | NaN | NegInfinity => false
  end.

(** getNumberColumn (lines 31-40); [None] is [null]. *)
Definition getNumberColumn (num : number) : option Column :=
  if number_geb num 1 && number_leb num 15 then Some B
  else if number_geb num 16 && number_leb num 30 then Some I
  else if number_geb num 31 && number_leb num 45 then Some N
  else if number_geb num 46 && number_leb num 60 then Some G
  else if number_geb num 61 && number_leb num 75 then Some O
  else None.

(** [a === b] on numbers: NaN equals nothing. *)
Definition strict_equal (a b : number) : bool :=
  match a with NaN => false | _ => bool_decide (a = b) end.

(** removeCalledNumber (lines 89-97) *)
Definition removeCalledNumber (session : loc) (num : number) : M loc :=
  (let! o := deref session in
   match o with
   | ObjSession cardIds patternIds called start active =>
     let! ns := read_numbers called in
     let! newCalled := alloc (ObjNumbers (List.filter (λ n, negb (strict_equal n num)) ns)) in
     alloc (ObjSession cardIds patternIds newCalled start active)
   | _ => throw TypeError
   end)%store.

(** The functions below only read the session; they are functions of its
    value. *)



(** hasBeenCalled (lines 113-115) *)
Definition hasBeenCalled (session : GameSession) (num : number) : bool :=
  includes (calledNumbers session) num.

(** getUncalledNumbers (lines 120-123) *)
Definition getUncalledNumbers (session : GameSession) : list number :=
  let allNumbers := map (λ i, Int (Z.of_nat i + 1)) (seq 0 75) in
  List.filter (λ n, negb (includes (calledNumbers session) n)) allNumbers.

(** The value of [(totalCalled / 75) * 100], kept as its operand. *)
Inductive Percent :=
| PercentOf75 (count : Z).

Record GameSessionStats := {
  totalCalled : Z;
  remaining : Z;
  percentComplete : Percent;
  lastCalled : option number        (* [None] is [null] *)
}.

(** getSessionStats (lines 135-150) *)
Definition getSessionStats (session : GameSession) : GameSessionStats :=
  let totalCalled := Z.of_nat (length (calledNumbers session)) in
  let remaining := 75 - totalCalled in
  let percentComplete := PercentOf75 totalCalled in
  let lastCalled :=
    if (0 <? length (calledNumbers session))%nat
    then calledNumbers session !! (length (calledNumbers session) - 1)%nat
    else None in
  {| totalCalled := totalCalled; remaining := remaining;
     percentComplete := percentComplete; lastCalled := lastCalled |}.

(** The call history is made of distinct integers in 1-75. *)
Definition calls_ok (ns : list number) : bool :=
  forallb isValidBingoNumber ns && bool_decide (NoDup ns).

(** ** cardValidation.ts *)

Record ColumnRange := {
  range_min : Z;
  range_max : Z;
  range_letter : Column
}.

(** [COLUMN_RANGES[columnIndex]]; [None] is [undefined]. *)
Definition COLUMN_RANGES (columnIndex : nat) : option ColumnRange :=
  match columnIndex with
  | 0%nat => Some {| range_min := 1; range_max := 15; range_letter := B |}
  | 1%nat => Some {| range_min := 16; range_max := 30; range_letter := I |}
  | 2%nat => Some {| range_min := 31; range_max := 45; range_letter := N |}
  | 3%nat => Some {| range_min := 46; range_max := 60; range_letter := G |}
  | 4%nat => Some {| range_min := 61; range_max := 75; range_letter := O |}
  | _ => None
  end.

(** The error texts: 'Invalid column', '<letter> column must be
    <min>-<max>', 'All cells must be filled', 'Duplicate number: <value>'
    and 'Number <number> already used', each kept with the values it is
    built from. *)
Inductive ValidationError :=
| InvalidColumn
| ColumnMustBe (range : ColumnRange)
| AllCellsMustBeFilled
| DuplicateNumber (v : CellValue)
| AlreadyUsed (num : number).

Record ValidationResult := {
  isValid : bool;
  error : option ValidationError
}.

Definition valid : ValidationResult := {| isValid := true; error := None |}.
Definition invalid (e : ValidationError) : ValidationResult :=
  {| isValid := false; error := Some e |}.

(** validateNumberForColumn (lines 24-43) *)
Definition validateNumberForColumn (num : number) (columnIndex : nat) : ValidationResult :=
  match COLUMN_RANGES columnIndex with
  | None => invalid InvalidColumn
  | Some range =>
    if number_ltb num (range_min range) || number_gtb num (range_max range)
    then invalid (ColumnMustBe range)
    else valid
  end.

(** A cell value in a numeric comparison: the empty string converts to 0,
    'FREE' to NaN. *)
Definition to_number (v : CellValue) : number :=
  match v with Num n => Int n | Blank => Int 0 | FREE => NaN end.

(** A loop whose body may [return] a result out of the function ([inr]) or
    go on with new local variables ([inl]). *)
Fixpoint loopM {A S R} (body : S → A → option (S + R)) (s : S) (l : list A)
    : option (S + R) :=
  match l with
  | [] => Some (inl s)
  | x :: l' =>
    r ← body s x;
    match r with
    | inl s' => loopM body s' l'
    | inr v => Some (inr v)
    end
  end.

Definition loop2 {S R} (rows cols : nat) (body : nat → nat → S → option (S + R))
    (s : S) : option (S + R) :=
  loopM (λ s row, loopM (λ s col, body row col s) s (seq 0 cols)) s (seq 0 rows).

(** isDuplicateNumber (lines 47-57) *)
Definition isDuplicateNumber (card : BingoCard) (num : number) : option bool :=
  anyM (λ row, anyM (λ col,
    c ← cell_at card row col;
    Some (negb (is_free c) && value_is (value c) num)) (seq 0 5)) (seq 0 5).

(** validateCompleteCard (lines 62-93); [numbers] is the [Set]. *)
Definition validateCompleteCard (card : BingoCard) : option ValidationResult :=
  r ← loop2 5 5 (λ row col numbers,
         c ← cell_at card row col;
         let value := value c in
         if is_free c then Some (inl numbers)
         else if negb (value_nonzero value)
         then Some (inr (invalid AllCellsMustBeFilled))
         else
           let validation := validateNumberForColumn (to_number value) col in
           if negb (isValid validation) then Some (inr validation)
           else if bool_decide (value ∈ numbers)
           then Some (inr (invalid (DuplicateNumber value)))
           else Some (inl (set_add numbers value))) [];
  Some (match r with inl _ => valid | inr result => result end).

(** validateNumberEntry (lines 114-139) *)
Definition validateNumberEntry (card : BingoCard) (num : number) (row col : nat)
    : option ValidationResult :=
  let rangeValidation := validateNumberForColumn num col in
  if negb (isValid rangeValidation) then Some rangeValidation
  else
    r ← loop2 5 5 (λ r c (_ : unit),
           if (r =? row)%nat && (c =? col)%nat then Some (inl tt)
           else
             cl ← cell_at card r c;
             if negb (is_free cl) && value_is (value cl) num
             then Some (inr (invalid (AlreadyUsed num)))
             else Some (inl tt)) tt;
    Some (match r with inl _ => valid | inr result => result end).

(** ** bingoGenerator.ts: the rest of the card functions *)

Definition COLUMNS : list Column := [B; I; N; G; O].

(** validateBingoCard (lines 106-124); [numbers] is the [Set]. *)
Definition validateBingoCard (card : BingoCard) : option bool :=
  r ← loop2 5 5 (λ row col numbers,
         c ← cell_at card row col;
         let value := value c in
         if is_free c then Some (inl numbers)
         else if bool_decide (value ∈ numbers) then Some (inr false)
         else Some (inl (set_add numbers value))) [];
  Some (match r with inl _ => true | inr result => result end).

(** getCardNumbers (lines 129-142) *)
Definition getCardNumbers (card : BingoCard) : option (list CellValue) :=
  for2 5 5 (λ row col numbers,
    c ← cell_at card row col;
    Some (if negb (is_free c) then numbers ++ [value c] else numbers)) [].

(** [cell.marked = false] *)
Definition set_unmarked (c : BingoCell) : BingoCell :=
  {| column := column c; value := value c; marked := false |}.

(** The loop body of resetCard: [if (resetCard.cells[row][col].value !==
    'FREE') resetCard.cells[row][col].marked = false]. *)
Definition reset_at (resetCard : loc) (row col : nat) : M unit :=
  (let! o := deref resetCard in
   match o with
   | ObjCard _ _ cellsRef _ =>
     let! rowRef := index cellsRef row in
     let! cellRef := index rowRef col in
     let! c := read_cell cellRef in
     if negb (is_free c) then store cellRef (ObjCell (set_unmarked c))
     else ret tt
   | _ => throw TypeError
   end)%store.

(** resetCard (lines 164-176) *)
Definition resetCard (card : loc) : M loc :=
  (let! json := stringify_card card in
   let! resetCard := parse_card json in
   let! _ := for2S 5 5 (reset_at resetCard) in
   ret resetCard)%store.

(** The reset, cell by cell. *)
Definition reset_cell (c : BingoCell) : BingoCell :=
  if negb (is_free c) then set_unmarked c else c.

(** The values of the cells of a card that are not FREE, in row-major
    order. *)
Definition card_values (card : BingoCard) : list CellValue :=
  map value (List.filter (λ c, negb (is_free c))
               (map (λ '(r, c), cell card r c) (positions 5 5))).

(** The value is a number within the range of the column. *)
Definition in_column_range (v : CellValue) (col : nat) : Prop :=
  ∃ n range, v = Num n ∧ COLUMN_RANGES col = Some range
             ∧ range_min range ≤ n ≤ range_max range.

(** A session in which 5, 16 and 75 have been called. *)
Definition three_calls : GameSession :=
  with_called example_session [Int 5; Int 16; Int 75].

(** The cells of a card in row-major order. *)
Definition all_cells (card : BingoCard) : list BingoCell :=
  map (λ '(r, c), cell card r c) (positions 5 5).

(** The cell at a position passes the tests of validateCompleteCard that
    come before the duplicate test. *)
Definition cell_ok (card : BingoCard) (p : nat * nat) : bool :=
  let c := cell card (fst p) (snd p) in
  is_free c
  || (value_nonzero (value c)
      && isValid (validateNumberForColumn (to_number (value c)) (snd p))).

(** The values of the cells of a list that are not FREE. *)
Definition nonfree_values (cs : list BingoCell) : list CellValue :=
  map value (List.filter (λ c, negb (is_free c)) cs).

(** One step of the duplicate scan of validateBingoCard. *)
Definition duplicate_step (numbers : list CellValue) (c : BingoCell)
    : list CellValue + bool :=
  if is_free c then inl numbers
  else if bool_decide (value c ∈ numbers) then inr false
  else inl (set_add numbers (value c)).

(** One step of the scan of validateCompleteCard. *)
Definition complete_step (numbers : list CellValue) (c : BingoCell) (col : nat)
    : list CellValue + ValidationResult :=
  if is_free c then inl numbers
  else if negb (value_nonzero (value c)) then inr (invalid AllCellsMustBeFilled)
  else
    let validation := validateNumberForColumn (to_number (value c)) col in
    if negb (isValid validation) then inr validation
    else if bool_decide (value c ∈ numbers) then inr (invalid (DuplicateNumber (value c)))
    else inl (set_add numbers (value c)).

(** The cell at [p] is the entry cell or does not hold the number. *)
Definition entry_free (card : BingoCard) (num : number) (row col : nat)
    (p : nat * nat) : bool :=
  ((fst p =? row)%nat && (snd p =? col)%nat)
  || negb (value_is (value (cell card (fst p) (snd p))) num).

(** *** Loops that rewrite the cells of a parsed card *)

(** The effect of a cell-by-cell loop on one object. *)
Definition update_obj (f : BingoCell → BingoCell) (o : object) : object :=
  match o with ObjCell c => ObjCell (f c) | _ => o end.

(** The store [h] during such a loop that started from [h1]: every object
    is as it was or is a rewritten cell, and nothing below [n0] moved. *)
Definition update_inv (f : BingoCell → BingoCell) (n0 : nat) (h1 h : heap) : Prop :=
  length h = length h1
  ∧ (∀ l, h !! l = h1 !! l ∨ h !! l = update_obj f <$> h1 !! l)
  ∧ (∀ l, (l < n0)%nat → h !! l = h1 !! l).

(** The cells at the positions [ps] of the matrix [locs] have been treated. *)
Definition updated_at (f : BingoCell → BingoCell) (locs : list (list loc)) (h1 h : heap)
    (ps : list (nat * nat)) : Prop :=
  ∀ r k lr x, (r, k) ∈ ps → locs !! r = Some lr → lr !! k = Some x →
    h !! x = update_obj f <$> h1 !! x.

(** What a loop body does to the cell at [(row, col)] of the card at [u]:
    it writes [f] of the cell and nothing else. *)
Definition rewrites_cell (f : BingoCell → BingoCell) (body : loc → nat → nat → M unit)
    : Prop :=
  ∀ h u id name cl t rowRefs rr lr x cx r k,
    h !! u = Some (ObjCard id name cl t) →
    get_array h cl = Some rowRefs → rowRefs !! r = Some rr →
    get_array h rr = Some lr → lr !! k = Some x →
    h !! x = Some (ObjCell cx) →
    ∃ h', body u r k h = Returned tt h'
      ∧ h' !! x = Some (ObjCell (f cx))
      ∧ (∀ l, l ≠ x → h' !! l = h !! l)
      ∧ length h' = length h.

(** Every number on the card is a called number other than 0 (and every
    other cell is FREE). *)
Definition fully_called (nums : list number) (card : BingoCard) : Prop :=
  forallb (λ '(row, col),
             match value (cell card row col) with
             | FREE => true
             | Num n => negb (n =? 0) && includes nums (Int n)
             | Blank => false
             end) (positions 5 5) = true.

(** A store holding [card_two_pairs] at 31, the card list at 32 and, as
    called numbers at 33, every number of the card. *)
Definition all_called : list number :=
  map Int [1; 16; 31; 46; 61; 2; 17; 32; 47; 62; 3; 18; 48; 63;
           4; 19; 34; 49; 64; 5; 20; 35; 50; 65].

Definition full_call_heap : heap :=
  heap_of (parse_card card_two_pairs []) ++ [ObjArray [31%nat]; ObjNumbers all_called].

(** The same card in a store where no number has been called. *)
Definition empty_call_heap : heap :=
  heap_of (parse_card card_two_pairs []) ++ [ObjArray [31%nat]; ObjNumbers []].

(** ** bingoGenerator.ts: the generator *)

(** [COLUMN_RANGES[column]] of bingoGenerator.ts: [(min, max)]. *)
Definition GENERATOR_RANGES (col : Column) : Z * Z :=
  match col with
  | B => (1, 15)
  | I => (16, 30)
  | N => (31, 45)
  | G => (46, 60)
  | O => (61, 75)
  end.

(** [Set.prototype.add] on a set of numbers. *)
Definition add_number (s : list Z) (n : Z) : list Z :=
  if decide (n ∈ s) then s else s ++ [n].

(** The loop [while (numbers.size < count)] of generateColumnNumbers.
    [draws] is the random source: the values that
    [Math.floor(Math.random() * (range.max - range.min + 1))] takes, in call
    order; the loop needs one per iteration and [None] says that the source
    ran out before the set was full. *)
Fixpoint column_loop (min : Z) (count : nat) (numbers draws : list Z) {struct draws}
    : option (list Z * list Z) :=
  if (length numbers <? count)%nat then
    match draws with
    | [] => None
    | d :: draws' => column_loop min count (add_number numbers (d + min)) draws'
    end
  else Some (numbers, draws).

(** generateColumnNumbers (lines 33-47): the numbers and the rest of the
    random source. *)
Definition generateColumnNumbers (col : Column) (count : nat) (draws : list Z)
    : option (list Z * list Z) :=
  let range := GENERATOR_RANGES col in
  column_loop (fst range) count [] draws.

#[global] Instance Column_inhabited : Inhabited Column := populate B.

(** The cells after the first pair of loops of generateBingoCard. *)
Definition placeholder_cells : list (list BingoCell) :=
  map (λ row, map (λ col,
    if (row =? 2)%nat && (col =? 2)%nat
    then {| column := N; value := FREE; marked := true |}
    else {| column := COLUMNS !!! col; value := Num 0; marked := false |})
    (seq 0 5)) (seq 0 5).

(** [cells[row][col].value = v] *)
Definition set_value (cs : list (list BingoCell)) (row col : nat) (v : CellValue)
    : list (list BingoCell) :=
  alter (alter (λ c, {| column := column c; value := v; marked := marked c |}) col) row cs.

(** The loop that assigns the numbers of one column; [numbers] has [count]
    elements, so [numbers[numIndex]] is read inside it. *)
Definition fill_column (col : nat) (numbers : list Z) (cs : list (list BingoCell))
    : option (list (list BingoCell)) :=
  fst <$> foldM (λ '(cs, numIndex) row,
            if (row =? 2)%nat && (col =? 2)%nat then Some (cs, numIndex)
            else
              n ← numbers !! numIndex;
              Some (set_value cs row col (Num n), S numIndex))
          (cs, 0%nat) (seq 0 5).

(** generateBingoCard (lines 52-101).  [id] is the string built from
    [Date.now()] and [Math.random()], [now] the value of [Date.now()]; the
    result comes with the rest of the random source. *)
Definition generateBingoCard (id : string) (now : Z) (draws : list Z)
    : option (BingoCard * list Z) :=
  '(cs, rest) ← foldM (λ '(cs, draws) col,
      column ← COLUMNS !! col;
      '(numbers, draws') ← generateColumnNumbers column 5 draws;
      cs' ← fill_column col numbers cs;
      Some (cs', draws')) (placeholder_cells, draws) (seq 0 5);
  Some ({| card_id := id; card_name := None; cells := cs; card_createdAt := now |}, rest).

(** A random source that gives 0, 1, 2, 3, 4 for every column. *)
Definition example_draws : list Z :=
  [0; 1; 2; 3; 4; 0; 1; 2; 3; 4; 0; 0; 1; 2; 3; 4; 0; 1; 2; 3; 4; 0; 1; 2; 3; 4].

(** The index into the numbers of a column that the assignment loop of
    generateBingoCard uses at a row: the centre is skipped without a step. *)
Definition number_index (row col : nat) : nat :=
  if (col =? 2)%nat && (2 <? row)%nat then (row - 1)%nat else row.

(** ** exportImportService.ts: the validator of imported cards *)

(** A value read by [JSON.parse]; the fields of an object are its own
    properties, each key once. *)
#[warnings="-register-all"] Inductive json :=
| JNull
| JBool (b : bool)
| JNumber (n : number)
| JString (s : string)
| JArray (items : list json)
| JObject (fields : list (string * json)).

Fixpoint assoc (key : string) (fields : list (string * json)) : option json :=
  match fields with
  | [] => None
  | (k, v) :: rest => if String.eqb k key then Some v else assoc key rest
  end.

(** [v.key] for one of the keys read below; [None] is [undefined]. *)
Definition get (v : json) (key : string) : option json :=
  match v with JObject fields => assoc key fields | _ => None end.

(** The value in a condition. *)
Definition truthy (v : option json) : bool :=
  match v with
  | None | Some JNull => false
  | Some (JBool b) => b
  | Some (JNumber n) => negb (bool_decide (n = Int 0)) && negb (bool_decide (n = NaN))
  | Some (JString s) => negb (String.eqb s "")
  | Some (JArray _) | Some (JObject _) => true
  end.

(** [typeof v === "object"], ["number"], ["string"], ["boolean"];
    [v === null]. *)
Definition is_object (v : option json) : bool :=
  match v with Some JNull | Some (JArray _) | Some (JObject _) => true | _ => false end.
Definition is_number (v : option json) : bool :=
  match v with Some (JNumber _) => true | _ => false end.
Definition is_string (v : option json) : bool :=
  match v with Some (JString _) => true | _ => false end.
Definition is_boolean (v : option json) : bool :=
  match v with Some (JBool _) => true | _ => false end.
Definition is_null (v : option json) : bool :=
  match v with Some JNull => true | _ => false end.

(** The body of the loop over the cells of a row of validateCard;
    [false] is [return false]. *)
Definition validateCell (c : json) : bool :=
  if negb (truthy (Some c)) || negb (is_object (Some c)) then false
  else if negb (is_number (get c "value")) && negb (is_null (get c "value")) then false
  else if negb (is_boolean (get c "marked")) then false
  else true.

(** validateCard (exportImportService.ts, lines 34-53) *)
Definition validateCard (card : json) : bool :=
  if negb (truthy (Some card)) || negb (is_object (Some card)) then false
  else if negb (is_string (get card "id")) then false
  else
    match get card "cells" with
    | Some (JArray rows) =>
      if negb (length rows =? 5)%nat then false
      else if negb (forallb (λ row,
                      match row with
                      | JArray cs => (length cs =? 5)%nat && forallb validateCell cs
                      | _ => false
                      end) rows) then false
      else if truthy (get card "name") && negb (is_string (get card "name")) then false
      else if truthy (get card "createdAt") && negb (is_number (get card "createdAt"))
      then false
      else true
    | _ => false
    end.

(** What [JSON.parse(JSON.stringify(card))] reads for a card, as exportData
    writes it and importData reads it back. *)
Definition column_name (c : Column) : string :=
  match c with B => "B" | I => "I" | N => "N" | G => "G" | O => "O" end.

Definition value_json (v : CellValue) : json :=
  match v with
  | Num n => JNumber (Int n)
  | FREE => JString "FREE"
  | Blank => JString ""
  end.

Definition cell_json (c : BingoCell) : json :=
  JObject [ ("column"%string, JString (column_name (column c)));
            ("value"%string, value_json (value c));
            ("marked"%string, JBool (marked c)) ].

Definition card_json (card : BingoCard) : json :=
  JObject ([ ("id"%string, JString (card_id card)) ]
           ++ match card_name card with
              | Some name => [ ("name"%string, JString name) ]
              | None => []
              end
           ++ [ ("cells"%string,
                 JArray (map (λ row, JArray (map cell_json row)) (cells card)));
                ("createdAt"%string, JNumber (Int (card_createdAt card))) ]).

(** The cell holds a number. *)
Definition is_numeric (c : BingoCell) : bool :=
  match value c with Num _ => true | _ => false end.

(** * Verification *)

(** ** Loops over lists *)

Section loops.
Context {A S : Type}.

Lemma foldM_pure (f : S → A → option S) (g : S → A → S) (l : list A) :
    (∀ s x, x ∈ l → f s x = Some (g s x)) →
    ∀ s, foldM f s l = Some (foldl g s l).
  Proof.
    induction l as [|x l IH]; intros Hf s; [reflexivity|].
    cbn. rewrite Hf by left. cbn. apply IH. intros. apply Hf. by right.
  Qed.

Lemma foldM_app (f : S → A → option S) (l1 l2 : list A) (s : S) :
    foldM f s (l1 ++ l2) = s' ← foldM f s l1; foldM f s' l2.
  Proof.
    revert s. induction l1 as [|x l1 IH]; intros s; [reflexivity|].
    cbn. destruct (f s x) as [s'|]; cbn; [apply IH|reflexivity].
  Qed.

Lemma foldM_is_Some (f : S → A → option S) (l : list A) :
    (∀ s x, x ∈ l → is_Some (f s x)) → ∀ s, is_Some (foldM f s l).
  Proof.
    induction l as [|x l IH]; intros Hf s; [by eexists|].
    cbn. destruct (Hf s x) as [s' ->]; [left|]. cbn.
    apply IH. intros. apply Hf. by right.
  Qed.

Lemma anyM_pure (f : A → option bool) (g : A → bool) (l : list A) :
    (∀ x, x ∈ l → f x = Some (g x)) → anyM f l = Some (existsb g l).
  Proof.
    induction l as [|x l IH]; intros Hf; [reflexivity|].
    cbn. rewrite Hf by left. cbn. destruct (g x); [reflexivity|].
    apply IH. intros. apply Hf. by right.
  Qed.

Lemma allM_pure (f : A → option bool) (g : A → bool) (l : list A) :
    (∀ x, x ∈ l → f x = Some (g x)) → allM f l = Some (forallb g l).
  Proof.
    induction l as [|x l IH]; intros Hf; [reflexivity|].
    cbn. rewrite Hf by left. cbn. destruct (g x); [|reflexivity].
    apply IH. intros. apply Hf. by right.
  Qed.
End loops.

Lemma elem_of_positions rows cols row col :
  (row, col) ∈ positions rows cols ↔ (row < rows)%nat ∧ (col < cols)%nat.
Proof.
  unfold positions. rewrite list_elem_of_In, in_flat_map. split.
  - intros (r & Hr & Hc). apply in_map_iff in Hc as (c & [= -> ->] & Hc).
    apply in_seq in Hr, Hc. lia.
  - intros [Hr Hc]. exists row. split; [apply in_seq; lia|].
    apply in_map_iff. exists col. split; [done|apply in_seq; lia].
Qed.

Lemma for2_positions {S} rows cols (body : nat → nat → S → option S) s :
  for2 rows cols body s = foldM (λ s '(row, col), body row col s) s (positions rows cols).
Proof.
  unfold for2, positions. generalize (seq 0 rows) as rs. intros rs. revert s.
  induction rs as [|r rs IH]; intros s; [reflexivity|].
  cbn [foldM flat_map]. rewrite foldM_app.
  assert (∀ cs s, foldM (λ s col, body r col s) s cs
          = foldM (λ s '(row, col), body row col s) s (map (λ col, (r, col)) cs)) as ->.
  { induction cs as [|c cs IHc]; intros s0; [reflexivity|].
    cbn. destruct (body r c s0); cbn; [apply IHc|reflexivity]. }
  destruct (foldM _ s (map _ (seq 0 cols))); cbn; [apply IH|reflexivity].
Qed.

Lemma existsb_map {A C} (h : A → C) (g : C → bool) (l : list A) :
  existsb g (map h l) = existsb (λ x, g (h x)) l.
Proof. induction l as [|x l IH]; [reflexivity|]. cbn. by rewrite IH. Qed.

Lemma forallb_map {A C} (h : A → C) (g : C → bool) (l : list A) :
  forallb g (map h l) = forallb (λ x, g (h x)) l.
Proof. induction l as [|x l IH]; [reflexivity|]. cbn. by rewrite IH. Qed.

Lemma existsb_eq {A} (f g : A → bool) (l : list A) :
  (∀ x, f x = g x) → existsb f l = existsb g l.
Proof. intros E. induction l as [|x l IH]; [reflexivity|]. cbn. by rewrite E, IH. Qed.

Lemma forallb_eq {A} (f g : A → bool) (l : list A) :
  (∀ x, f x = g x) → forallb f l = forallb g l.
Proof. intros E. induction l as [|x l IH]; [reflexivity|]. cbn. by rewrite E, IH. Qed.

Lemma existsb_positions rows cols (g : nat → nat → bool) :
  existsb (λ row, existsb (g row) (seq 0 cols)) (seq 0 rows)
  = existsb (λ '(row, col), g row col) (positions rows cols).
Proof.
  unfold positions. induction (seq 0 rows) as [|r rs IH]; [reflexivity|].
  cbn. by rewrite existsb_app, IH, existsb_map.
Qed.

Lemma forallb_positions rows cols (g : nat → nat → bool) :
  forallb (λ row, forallb (g row) (seq 0 cols)) (seq 0 rows)
  = forallb (λ '(row, col), g row col) (positions rows cols).
Proof.
  unfold positions. induction (seq 0 rows) as [|r rs IH]; [reflexivity|].
  cbn. by rewrite forallb_app, IH, forallb_map.
Qed.

(** ** Well-formed cards and grids *)

Lemma shape5_lookup {A} `{Inhabited A} (m : list (list A)) row col :
  shape5 m = true → (row < 5)%nat → (col < 5)%nat →
  m !! row = Some (m !!! row) ∧ (m !!! row) !! col = Some ((m !!! row) !!! col).
Proof.
  unfold shape5. intros [Hlen Hrows]%andb_prop Hr Hc.
  apply Nat.eqb_eq in Hlen. rewrite forallb_forall in Hrows.
  assert (m !! row = Some (m !!! row)) as Hrow
    by (apply list_lookup_lookup_total_lt; lia).
  split; [done|]. apply list_lookup_lookup_total_lt.
  specialize (Hrows (m !!! row)). rewrite Nat.eqb_eq in Hrows.
  rewrite Hrows; [lia|]. apply list_elem_of_In.
  eapply list_elem_of_lookup_2. exact Hrow.
Qed.

Lemma cell_at_shape card row col :
  card_shape card → (row < 5)%nat → (col < 5)%nat →
  cell_at card row col = Some (cell card row col).
Proof.
  intros Hs Hr Hc. destruct (shape5_lookup _ row col Hs Hr Hc) as [E1 E2].
  unfold cell_at, cell. rewrite E1. cbn. exact E2.
Qed.

Lemma grid_at_shape pattern row col :
  grid_shape pattern → (row < 5)%nat → (col < 5)%nat →
  grid_at pattern row col = Some (required pattern row col).
Proof.
  intros Hs Hr Hc. destruct (shape5_lookup _ row col Hs Hr Hc) as [E1 E2].
  unfold grid_at, required. rewrite E1. cbn. by rewrite E2.
Qed.

(** ** Adjacent pairs *)

Lemma read_pair_Some a b : read_pair (Some a) (Some b) = Some (pair_of a b).
Proof. unfold read_pair, pair_of. cbn. by destruct (is_free a), (is_free b). Qed.

Lemma horizontal_pair_shape card row col :
  card_shape card → (row < 5)%nat → (col < 4)%nat →
  horizontal_pair card row col
  = Some (pair_of (cell card row col) (cell card row (col + 1))).
Proof.
  intros Hs Hr Hc. unfold horizontal_pair, cell.
  destruct (shape5_lookup _ row col Hs Hr) as [E1 E2]; [lia|].
  destruct (shape5_lookup _ row (col + 1) Hs Hr) as [_ E3]; [lia|].
  rewrite E1. cbn. rewrite E2, E3. apply read_pair_Some.
Qed.

Lemma vertical_pair_shape card row col :
  card_shape card → (row < 4)%nat → (col < 5)%nat →
  vertical_pair card row col
  = Some (pair_of (cell card row col) (cell card (row + 1) col)).
Proof.
  intros Hs Hr Hc. unfold vertical_pair, cell.
  destruct (shape5_lookup _ row col Hs) as [E1 E2]; [lia..|].
  destruct (shape5_lookup _ (row + 1) col Hs) as [E3 E4]; [lia..|].
  rewrite E1, E3. cbn. rewrite E2, E4. apply read_pair_Some.
Qed.

Lemma progressing_app l1 l2 : progressing (l1 ++ l2) = progressing l1 ++ progressing l2.
Proof. unfold progressing. by rewrite !List.filter_app. Qed.

Lemma best_count_app l1 l2 :
  best_count (l1 ++ l2) = Nat.max (best_count l1) (best_count l2).
Proof. unfold best_count. by rewrite progressing_app, map_app, list_max_app. Qed.

Lemma markedCount_le_best pairs p :
  In p (progressing pairs) → (markedCount p ≤ best_count pairs)%nat.
Proof.
  intros Hp. unfold best_count.
  pose proof (proj1 (list_max_le (map markedCount (progressing pairs)) _) (le_n _)) as H.
  rewrite List.Forall_forall in H. apply H, in_map, Hp.
Qed.

Lemma filter_none {A} (f : A → bool) (l : list A) :
  (∀ x, In x l → f x = false) → List.filter f l = [].
Proof.
  induction l as [|x l IH]; intros Hf; [reflexivity|].
  cbn. rewrite Hf by (by left). apply IH. intros. apply Hf. by right.
Qed.

Lemma length_unmarked_values p :
  (length (unmarked_values p) + markedCount p = 2)%nat.
Proof.
  destruct p as [a b]. unfold unmarked_values, markedCount, pair_missing,
    pair_markedCount; cbn. by destruct (marked a), (marked b).
Qed.

(** The loop of getWinningPaths over pairs, as a function of the pairs. *)
Lemma pair_paths_fold pairs :
  foldl pair_step_paths ([], 0%nat) (map (λ p, pair_of (fst p) (snd p)) pairs)
  = (map unmarked_values
       (List.filter (λ p, (markedCount p =? best_count pairs)%nat
                          && (0 <? length (unmarked_values p))%nat)
                    (progressing pairs)),
     best_count pairs).
Proof.
  induction pairs as [|x pairs IH] using rev_ind; [reflexivity|].
  rewrite map_app, foldl_app, IH. clear IH. cbn [map foldl].
  rewrite progressing_app, best_count_app, List.filter_app, map_app.
  set (b := best_count pairs).
  assert (Hle : ∀ p, In p (progressing pairs) → (markedCount p ≤ b)%nat)
    by apply markedCount_le_best.
  destruct x as [x1 x2]. unfold pair_of, pair_step_paths. cbn [fst snd].
  unfold best_count, progressing, touches_free. cbn [List.filter fst snd].
  destruct (is_free x1 || is_free x2); cbn [negb List.filter map list_max fold_right].
  { rewrite Nat.max_0_r, app_nil_r. reflexivity. }
  change (pair_markedCount x1 x2) with (markedCount (x1, x2)).
  change (pair_missing x1 x2) with (unmarked_values (x1, x2)).
  pose proof (length_unmarked_values (x1, x2)) as Hlen.
  set (m := markedCount (x1, x2)) in *.
  destruct (Nat.ltb_spec 0 m) as [Hm|Hm]; cbn [List.filter map list_max fold_right].
  2:{ rewrite Nat.max_0_r, app_nil_r. reflexivity. }
  fold m. rewrite (Nat.max_0_r m).
  destruct (Nat.ltb_spec b m) as [Hb|Hb]; cbn [fst snd].
  - rewrite Nat.eqb_refl. replace (Nat.max b m) with m by lia.
    rewrite filter_none.
    2:{ intros p Hp. apply Hle in Hp. apply andb_false_intro1, Nat.eqb_neq. lia. }
    rewrite Nat.eqb_refl. cbn [andb].
    destruct (0 <? length (unmarked_values (x1, x2)))%nat; reflexivity.
  - replace (Nat.max b m) with b by lia.
    destruct (Nat.eqb_spec m b) as [E|E]; cbn [andb].
    + destruct (0 <? length (unmarked_values (x1, x2)))%nat; cbn [fst snd map];
        by rewrite ?app_nil_r.
    + by rewrite app_nil_r.
Qed.

Lemma markedCount_le_2 p : (markedCount p ≤ 2)%nat.
Proof. pose proof (length_unmarked_values p). lia. Qed.

Lemma best_count_le_2 pairs : (best_count pairs ≤ 2)%nat.
Proof.
  unfold best_count. apply list_max_le, List.Forall_forall.
  intros n (p & <- & _)%in_map_iff. apply markedCount_le_2.
Qed.

(** Some pair is complete exactly when the best count is 2. *)
Lemma pair_complete_best pairs :
  existsb (λ p, pair_complete (pair_of (fst p) (snd p))) pairs
  = (best_count pairs =? 2)%nat.
Proof.
  induction pairs as [|[a b] pairs IH]; [reflexivity|].
  change ((a, b) :: pairs) with ([(a, b)] ++ pairs).
  rewrite existsb_app, best_count_app, IH.
  pose proof (best_count_le_2 pairs). set (bp := best_count pairs) in *.
  unfold best_count, progressing, pair_of, pair_complete, touches_free,
    markedCount, pair_markedCount.
  cbn [existsb List.filter fst snd].
  destruct (is_free a || is_free b); cbn [negb List.filter map list_max fold_right orb].
  { reflexivity. }
  simpl. destruct (marked a) eqn:Ea, (marked b) eqn:Eb; simpl; rewrite ?Ea, ?Eb; simpl;
    destruct (Nat.eqb_spec bp 2);
    try reflexivity; symmetry; try (apply Nat.eqb_eq; lia); apply Nat.eqb_neq; lia.
Qed.

Lemma pair_pattern_spec_intro card pattern pairs :
  checkPattern card pattern
    = Some (existsb (λ p, pair_complete (pair_of (fst p) (snd p))) pairs) →
  getWinningPaths card pattern
    = Some (fst (foldl pair_step_paths ([], 0%nat)
                   (map (λ p, pair_of (fst p) (snd p)) pairs))) →
  pair_pattern_spec card pattern pairs.
Proof.
  intros Hc Hp. rewrite pair_complete_best in Hc. rewrite pair_paths_fold in Hp.
  cbn [fst] in Hp. unfold pair_pattern_spec. cbv zeta.
  pose proof (best_count_le_2 pairs) as Hle.
  split; [exact Hc|]. split; [|split].
  - intros Hne. rewrite Hp. do 2 f_equal. apply List.filter_ext_in.
    intros p Hin. destruct (Nat.eqb_spec (markedCount p) (best_count pairs)) as [E|E];
      [|reflexivity].
    cbn [andb]. apply (proj2 (Nat.ltb_lt _ _)).
    pose proof (length_unmarked_values p). lia.
  - intros E2. rewrite Hp. f_equal. rewrite filter_none; [reflexivity|].
    intros p Hin. destruct (Nat.eqb_spec (markedCount p) (best_count pairs)) as [E|E];
      [|reflexivity].
    cbn [andb]. apply (proj2 (Nat.ltb_ge _ _)).
    pose proof (length_unmarked_values p). lia.
  - apply List.Forall_forall. intros p [Hin E]%List.filter_In.
    unfold progressing in Hin. apply List.filter_In in Hin as [Hin Hm].
    apply List.filter_In in Hin as [_ Hf].
    apply Nat.eqb_eq in E. apply Nat.ltb_lt in Hm.
    repeat split; [by destruct (touches_free p)|lia|done].
Qed.

Section pair_loops.
Variable rd : nat → nat → option (option (BingoCell * BingoCell)).
Variable pr : nat → nat → BingoCell * BingoCell.
Variables rows cols : nat.
Hypothesis rd_pr : ∀ r c, (r < rows)%nat → (c < cols)%nat →
    rd r c = Some (pair_of (fst (pr r c)) (snd (pr r c))).

Lemma pair_loop_fold {S} (step : S → option (BingoCell * BingoCell) → S) s :
    for2 rows cols (λ row col st, step st <$> rd row col) s
    = Some (foldl step s (map (λ p, pair_of (fst p) (snd p))
                            (map (λ '(r, c), pr r c) (positions rows cols)))).
  Proof.
    rewrite for2_positions.
    rewrite (foldM_pure _ (λ st '(r, c), step st (pair_of (fst (pr r c)) (snd (pr r c))))).
    - f_equal. generalize (positions rows cols) as l. intros l. revert s.
      induction l as [|[r c] l IH]; intros s; [reflexivity|]. cbn. apply IH.
    - intros st [r c] [Hr Hc]%elem_of_positions. by rewrite rd_pr.
  Qed.

Lemma pair_loop_any :
    anyM (λ row, anyM (λ col, pair_complete <$> rd row col) (seq 0 cols)) (seq 0 rows)
    = Some (existsb (λ p, pair_complete (pair_of (fst p) (snd p)))
                    (map (λ '(r, c), pr r c) (positions rows cols))).
  Proof.
    rewrite (anyM_pure _ (λ row, existsb (λ col,
      pair_complete (pair_of (fst (pr row col)) (snd (pr row col)))) (seq 0 cols))).
    - f_equal. rewrite existsb_positions, existsb_map.
      apply existsb_eq. by intros [r c].
    - intros r Hr%list_elem_of_In%in_seq. apply anyM_pure.
      intros c Hc%list_elem_of_In%in_seq. rewrite rd_pr by lia. reflexivity.
  Qed.
End pair_loops.

Lemma pair_pattern_dikit card pattern :
  card_shape card → pattern_name pattern = DIKIT →
  pair_pattern_spec card pattern (horizontal_pairs card).
Proof.
  intros Hs Hn.
  assert (Hrd : ∀ r c, (r < 5)%nat → (c < 4)%nat →
    horizontal_pair card r c
    = Some (pair_of (fst (cell card r c, cell card r (c + 1)%nat))
                    (snd (cell card r c, cell card r (c + 1)%nat))))
    by (intros; by apply horizontal_pair_shape).
  apply pair_pattern_spec_intro.
  - unfold checkPattern. rewrite Hn. cbn [String.eqb DIKIT].
    rewrite (pair_loop_any _ (λ r c, (cell card r c, cell card r (c + 1)%nat)) 5 4 Hrd).
    reflexivity.
  - unfold getWinningPaths. rewrite Hn.
    change (String.eqb DIKIT DIKIT) with true. cbv iota.
    rewrite (pair_loop_fold _ (λ r c, (cell card r c, cell card r (c + 1)%nat)) 5 4 Hrd).
    reflexivity.
Qed.

Lemma pair_pattern_patong card pattern :
  card_shape card → pattern_name pattern = PATONG →
  pair_pattern_spec card pattern (vertical_pairs card).
Proof.
  intros Hs Hn.
  assert (Hrd : ∀ r c, (r < 4)%nat → (c < 5)%nat →
    vertical_pair card r c
    = Some (pair_of (fst (cell card r c, cell card (r + 1)%nat c))
                    (snd (cell card r c, cell card (r + 1)%nat c))))
    by (intros; by apply vertical_pair_shape).
  apply pair_pattern_spec_intro.
  - unfold checkPattern. rewrite Hn.
    change (String.eqb PATONG DIKIT) with false.
    change (String.eqb PATONG PATONG) with true. cbv iota.
    rewrite (pair_loop_any _ (λ r c, (cell card r c, cell card (r + 1)%nat c)) 4 5 Hrd).
    reflexivity.
  - unfold getWinningPaths. rewrite Hn.
    change (String.eqb PATONG DIKIT) with false.
    change (String.eqb PATONG PATONG) with true. cbv iota.
    rewrite (pair_loop_fold _ (λ r c, (cell card r c, cell card (r + 1)%nat c)) 4 5 Hrd).
    reflexivity.
Qed.

(** ** Standard patterns *)

Lemma standard_names pattern :
  standard pattern →
  String.eqb (pattern_name pattern) DIKIT = false
  ∧ String.eqb (pattern_name pattern) PATONG = false
  ∧ String.eqb (pattern_name pattern) HORIZONTAL_LINE = false
  ∧ String.eqb (pattern_name pattern) VERTICAL_LINE = false
  ∧ String.eqb (pattern_name pattern) DIAGONAL_LINE = false.
Proof.
  unfold standard, special_names. cbn [forallb]. rewrite !andb_true_iff.
  rewrite !negb_true_iff. tauto.
Qed.

Lemma standard_step_shape card pattern row col missing :
  card_shape card → grid_shape pattern → (row < 5)%nat → (col < 5)%nat →
  standard_step card pattern row col missing
  = Some (if required pattern row col
          then standard_cell_step missing (cell card row col) else missing).
Proof.
  intros Hc Hg Hr Hcol. unfold standard_step.
  rewrite grid_at_shape by done. cbn.
  destruct (required pattern row col); [|reflexivity].
  by rewrite cell_at_shape.
Qed.

Lemma standard_fold card pattern (l : list (nat * nat)) (acc : list CellValue) :
  foldl (λ missing '(r, c), if required pattern r c
                            then standard_cell_step missing (cell card r c)
                            else missing) acc l
  = acc ++ map value (List.filter (λ c, negb (marked c) && negb (is_free c))
             (map (λ '(r, c), cell card r c)
                  (List.filter (λ '(r, c), required pattern r c) l))).
Proof.
  revert acc. induction l as [|[r c] l IH]; intros acc; cbn [foldl List.filter map].
  - by rewrite app_nil_r.
  - rewrite IH. destruct (required pattern r c); [|reflexivity].
    cbn [map List.filter]. unfold standard_cell_step.
    destruct (marked (cell card r c)), (is_free (cell card r c));
      cbn [negb andb map]; try reflexivity.
    by rewrite <- app_assoc.
Qed.

Lemma standard_loop card pattern :
  card_shape card → grid_shape pattern →
  for2 5 5 (standard_step card pattern) [] = Some (standard_missing card pattern).
Proof.
  intros Hc Hg. rewrite for2_positions.
  rewrite (foldM_pure _ (λ missing '(r, c), if required pattern r c
             then standard_cell_step missing (cell card r c) else missing)).
  - by rewrite standard_fold.
  - intros s [r c] [Hr Hcol]%elem_of_positions. by apply standard_step_shape.
Qed.

Lemma getMissingNumbers_standard card pattern :
  card_shape card → grid_shape pattern → standard pattern →
  getMissingNumbers card pattern = Some (standard_missing card pattern).
Proof.
  intros Hc Hg (E1 & E2 & E3 & E4 & E5)%standard_names.
  unfold getMissingNumbers. rewrite E1, E2, E3, E4, E5. by apply standard_loop.
Qed.

Lemma getWinningPaths_standard card pattern :
  card_shape card → grid_shape pattern → standard pattern →
  getWinningPaths card pattern
  = Some (if (0 <? length (standard_missing card pattern))%nat
          then [standard_missing card pattern] else []).
Proof.
  intros Hc Hg (E1 & E2 & E3 & E4 & E5)%standard_names.
  unfold getWinningPaths. rewrite E1, E2, E3, E4, E5.
  by rewrite standard_loop.
Qed.

Lemma checkPattern_standard card pattern :
  card_shape card → grid_shape pattern → standard pattern →
  checkPattern card pattern = Some (forallb marked (required_cells card pattern)).
Proof.
  intros Hc Hg (E1 & E2 & E3 & E4 & E5)%standard_names.
  unfold checkPattern. rewrite E1, E2, E3, E4, E5.
  rewrite (allM_pure _ (λ row, forallb (λ col,
     if required pattern row col then marked (cell card row col) else true) (seq 0 5))).
  - f_equal. rewrite forallb_positions. unfold required_cells.
    induction (positions 5 5) as [|[r c] l IH]; [reflexivity|].
    cbn [forallb List.filter]. rewrite IH.
    by destruct (required pattern r c).
  - intros r Hr%list_elem_of_In%in_seq. apply allM_pure.
    intros c Hcol%list_elem_of_In%in_seq.
    rewrite grid_at_shape by (done || lia). cbn.
    destruct (required pattern r c); [|reflexivity].
    rewrite cell_at_shape by (done || lia). reflexivity.
Qed.

Lemma required_cells_positions card pattern x :
  In x (required_cells card pattern) →
  ∃ r c, (r < 5)%nat ∧ (c < 5)%nat ∧ x = cell card r c.
Proof.
  unfold required_cells. intros ([r c] & <- & Hin)%in_map_iff.
  apply List.filter_In in Hin as [Hin%list_elem_of_In%elem_of_positions _].
  exists r, c. tauto.
Qed.

Lemma free_cells_marked_at card row col :
  free_cells_marked card → (row < 5)%nat → (col < 5)%nat →
  is_free (cell card row col) = true → marked (cell card row col) = true.
Proof.
  intros H Hr Hc Hx. unfold free_cells_marked in H. rewrite forallb_forall in H.
  assert (Hin : In (row, col) (positions 5 5))
    by (by apply list_elem_of_In, elem_of_positions).
  apply H in Hin. cbv beta iota in Hin. by rewrite Hx in Hin.
Qed.

(** With every FREE cell marked, the required cells are all marked exactly
    when none of them is missing. *)
Lemma marked_iff_none_missing card pattern :
  free_cells_marked card →
  forallb marked (required_cells card pattern) = true
  ↔ standard_missing card pattern = [].
Proof.
  intros Hfree. unfold standard_missing.
  assert (Hreq : ∀ x, In x (required_cells card pattern) →
                      is_free x = true → marked x = true).
  { intros x (r & c & Hr & Hc & ->)%required_cells_positions.
    by apply free_cells_marked_at. }
  induction (required_cells card pattern) as [|x l IH]; [done|].
  cbn [forallb List.filter].
  specialize (Hreq x (or_introl eq_refl)) as Hx.
  assert (Hl : forallb marked l = true
     ↔ map value (List.filter (λ c, negb (marked c) && negb (is_free c)) l) = []).
  { apply IH. intros. apply Hreq; [by right|done]. }
  destruct (marked x) eqn:Em; cbn [negb andb].
  - exact Hl.
  - destruct (is_free x); [by specialize (Hx eq_refl)|]. cbn. split; discriminate.
Qed.

Lemma count_required_shape pattern n :
  grid_shape pattern →
  count_required pattern n = Some (n + grid_cardinality pattern).
Proof.
  intros Hg. unfold count_required. rewrite for2_positions.
  rewrite (foldM_pure _ (λ n '(r, c), if required pattern r c then n + 1 else n)).
  - f_equal. unfold grid_cardinality. revert n.
    induction (positions 5 5) as [|[r c] l IH]; intros n; cbn [foldl List.filter].
    + cbn. lia.
    + rewrite IH. destruct (required pattern r c); cbn [length]; lia.
  - intros s [r c] [Hr Hcol]%elem_of_positions.
    by rewrite grid_at_shape.
Qed.

(** ** The matcher returns on well-formed input *)

Lemma anyM_is_Some {A} (f : A → option bool) (l : list A) :
  (∀ x, x ∈ l → is_Some (f x)) → is_Some (anyM f l).
Proof.
  induction l as [|x l IH]; intros Hf; [by eexists|].
  cbn. destruct (Hf x) as [b ->]; [left|]. cbn.
  destruct b; [by eexists|]. apply IH. intros. apply Hf. by right.
Qed.

Lemma allM_is_Some {A} (f : A → option bool) (l : list A) :
  (∀ x, x ∈ l → is_Some (f x)) → is_Some (allM f l).
Proof.
  induction l as [|x l IH]; intros Hf; [by eexists|].
  cbn. destruct (Hf x) as [b ->]; [left|]. cbn.
  destruct b; [|by eexists]. apply IH. intros. apply Hf. by right.
Qed.

Lemma cell_at_in_grid card p :
  card_shape card → in_grid p = true →
  cell_at card (fst p) (snd p) = Some (cell card (fst p) (snd p)).
Proof.
  intros Hs [Hr%Nat.ltb_lt Hc%Nat.ltb_lt]%andb_prop. by apply cell_at_shape.
Qed.

Lemma line_complete_total card line :
  card_shape card → forallb in_grid line = true →
  is_Some (line_complete card line).
Proof.
  intros Hs Hl. apply allM_is_Some. intros [r c] Hin%list_elem_of_In.
  rewrite forallb_forall in Hl.
  pose proof (cell_at_in_grid card (r, c) Hs (Hl _ Hin)) as E. cbn [fst snd] in E.
  rewrite E. by eexists.
Qed.

Lemma line_scan_total card line :
  card_shape card → forallb in_grid line = true →
  is_Some (line_scan card line).
Proof.
  intros Hs Hl. apply foldM_is_Some. intros st [r c] Hin%list_elem_of_In.
  rewrite forallb_forall in Hl.
  pose proof (cell_at_in_grid card (r, c) Hs (Hl _ Hin)) as E. cbn [fst snd] in E.
  rewrite E. by eexists.
Qed.

Lemma row_line_in_grid row : row ∈ seq 0 5 → forallb in_grid (row_line row) = true.
Proof. intros Hr. repeat (apply elem_of_cons in Hr as [->|Hr]; [reflexivity|]). inversion Hr. Qed.

Lemma col_line_in_grid col : col ∈ seq 0 5 → forallb in_grid (col_line col) = true.
Proof. intros Hr. repeat (apply elem_of_cons in Hr as [->|Hr]; [reflexivity|]). inversion Hr. Qed.

Lemma special_or_standard pattern :
  pattern_name pattern = DIKIT ∨ pattern_name pattern = PATONG
  ∨ pattern_name pattern = HORIZONTAL_LINE ∨ pattern_name pattern = VERTICAL_LINE
  ∨ pattern_name pattern = DIAGONAL_LINE ∨ standard pattern.
Proof.
  unfold standard, special_names. cbn [forallb].
  destruct (String.eqb_spec (pattern_name pattern) DIKIT); [tauto|].
  destruct (String.eqb_spec (pattern_name pattern) PATONG); [tauto|].
  destruct (String.eqb_spec (pattern_name pattern) HORIZONTAL_LINE); [tauto|].
  destruct (String.eqb_spec (pattern_name pattern) VERTICAL_LINE); [tauto|].
  destruct (String.eqb_spec (pattern_name pattern) DIAGONAL_LINE); [tauto|].
  do 5 right. reflexivity.
Qed.

Ltac by_name Hn :=
  rewrite Hn;
  repeat first [ change (String.eqb DIKIT DIKIT) with true
               | change (String.eqb PATONG PATONG) with true
               | change (String.eqb HORIZONTAL_LINE HORIZONTAL_LINE) with true
               | change (String.eqb VERTICAL_LINE VERTICAL_LINE) with true
               | change (String.eqb DIAGONAL_LINE DIAGONAL_LINE) with true
               | match goal with
                 | |- context [String.eqb ?a ?b] =>
                   let v := eval vm_compute in (String.eqb a b) in
                   change (String.eqb a b) with v
                 end ];
  cbv iota.

Lemma checkPattern_total card pattern :
  card_shape card → grid_shape pattern → is_Some (checkPattern card pattern).
Proof.
  intros Hc Hg.
  destruct (special_or_standard pattern) as [Hn|[Hn|[Hn|[Hn|[Hn|Hn]]]]].
  - destruct (pair_pattern_dikit card pattern Hc Hn) as [-> _]. by eexists.
  - destruct (pair_pattern_patong card pattern Hc Hn) as [-> _]. by eexists.
  - unfold checkPattern. by_name Hn. apply anyM_is_Some.
    intros r Hr. by apply line_complete_total, row_line_in_grid.
  - unfold checkPattern. by_name Hn. apply anyM_is_Some.
    intros r Hr. by apply line_complete_total, col_line_in_grid.
  - unfold checkPattern. by_name Hn.
    destruct (line_complete_total card main_diagonal Hc eq_refl) as [b ->].
    cbn [mbind option_bind]. destruct b; [by eexists|]. by apply line_complete_total.
  - rewrite checkPattern_standard by done. by eexists.
Qed.

Lemma fmap_for2_is_Some {S T} rows cols (body : nat → nat → S → option S) s (h : S → T) :
  (∀ r c st, (r < rows)%nat → (c < cols)%nat → is_Some (body r c st)) →
  is_Some (h <$> for2 rows cols body s).
Proof.
  intros Hb. apply fmap_is_Some. rewrite for2_positions. apply foldM_is_Some.
  intros st [r c] [Hr Hc]%elem_of_positions. by apply Hb.
Qed.

Lemma getMissingNumbers_total card pattern :
  card_shape card → grid_shape pattern → is_Some (getMissingNumbers card pattern).
Proof.
  intros Hc Hg.
  destruct (special_or_standard pattern) as [Hn|[Hn|[Hn|[Hn|[Hn|Hn]]]]].
  - unfold getMissingNumbers. by_name Hn. apply fmap_for2_is_Some.
    intros r c st Hr Hcol. rewrite horizontal_pair_shape by done. by eexists.
  - unfold getMissingNumbers. by_name Hn. apply fmap_for2_is_Some.
    intros r c st Hr Hcol. rewrite vertical_pair_shape by done. by eexists.
  - unfold getMissingNumbers. by_name Hn. apply fmap_is_Some, foldM_is_Some.
    intros st r Hr.
    destruct (line_scan_total card (row_line r) Hc (row_line_in_grid r Hr)) as [x ->].
    by eexists.
  - unfold getMissingNumbers. by_name Hn. apply fmap_is_Some, foldM_is_Some.
    intros st r Hr.
    destruct (line_scan_total card (col_line r) Hc (col_line_in_grid r Hr)) as [x ->].
    by eexists.
  - unfold getMissingNumbers. by_name Hn.
    destruct (line_scan_total card main_diagonal Hc eq_refl) as [[m1 l1] ->].
    destruct (line_scan_total card anti_diagonal Hc eq_refl) as [[m2 l2] ->].
    by eexists.
  - rewrite getMissingNumbers_standard by done. by eexists.
Qed.

Lemma getWinningPaths_total card pattern :
  card_shape card → grid_shape pattern → is_Some (getWinningPaths card pattern).
Proof.
  intros Hc Hg.
  destruct (special_or_standard pattern) as [Hn|[Hn|[Hn|[Hn|[Hn|Hn]]]]].
  - unfold getWinningPaths. by_name Hn. apply fmap_for2_is_Some.
    intros r c st Hr Hcol. rewrite horizontal_pair_shape by done. by eexists.
  - unfold getWinningPaths. by_name Hn. apply fmap_for2_is_Some.
    intros r c st Hr Hcol. rewrite vertical_pair_shape by done. by eexists.
  - unfold getWinningPaths. by_name Hn. apply fmap_is_Some, foldM_is_Some.
    intros st r Hr.
    destruct (line_scan_total card (row_line r) Hc (row_line_in_grid r Hr)) as [x ->].
    by eexists.
  - unfold getWinningPaths. by_name Hn. apply fmap_is_Some, foldM_is_Some.
    intros st r Hr.
    destruct (line_scan_total card (col_line r) Hc (col_line_in_grid r Hr)) as [x ->].
    by eexists.
  - unfold getWinningPaths. by_name Hn.
    destruct (line_scan_total card main_diagonal Hc eq_refl) as [[m1 l1] ->].
    destruct (line_scan_total card anti_diagonal Hc eq_refl) as [[m2 l2] ->].
    by eexists.
  - rewrite getWinningPaths_standard by done. by eexists.
Qed.

(** ** The analyzer *)

#[local] Arguments count_required : simpl never.
#[local] Arguments checkPattern : simpl never.
#[local] Arguments getMissingNumbers : simpl never.
#[local] Arguments getWinningPaths : simpl never.
#[local] Arguments analyzeCardForPattern : simpl never.

Lemma analyzeCardForPattern_isWinner card pattern a :
  analyzeCardForPattern card pattern = Some a →
  checkPattern card pattern = Some (isWinner a)
  ∧ getMissingNumbers card pattern = Some (missingNumbers a).
Proof.
  unfold analyzeCardForPattern, isOnPot.
  destruct (checkPattern card pattern) as [w|]; [|discriminate].
  destruct (getMissingNumbers card pattern) as [m|]; [|discriminate].
  cbn. destruct (is_dikit_or_patong pattern); cbn.
  - intros E. by simplify_eq.
  - destruct (count_required pattern 2); cbn; intros E; by simplify_eq.
Qed.

Lemma analyzeCardForPattern_shape card pattern :
  card_shape card → grid_shape pattern →
  ∃ a, analyzeCardForPattern card pattern = Some a ∧ card_record pattern a.
Proof.
  intros Hc Hg. unfold analyzeCardForPattern, isOnPot, card_record.
  destruct (checkPattern_total card pattern Hc Hg) as [w ->].
  destruct (getMissingNumbers_total card pattern Hc Hg) as [m ->].
  cbn. destruct (is_dikit_or_patong pattern); cbn.
  - eexists. split; [reflexivity|]. cbn.
    by destruct (length m =? 0)%nat, (length m =? 1)%nat.
  - rewrite count_required_shape by done. cbn. eexists. split; [reflexivity|]. by cbn.
Qed.

Lemma path_totalRequired_shape pattern :
  grid_shape pattern → path_totalRequired pattern = Some (category_rule pattern).
Proof.
  intros Hg. unfold path_totalRequired, category_rule, is_line, is_dikit_or_patong.
  destruct (String.eqb_spec (pattern_name pattern) DIKIT) as [->|];
    [reflexivity|].
  destruct (String.eqb_spec (pattern_name pattern) PATONG) as [->|];
    [reflexivity|].
  cbn [orb negb andb].
  destruct (_ || _ || _); [reflexivity|].
  by rewrite count_required_shape.
Qed.

Lemma path_step_shape card pattern n st ip :
  grid_shape pattern →
  ∃ st', path_step card pattern n st ip = Some st'
    ∧ (st_cardAnalyses st' = st_cardAnalyses st
       ∨ ∃ a, st_cardAnalyses st' = st_cardAnalyses st ++ [a]
              ∧ path_record card pattern a).
Proof.
  intros Hg. destruct ip as [i pathMissing]. unfold path_step.
  destruct (length pathMissing =? 0)%nat; [eexists; split; [reflexivity|by left]|].
  rewrite path_totalRequired_shape by done. cbn [mbind option_bind].
  destruct (0 <? _); [|eexists; split; [reflexivity|by left]].
  eexists. split; [reflexivity|]. right. eexists. split; [reflexivity|].
  by repeat split.
Qed.

Section game.
Variable cards : list BingoCard.
Variable patterns : list WinningPattern.
Hypothesis cards_shape : List.Forall card_shape cards.
Hypothesis patterns_shape : List.Forall grid_shape patterns.

Lemma paths_loop card pattern n st l :
    In card cards → In pattern patterns → records_ok cards patterns st →
    ∃ st', foldM (path_step card pattern n) st l = Some st' ∧ records_ok cards patterns st'.
  Proof.
    intros Hc Hp. revert st. induction l as [|ip l IH]; intros st Hst.
    - by eexists.
    - assert (Hg : grid_shape pattern)
        by (rewrite List.Forall_forall in patterns_shape; auto).
      destruct (path_step_shape card pattern n st ip Hg) as (st1 & E & Hrec).
      cbn. rewrite E. cbn. apply IH. unfold records_ok.
      destruct Hrec as [->|(a & -> & Ha)]; [exact Hst|].
      apply List.Forall_app. split; [exact Hst|]. constructor; [|constructor].
      exists card, pattern. auto.
  Qed.

Lemma pattern_step_shape card pattern st :
    In card cards → In pattern patterns → records_ok cards patterns st →
    ∃ st', pattern_step card st pattern = Some st' ∧ records_ok cards patterns st'.
  Proof.
    intros Hc Hp Hst.
    assert (Hcs : card_shape card)
      by (rewrite List.Forall_forall in cards_shape; auto).
    assert (Hg : grid_shape pattern)
      by (rewrite List.Forall_forall in patterns_shape; auto).
    unfold pattern_step.
    destruct (checkPattern_total card pattern Hcs Hg) as [w Ew]. rewrite Ew.
    cbn [mbind option_bind]. destruct w.
    - destruct (analyzeCardForPattern_shape card pattern Hcs Hg) as (a & Ea & _).
      rewrite Ea. cbn. eexists. split; [reflexivity|]. unfold records_ok. cbn.
      apply List.Forall_app. split; [exact Hst|]. constructor; [|constructor].
      exists card, pattern. split; [done|]. split; [done|]. left. split; [|done].
      apply analyzeCardForPattern_isWinner in Ea as [Ea _]. congruence.
    - destruct (getWinningPaths_total card pattern Hcs Hg) as [paths ->].
      cbn. by apply paths_loop.
  Qed.

Lemma patterns_loop card st l :
    In card cards → (∀ p, In p l → In p patterns) → records_ok cards patterns st →
    ∃ st', foldM (pattern_step card) st l = Some st' ∧ records_ok cards patterns st'.
  Proof.
    intros Hc. revert st. induction l as [|p l IH]; intros st Hl Hst.
    - by eexists.
    - destruct (pattern_step_shape card p st) as (st1 & E & H1);
        [done|apply Hl; by left|done|].
      cbn. rewrite E. cbn. apply IH; [|done]. intros. apply Hl. by right.
  Qed.

Lemma cards_loop st l :
    (∀ c, In c l → In c cards) → records_ok cards patterns st →
    ∃ st', foldM (λ st card, foldM (pattern_step card) st patterns) st l = Some st'
           ∧ records_ok cards patterns st'.
  Proof.
    revert st. induction l as [|c l IH]; intros st Hl Hst.
    - by eexists.
    - destruct (patterns_loop c st patterns) as (st1 & E & H1);
        [apply Hl; by left|done|done|].
      cbn. rewrite E. cbn. apply IH; [|done]. intros. apply Hl. by right.
  Qed.

Lemma analyzeGame_shape :
    ∃ ga, analyzeGame cards patterns = Some ga
          ∧ List.Forall (game_record cards patterns) (cardAnalyses ga).
  Proof.
    unfold analyzeGame.
    destruct (cards_loop {| st_cardAnalyses := []; st_potCards := [];
                            st_winningCards := []; st_nextNumbersSet := [] |} cards)
      as (st & E & Hst); [done|constructor|].
    rewrite E. cbn. eexists. split; [reflexivity|]. exact Hst.
  Qed.
End game.

(** ** The object store *)

Lemma heap_preserved_refl h : heap_preserved h h.
Proof. by intros l o. Qed.

Lemma heap_preserved_trans h1 h2 h3 :
  heap_preserved h1 h2 → heap_preserved h2 h3 → heap_preserved h1 h3.
Proof. intros H12 H23 l o Hl. by apply H23, H12. Qed.

Lemma heap_preserved_app h ext : heap_preserved h (h ++ ext).
Proof. intros l o Hl. by apply lookup_app_l_Some. Qed.

Lemma heap_preserved_length h h' : heap_preserved h h' → (length h ≤ length h')%nat.
Proof.
  intros Hp. destruct (decide (length h = 0%nat)) as [->|Hne]; [lia|].
  destruct (lookup_lt_is_Some_2 h (length h - 1)) as [o Ho]; [lia|].
  apply Hp, lookup_lt_Some in Ho. lia.
Qed.

(** A write to a location that was not in [h] leaves [h] as it was. *)
Lemma heap_preserved_insert h h' l o :
  heap_preserved h h' → (length h ≤ l)%nat → heap_preserved h (<[l := o]> h').
Proof.
  intros Hp Hl k ok Hk. rewrite list_lookup_insert_ne; [by apply Hp|].
  apply lookup_lt_Some in Hk. lia.
Qed.

Lemma mapM_mono {A C} (f g : A → option C) (l : list A) (k : list C) :
  (∀ x y, f x = Some y → g x = Some y) → mapM f l = Some k → mapM g l = Some k.
Proof.
  intros Hfg. rewrite !mapM_Some. intros H. eapply Forall2_impl; eauto.
Qed.

Section preserved.
Variables h h' : heap.
Hypothesis Hp : heap_preserved h h'.

Lemma get_array_preserved l ls : get_array h l = Some ls → get_array h' l = Some ls.
  Proof.
    unfold get_array. destruct (h !! l) as [o|] eqn:E; [|done].
    by rewrite (Hp _ _ E).
  Qed.

Lemma load_cell_preserved l c : load_cell h l = Some c → load_cell h' l = Some c.
  Proof.
    unfold load_cell. destruct (h !! l) as [o|] eqn:E; [|done].
    by rewrite (Hp _ _ E).
  Qed.

Lemma load_row_preserved l cs : load_row h l = Some cs → load_row h' l = Some cs.
  Proof.
    unfold load_row. destruct (get_array h l) as [ls|] eqn:E1; [|done].
    rewrite (get_array_preserved _ _ E1). cbn. apply mapM_mono, load_cell_preserved.
  Qed.

Lemma load_cells_preserved l cs : load_cells h l = Some cs → load_cells h' l = Some cs.
  Proof.
    unfold load_cells. destruct (get_array h l) as [rows|] eqn:E1; [|done].
    rewrite (get_array_preserved _ _ E1). cbn. apply mapM_mono, load_row_preserved.
  Qed.

Lemma load_card_preserved l c : load_card h l = Some c → load_card h' l = Some c.
  Proof.
    unfold load_card. destruct (h !! l) as [o|] eqn:E; [|done].
    rewrite (Hp _ _ E). destruct o as [| |id name cellsRef createdAt| | |]; try done.
    destruct (load_cells h cellsRef) as [cs|] eqn:E1; [|done].
    by rewrite (load_cells_preserved _ _ E1).
  Qed.

Lemma load_cards_preserved l cs : load_cards h l = Some cs → load_cards h' l = Some cs.
  Proof.
    unfold load_cards. destruct (get_array h l) as [ls|] eqn:E1; [|done].
    rewrite (get_array_preserved _ _ E1). cbn.
    apply mapM_mono, load_card_preserved.
  Qed.

Lemma load_numbers_preserved l ns : load_numbers h l = Some ns → load_numbers h' l = Some ns.
  Proof.
    unfold load_numbers. destruct (h !! l) as [o|] eqn:E; [|done].
    by rewrite (Hp _ _ E).
  Qed.

Lemma load_strings_preserved l ss : load_strings h l = Some ss → load_strings h' l = Some ss.
  Proof.
    unfold load_strings. destruct (h !! l) as [o|] eqn:E; [|done].
    by rewrite (Hp _ _ E).
  Qed.

Lemma load_session_preserved l s : load_session h l = Some s → load_session h' l = Some s.
  Proof.
    unfold load_session. destruct (h !! l) as [o|] eqn:E; [|done].
    rewrite (Hp _ _ E).
    destruct o as [| | | | |cardIds patternIds called start active]; try done.
    destruct (load_strings h cardIds) as [cs|] eqn:E1; [|done].
    destruct (load_strings h patternIds) as [ps|] eqn:E2; [|done].
    destruct (load_numbers h called) as [ns|] eqn:E3; [|done].
    by rewrite (load_strings_preserved _ _ E1), (load_strings_preserved _ _ E2),
      (load_numbers_preserved _ _ E3).
  Qed.
End preserved.

(** ** addCalledNumber *)

Lemma isValidBingoNumber_spec num :
  isValidBingoNumber num = true ↔ bingo_number num.
Proof.
  unfold isValidBingoNumber, bingo_number. split.
  - destruct num; try discriminate. cbn.
    intros [H1%Z.leb_le H2%Z.leb_le]%andb_prop. eauto.
  - intros (z & -> & H1 & H2). cbn.
    apply andb_true_intro. split; by apply Z.leb_le.
Qed.

Lemma includes_spec ns num : includes ns num = true ↔ In num ns.
Proof.
  unfold includes. rewrite bool_decide_eq_true. apply list_elem_of_In.
Qed.

Lemma addCalledNumber_run h session s num :
  load_session h session = Some s →
  addCalledNumber session num h
  = if negb (isValidBingoNumber num) then Thrown INVALID_NUMBER h
    else if includes (calledNumbers s) num then Thrown ALREADY_CALLED h
    else Returned (S (length h))
           (h ++ [ObjNumbers (calledNumbers s ++ [num])]
              ++ [match h !! session with
                  | Some (ObjSession cardIds patternIds _ start active) =>
                    ObjSession cardIds patternIds (length h) start active
                  | _ => ObjNumbers []
                  end]).
Proof.
  unfold load_session, addCalledNumber. intros Hs.
  destruct (negb (isValidBingoNumber num)); [reflexivity|].
  unfold bind, deref, read_numbers.
  destruct (h !! session) as [[| | | | |cardIds patternIds called start active]|];
    try discriminate.
  destruct (load_strings h cardIds) as [cs|]; [|discriminate].
  destruct (load_strings h patternIds) as [ps|]; [|discriminate].
  unfold load_numbers in Hs. unfold bind, deref.
  destruct (h !! called) as [[| | |ns| |]|]; try discriminate.
  cbn in Hs. injection Hs as <-. cbn.
  destruct (includes ns num); [reflexivity|].
  unfold alloc. rewrite length_app. cbn. rewrite Nat.add_1_r, <- app_assoc.
  reflexivity.
Qed.

(** ** Running computations *)

Lemma bind_Returned {A C} (m : M A) (k : A → M C) h a h' :
  m h = Returned a h' → bind m k h = k a h'.
Proof. unfold bind. by intros ->. Qed.

Lemma read_array_run h l ls : get_array h l = Some ls → read_array l h = Returned ls h.
Proof.
  unfold get_array, read_array, bind, deref.
  destruct (h !! l) as [[]|]; try discriminate. by intros [= ->].
Qed.

Lemma read_cell_run h l c : load_cell h l = Some c → read_cell l h = Returned c h.
Proof.
  unfold load_cell, read_cell, bind, deref.
  destruct (h !! l) as [[]|]; try discriminate. by intros [= ->].
Qed.

Lemma read_numbers_run h l ns : load_numbers h l = Some ns → read_numbers l h = Returned ns h.
Proof.
  unfold load_numbers, read_numbers, bind, deref.
  destruct (h !! l) as [[]|]; try discriminate. by intros [= ->].
Qed.

Lemma forS_app {A} (body : A → M unit) (l1 l2 : list A) h :
  forS body (l1 ++ l2) h = bind (forS body l1) (λ _, forS body l2) h.
Proof.
  revert h. induction l1 as [|x l1 IH]; intros h; [reflexivity|].
  cbn. unfold bind in *. destruct (body x h) as [[] h1|e h1]; [apply IH|reflexivity].
Qed.

Lemma for2S_positions rows cols (body : nat → nat → M unit) h :
  for2S rows cols body h = forS (λ '(row, col), body row col) (positions rows cols) h.
Proof.
  unfold for2S, positions. revert h.
  induction (seq 0 rows) as [|r rs IH]; intros h; [reflexivity|].
  cbn [forS flat_map]. rewrite forS_app. unfold bind.
  assert (∀ cs h, forS (λ col, body r col) cs h
          = forS (λ '(row, col), body row col) (map (λ col, (r, col)) cs) h) as ->.
  { induction cs as [|c cs IHc]; intros h0; [reflexivity|].
    cbn. unfold bind. destruct (body r c h0); [apply IHc|reflexivity]. }
  destruct (forS _ (map _ (seq 0 cols)) h); [apply IH|reflexivity].
Qed.

(** [map] with a callback that only adds to the store. *)
Lemma mapS_preserving {A C} (f : A → M C)
    (P : A → heap → Prop) (Q : A → C → heap → Prop) :
  (∀ x h h', heap_preserved h h' → P x h → P x h') →
  (∀ x y h h', heap_preserved h h' → Q x y h → Q x y h') →
  (∀ x h, P x h →
     ∃ y h', f x h = Returned y h' ∧ heap_preserved h h' ∧ Q x y h') →
  ∀ l h, Forall (λ x, P x h) l →
    ∃ ys h', mapS f l h = Returned ys h' ∧ heap_preserved h h'
             ∧ Forall2 (λ x y, Q x y h') l ys.
Proof.
  intros HP HQ Hf. induction l as [|x l IH]; intros h Hl.
  - exists [], h. repeat split; [apply heap_preserved_refl|constructor].
  - apply Forall_cons in Hl as [Hx Hl].
    destruct (Hf x h Hx) as (y & h1 & E1 & Hp1 & Hq).
    destruct (IH h1) as (ys & h2 & E2 & Hp2 & Hqs).
    { eapply Forall_impl; [exact Hl|]. intros z. by apply HP. }
    exists (y :: ys), h2. split; [|split].
    + cbn. rewrite (bind_Returned _ _ _ _ _ E1), (bind_Returned _ _ _ _ _ E2).
      reflexivity.
    + by eapply heap_preserved_trans.
    + constructor; [by eapply HQ|done].
Qed.

Lemma mapM_transport {A B C D} (F : A → option C) (G : B → option D) (g : C → D)
    (l : list A) (ys : list B) (cs : list C) :
  Forall2 (λ x y, ∀ c, F x = Some c → G y = Some (g c)) l ys →
  mapM F l = Some cs → mapM G ys = Some (map g cs).
Proof.
  intros H. revert cs. induction H as [|x y l ys Hxy _ IH]; intros cs.
  - cbn. by intros [= <-].
  - cbn. destruct (F x) as [c|] eqn:Ec; [|discriminate]. cbn.
    destruct (mapM F l) as [cs'|]; [|discriminate]. cbn. intros [= <-].
    rewrite (Hxy c eq_refl). cbn. rewrite (IH cs' eq_refl). reflexivity.
Qed.

Lemma mapM_is_Some_Forall {A C} (F : A → option C) (l : list A) (cs : list C) :
  mapM F l = Some cs → Forall (λ x, is_Some (F x)) l.
Proof.
  rewrite mapM_Some. induction 1; constructor; eauto.
Qed.

(** A card object replaced by a card object: arrays and cells read as before. *)
Section card_write.
Variables (h : heap) (u : loc) (o : object).
Hypothesis Hu : ∃ id name cl t, h !! u = Some (ObjCard id name cl t).
Hypothesis Ho : ∃ id name cl t, o = ObjCard id name cl t.

Lemma get_array_card_write l : get_array (<[u := o]> h) l = get_array h l.
  Proof.
    destruct Hu as (id & name & cl & t & E), Ho as (id' & name' & cl' & t' & ->).
    unfold get_array. destruct (decide (u = l)) as [<-|Hne].
    - rewrite list_lookup_insert_eq by (by eapply lookup_lt_Some). by rewrite E.
    - by rewrite list_lookup_insert_ne.
  Qed.

Lemma load_cell_card_write l : load_cell (<[u := o]> h) l = load_cell h l.
  Proof.
    destruct Hu as (id & name & cl & t & E), Ho as (id' & name' & cl' & t' & ->).
    unfold load_cell. destruct (decide (u = l)) as [<-|Hne].
    - rewrite list_lookup_insert_eq by (by eapply lookup_lt_Some). by rewrite E.
    - by rewrite list_lookup_insert_ne.
  Qed.

Lemma mapM_ext {A C} (F G : A → option C) (l : list A) :
    (∀ x, F x = G x) → mapM F l = mapM G l.
  Proof. intros E. induction l as [|x l IH]; [done|]. cbn. by rewrite E, IH. Qed.

Lemma load_row_card_write l : load_row (<[u := o]> h) l = load_row h l.
  Proof.
    unfold load_row. rewrite get_array_card_write.
    destruct (get_array h l); [|done]. cbn. apply mapM_ext, load_cell_card_write.
  Qed.

Lemma load_cells_card_write l : load_cells (<[u := o]> h) l = load_cells h l.
  Proof.
    unfold load_cells. rewrite get_array_card_write.
    destruct (get_array h l); [|done]. cbn. apply mapM_ext, load_row_card_write.
  Qed.
End card_write.

(** ** applyCalledNumbersToCards *)

Section apply_called.
Variables (h0 : heap) (nl : loc) (nums : list number).
Hypothesis Hnums : load_numbers h0 nl = Some nums.

Lemma marked_by_call_run h c :
    heap_preserved h0 h →
    marked_by_call nl c h = Returned (marked (called_cell nums c)) h.
  Proof.
    intros Hp. unfold marked_by_call, called_cell. cbn [marked].
    destruct (is_free c); [reflexivity|].
    destruct (value_nonzero (value c)); [|reflexivity].
    erewrite bind_Returned
      by (apply read_numbers_run; eapply load_numbers_preserved; eauto).
    reflexivity.
  Qed.

Lemma new_cells_spec ls h :
    heap_preserved h0 h → Forall (λ x, is_Some (load_cell h0 x)) ls →
    ∃ ys h', mapS (new_cell nl) ls h = Returned ys h'
      ∧ heap_preserved h h'
      ∧ Forall2 (λ x y, ∀ c, load_cell h0 x = Some c →
                             load_cell h' y = Some (called_cell nums c)) ls ys.
  Proof.
    intros Hp Hl.
    apply (mapS_preserving _
      (λ x h, heap_preserved h0 h ∧ is_Some (load_cell h0 x))
      (λ x y h', ∀ c, load_cell h0 x = Some c →
                      load_cell h' y = Some (called_cell nums c))).
    - intros x h1 h2 H12 [H1 Hx]. split; [by eapply heap_preserved_trans|done].
    - intros x y h1 h2 H12 Hq c Hc. eapply load_cell_preserved; eauto.
    - intros x h1 [H1 [c Hc]].
      exists (length h1), (h1 ++ [ObjCell (called_cell nums c)]).
      split; [|split].
      + unfold new_cell. erewrite bind_Returned
          by (apply read_cell_run; eapply load_cell_preserved; eauto).
        erewrite bind_Returned by (by apply marked_by_call_run).
        reflexivity.
      + apply heap_preserved_app.
      + intros c' Hc'. rewrite Hc in Hc'. injection Hc' as <-.
        unfold load_cell. rewrite lookup_app_r by lia.
        by rewrite Nat.sub_diag.
    - eapply Forall_impl; [exact Hl|]. by intros x Hx.
  Qed.

Lemma new_rows_spec rs h :
    heap_preserved h0 h → Forall (λ x, is_Some (load_row h0 x)) rs →
    ∃ ys h', mapS (new_row nl) rs h = Returned ys h'
      ∧ heap_preserved h h'
      ∧ Forall2 (λ x y, ∀ cs, load_row h0 x = Some cs →
                              load_row h' y = Some (map (called_cell nums) cs)) rs ys.
  Proof.
    intros Hp Hl.
    apply (mapS_preserving _
      (λ x h, heap_preserved h0 h ∧ is_Some (load_row h0 x))
      (λ x y h', ∀ cs, load_row h0 x = Some cs →
                       load_row h' y = Some (map (called_cell nums) cs))).
    - intros x h1 h2 H12 [H1 Hx]. split; [by eapply heap_preserved_trans|done].
    - intros x y h1 h2 H12 Hq c Hc. eapply load_row_preserved; eauto.
    - intros x h1 [H1 [cs Hcs]].
      unfold load_row in Hcs.
      destruct (get_array h0 x) as [ls|] eqn:Els; [|discriminate]. cbn in Hcs.
      destruct (new_cells_spec ls h1 H1 (mapM_is_Some_Forall _ _ _ Hcs))
        as (ys & h2 & E2 & H12 & Hq).
      exists (length h2), (h2 ++ [ObjArray ys]). split; [|split].
      + unfold new_row. erewrite bind_Returned
          by (apply read_array_run; eapply get_array_preserved; eauto).
        erewrite bind_Returned by exact E2. reflexivity.
      + eapply heap_preserved_trans; [exact H12|apply heap_preserved_app].
      + intros cs'. unfold load_row at 1. rewrite Els. cbn. intros Hcs'.
        unfold load_row, get_array. rewrite lookup_app_r by lia.
        rewrite Nat.sub_diag. cbn.
        eapply mapM_transport; [|exact Hcs'].
        eapply Forall2_impl; [exact Hq|]. intros a b Hab c Hc.
        eapply load_cell_preserved; [apply heap_preserved_app|]. by apply Hab.
    - eapply Forall_impl; [exact Hl|]. by intros x Hx.
  Qed.

Lemma per_card_spec card c h :
    heap_preserved h0 h → load_card h0 card = Some c →
    ∃ u h', updated_card nl card h = Returned u h'
      ∧ heap_preserved h h'
      ∧ (length h ≤ u)%nat
      ∧ load_card h' u = Some (called_card nums c).
  Proof.
    intros Hp Hc. unfold load_card in Hc.
    destruct (h0 !! card) as [[| |id name cl t| | |]|] eqn:Ecard; try discriminate.
    destruct (load_cells h0 cl) as [cs|] eqn:Ecs; [|discriminate].
    injection Hc as <-. unfold load_cells in Ecs.
    destruct (get_array h0 cl) as [rs|] eqn:Ers; [|discriminate]. cbn in Ecs.
    set (h1 := h ++ [ObjCard id name cl t]).
    assert (H01 : heap_preserved h0 h1)
      by (eapply heap_preserved_trans; [exact Hp|apply heap_preserved_app]).
    destruct (new_rows_spec rs h1 H01 (mapM_is_Some_Forall _ _ _ Ecs))
      as (ys & h2 & E2 & H12 & Hq).
    set (o := ObjCard id name (length h2) t).
    exists (length h), (<[length h := o]> (h2 ++ [ObjArray ys])).
    assert (Hlen : (length h < length h2)%nat).
    { apply heap_preserved_length in H12. subst h1. rewrite length_app in H12.
      cbn in H12. lia. }
    assert (Hu : ∃ id name cl t, (h2 ++ [ObjArray ys]) !! length h
                                 = Some (ObjCard id name cl t)).
    { exists id, name, cl, t. apply lookup_app_l_Some, H12. subst h1.
      rewrite lookup_app_r by lia. by rewrite Nat.sub_diag. }
    assert (Ho : ∃ id name cl t, o = ObjCard id name cl t) by (subst o; eauto).
    split; [|split; [|split]].
    - unfold updated_card. unfold bind at 1, deref. rewrite (Hp _ _ Ecard).
      unfold bind at 1, alloc at 1. fold h1.
      erewrite bind_Returned
        by (apply read_array_run; eapply get_array_preserved; eauto).
      erewrite bind_Returned by exact E2.
      reflexivity.
    - apply heap_preserved_insert; [|lia].
      eapply heap_preserved_trans; [apply (heap_preserved_app h [ObjCard id name cl t])|].
      eapply heap_preserved_trans; [exact H12|apply heap_preserved_app].
    - lia.
    - unfold load_card.
      rewrite list_lookup_insert_eq by (rewrite length_app; lia).
      subst o. cbv beta iota. rewrite (load_cells_card_write _ _ _ Hu Ho).
      unfold load_cells, get_array. rewrite lookup_app_r by lia.
      rewrite Nat.sub_diag. cbn.
      rewrite (mapM_transport (load_row h0) (load_row (h2 ++ [ObjArray ys]))
                 (map (called_cell nums)) rs ys cs); [reflexivity| |exact Ecs].
      eapply Forall2_impl; [exact Hq|]. intros a b Hab r Hr.
      eapply load_row_preserved; [apply heap_preserved_app|]. by apply Hab.
  Qed.

Lemma applyCalledNumbersToCards_run cardsRef cards :
    load_cards h0 cardsRef = Some cards →
    ∃ out h' refs, applyCalledNumbersToCards cardsRef nl h0 = Returned out h'
      ∧ heap_preserved h0 h'
      ∧ (length h0 ≤ out)%nat
      ∧ get_array h' out = Some refs
      ∧ Forall (λ u, (length h0 ≤ u)%nat) refs
      ∧ load_cards h' out = Some (map (called_card nums) cards).
  Proof.
    intros Hcards. unfold load_cards in Hcards.
    destruct (get_array h0 cardsRef) as [ls|] eqn:Els; [|discriminate].
    cbn in Hcards.
    destruct (mapS_preserving (updated_card nl)
      (λ x h, heap_preserved h0 h ∧ is_Some (load_card h0 x))
      (λ x y h', (length h0 ≤ y)%nat
                 ∧ ∀ c, load_card h0 x = Some c →
                        load_card h' y = Some (called_card nums c))) with (l := ls) (h := h0)
      as (ys & h1 & E1 & H01 & Hq).
    - intros x h1 h2 H12 [H1 Hx]. split; [by eapply heap_preserved_trans|done].
    - intros x y h1 h2 H12 [Hy Hq]. split; [done|].
      intros c Hc. eapply load_card_preserved; eauto.
    - intros x h [Hp [c Hc]].
      destruct (per_card_spec x c h Hp Hc) as (u & h' & E & Hp' & Hu & Hl).
      exists u, h'. split; [exact E|]. split; [exact Hp'|]. split.
      + apply heap_preserved_length in Hp. lia.
      + intros c' Hc'. rewrite Hc in Hc'. by injection Hc' as <-.
    - eapply Forall_impl; [exact (mapM_is_Some_Forall _ _ _ Hcards)|].
      intros x Hx. split; [apply heap_preserved_refl|done].
    - exists (length h1), (h1 ++ [ObjArray ys]), ys.
      assert (Hget : get_array (h1 ++ [ObjArray ys]) (length h1) = Some ys).
      { unfold get_array. rewrite lookup_app_r by lia. by rewrite Nat.sub_diag. }
      split; [|split; [|split; [|split; [done|split]]]].
      + unfold applyCalledNumbersToCards.
        erewrite bind_Returned by (by apply read_array_run).
        erewrite bind_Returned by exact E1. reflexivity.
      + eapply heap_preserved_trans; [exact H01|apply heap_preserved_app].
      + by apply heap_preserved_length.
      + clear -Hq. induction Hq as [|???? [? _]]; constructor; auto.
      + unfold load_cards. rewrite Hget. cbn.
        eapply mapM_transport; [|exact Hcards].
        eapply Forall2_impl; [exact Hq|]. intros a b [_ Hab] c Hc.
        eapply load_card_preserved; [apply heap_preserved_app|]. by apply Hab.
  Qed.
End apply_called.

(** ** markNumber *)

Lemma card_graph_load h u locs c : card_graph h u locs c → load_card h u = Some c.
Proof.
  intros (cl & rowRefs & Eu & Ecl & Hrows & Hcells).
  unfold load_card. rewrite Eu.
  assert (load_cells h cl = Some (cells c)) as ->; [|by destruct c].
  unfold load_cells, get_array. rewrite Ecl. cbn. apply mapM_Some.
  clear Eu Ecl. unfold rows_at, cells_at in *. revert Hcells.
  generalize (cells c) as cs. induction Hrows as [|r ls rowRefs locs Hr _ IH];
    intros cs Hcells; inversion Hcells as [|? row ? cs' Hrow Hrest]; subst;
    [constructor|]. constructor; [|apply IH; exact Hrest].
  unfold load_row, get_array. rewrite Hr. cbn. apply mapM_Some.
  eapply Forall2_impl; [exact Hrow|]. intros l c0 E. unfold load_cell. by rewrite E.
Qed.

Section parse.
Variable n0 : nat.

Lemma parse_cells_spec row h :
    (n0 ≤ length h)%nat →
    ∃ ls h', mapS (λ c, alloc (ObjCell c)) row h = Returned ls h'
      ∧ heap_preserved h h'
      ∧ Forall2 (λ c l, h' !! l = Some (ObjCell c) ∧ (n0 ≤ l)%nat) row ls.
  Proof.
    intros Hn.
    apply (mapS_preserving _ (λ _ h, (n0 ≤ length h)%nat)
             (λ c l h', h' !! l = Some (ObjCell c) ∧ (n0 ≤ l)%nat)).
    - intros _ h1 h2 H12%heap_preserved_length. lia.
    - intros c l h1 h2 H12 [E Hl]. split; [by apply H12|done].
    - intros c h1 H1. exists (length h1), (h1 ++ [ObjCell c]).
      split; [reflexivity|]. split; [apply heap_preserved_app|].
      split; [|done]. rewrite lookup_app_r by lia. by rewrite Nat.sub_diag.
    - apply Forall_forall. by intros.
  Qed.

Lemma parse_rows_spec rows h :
    (n0 ≤ length h)%nat →
    ∃ rs h', mapS (λ row, bind (mapS (λ c, alloc (ObjCell c)) row)
                               (λ cellRefs, alloc (ObjArray cellRefs))) rows h
             = Returned rs h'
      ∧ heap_preserved h h'
      ∧ Forall2 (λ row r, row_graph n0 h' row r) rows rs.
  Proof.
    intros Hn.
    apply (mapS_preserving _ (λ _ h, (n0 ≤ length h)%nat)
             (λ row r h', row_graph n0 h' row r)).
    - intros _ h1 h2 H12%heap_preserved_length. lia.
    - intros row r h1 h2 H12 (ls & E & Hc & Hb). exists ls.
      split; [by apply H12|]. split; [|done].
      eapply Forall2_impl; [exact Hc|]. intros l c. apply H12.
    - intros row h1 H1.
      destruct (parse_cells_spec row h1 H1) as (ls & h2 & E2 & H12 & Hq).
      exists (length h2), (h2 ++ [ObjArray ls]). split; [|split].
      + by erewrite bind_Returned by exact E2.
      + eapply heap_preserved_trans; [exact H12|apply heap_preserved_app].
      + exists ls. split; [rewrite lookup_app_r by lia; by rewrite Nat.sub_diag|].
        split.
        * apply Forall2_flip. eapply Forall2_impl; [exact Hq|].
          intros c l [E _]. by apply lookup_app_l_Some.
        * clear -Hq. induction Hq as [|???? [_ ?]]; constructor; auto.
    - apply Forall_forall. by intros.
  Qed.

Lemma row_graphs_matrix h rows rs :
    Forall2 (λ row r, row_graph n0 h row r) rows rs →
    ∃ locs, rows_at h rs locs ∧ cells_at h locs rows
            ∧ Forall (Forall (λ l, (n0 ≤ l)%nat)) locs.
  Proof.
    induction 1 as [|row r rows rs (ls & E & Hc & Hb) _ (locs & H1 & H2 & H3)].
    - exists []. repeat split; constructor.
    - exists (ls :: locs). repeat split; by constructor.
  Qed.
End parse.

Lemma parse_card_spec c h :
  ∃ u h' locs, parse_card c h = Returned u h'
    ∧ heap_preserved h h'
    ∧ (length h ≤ u)%nat
    ∧ card_graph h' u locs c
    ∧ Forall (Forall (λ l, (length h ≤ l)%nat)) locs.
Proof.
  destruct (parse_rows_spec (length h) (cells c) h (le_n _)) as (rs & h1 & E1 & H01 & Hq).
  set (h2 := h1 ++ [ObjArray rs]).
  set (h3 := h2 ++ [ObjCard (card_id c) (card_name c) (length h1) (card_createdAt c)]).
  assert (H13 : heap_preserved h1 h3).
  { eapply heap_preserved_trans; apply heap_preserved_app. }
  destruct (row_graphs_matrix (length h) h3 (cells c) rs) as (locs & Hr & Hc & Hb).
  { eapply Forall2_impl; [exact Hq|]. intros row r (ls & E & Hcs & Hbs). exists ls.
    split; [by apply H13|]. split; [|done].
    eapply Forall2_impl; [exact Hcs|]. intros l c0. apply H13. }
  exists (length h2), h3, locs.
  pose proof (heap_preserved_length _ _ H01) as Hlen.
  assert (Hlen2 : length h2 = S (length h1))
    by (subst h2; rewrite length_app; cbn; lia).
  split; [|split; [|split; [|split]]].
  - unfold parse_card. by erewrite bind_Returned by exact E1.
  - by eapply heap_preserved_trans.
  - lia.
  - exists (length h1), rs. split; [|split; [|done]].
    + subst h3. rewrite lookup_app_r by lia. by rewrite Nat.sub_diag.
    + subst h3. apply lookup_app_l_Some. subst h2.
      rewrite lookup_app_r by lia. by rewrite Nat.sub_diag.
  - exact Hb.
Qed.

Lemma mark_cell_idem num c : mark_cell num (mark_cell num c) = mark_cell num c.
Proof.
  unfold mark_cell. destruct (value_is (value c) num) eqn:E; [|by rewrite E].
  cbn. by rewrite E.
Qed.

Section marking.
Variables (num : number) (n0 : nat) (h1 : heap) (u : loc).
Variables (locs : list (list loc)) (c : BingoCard).
Hypothesis Hgraph : card_graph h1 u locs c.
Hypothesis Hshape : card_shape c.
Hypothesis Hfresh : Forall (Forall (λ l, (n0 ≤ l)%nat)) locs.

Lemma graph_position r k :
    (r < 5)%nat → (k < 5)%nat →
    ∃ cl rowRefs rr lr x,
      h1 !! u = Some (ObjCard (card_id c) (card_name c) cl (card_createdAt c))
      ∧ h1 !! cl = Some (ObjArray rowRefs)
      ∧ rowRefs !! r = Some rr
      ∧ h1 !! rr = Some (ObjArray lr)
      ∧ locs !! r = Some lr
      ∧ lr !! k = Some x
      ∧ h1 !! x = Some (ObjCell (cell c r k))
      ∧ (n0 ≤ x)%nat.
  Proof.
    intros Hr Hk. destruct Hgraph as (cl & rowRefs & Eu & Ecl & Hrows & Hcells).
    destruct (shape5_lookup (cells c) r k Hshape Hr Hk) as [E1 E2].
    destruct (Forall2_lookup_r _ _ _ _ _ Hcells E1) as (lr & Elr & Hrow).
    destruct (Forall2_lookup_r _ _ _ _ _ Hrow E2) as (x & Ex & Hx).
    destruct (Forall2_lookup_r _ _ _ _ _ Hrows Elr) as (rr & Err & Hrr).
    exists cl, rowRefs, rr, lr, x. repeat split; try done.
    eapply Forall_lookup_1; [|exact Ex]. eapply Forall_lookup_1; [exact Hfresh|exact Elr].
  Qed.

Lemma inv_lookup h l o :
    marking_inv num n0 h1 h → h1 !! l = Some o →
    h !! l = Some o ∨ h !! l = Some (mark_obj num o).
  Proof.
    intros (_ & Hinv & _) E. destruct (Hinv l) as [->| ->]; rewrite E; auto.
  Qed.

Lemma mark_at_step r k h visited :
    marking_inv num n0 h1 h → marked_at num locs h1 h visited →
    (r < 5)%nat → (k < 5)%nat →
    ∃ h', mark_at u num r k h = Returned tt h'
      ∧ marking_inv num n0 h1 h'
      ∧ marked_at num locs h1 h' ((r, k) :: visited).
  Proof.
    intros Hinv Hvis Hr Hk.
    destruct (graph_position r k Hr Hk)
      as (cl & rowRefs & rr & lr & x & Eu & Ecl & Err & Hrr & Elr & Ex & Hx & Hn).
    assert (Hu : h !! u = Some (ObjCard (card_id c) (card_name c) cl (card_createdAt c)))
      by (by destruct (inv_lookup h u _ Hinv Eu)).
    assert (Hcl : get_array h cl = Some rowRefs)
      by (unfold get_array; by destruct (inv_lookup h cl _ Hinv Ecl) as [->| ->]).
    assert (Hrow : get_array h rr = Some lr)
      by (unfold get_array; by destruct (inv_lookup h rr _ Hinv Hrr) as [->| ->]).
    assert (∃ cx, h !! x = Some (ObjCell cx)
                  ∧ mark_cell num cx = mark_cell num (cell c r k)) as (cx & Hcx & Hmark).
    { destruct (inv_lookup h x _ Hinv Hx) as [E|E]; eexists; split; eauto.
      apply mark_cell_idem. }
    set (h' := if value_is (value cx) num
               then <[x := ObjCell (set_marked cx)]> h else h).
    assert (Hx' : h' !! x = Some (ObjCell (mark_cell num (cell c r k)))).
    { rewrite <- Hmark. subst h'. unfold mark_cell.
      destruct (value_is (value cx) num); [|done].
      apply list_lookup_insert_eq. by eapply lookup_lt_Some. }
    assert (Hother : ∀ l, l ≠ x → h' !! l = h !! l).
    { intros l Hl. subst h'. destruct (value_is (value cx) num); [|done].
      by apply list_lookup_insert_ne. }
    assert (Hlen : length h' = length h).
    { subst h'. destruct (value_is (value cx) num); [apply length_insert|done]. }
    exists h'. split; [|split].
    - unfold mark_at, index.
      unfold bind at 1, deref. rewrite Hu.
      erewrite bind_Returned
        by (erewrite bind_Returned by (by apply read_array_run); by rewrite Err).
      erewrite bind_Returned
        by (erewrite bind_Returned by (by apply read_array_run); by rewrite Ex).
      erewrite bind_Returned by (apply read_cell_run; unfold load_cell; by rewrite Hcx).
      subst h'. by destruct (value_is (value cx) num).
    - destruct Hinv as (Hl & Hor & Hfr). split; [lia|]. split.
      + intros l. destruct (decide (l = x)) as [->|Hne].
        * right. by rewrite Hx', Hx.
        * rewrite Hother by done. apply Hor.
      + intros l Hl0. rewrite Hother by lia. by apply Hfr.
    - intros r' k' lr' x' Hin Elr' Ex'.
      destruct (decide (x' = x)) as [->|Hne]; [by rewrite Hx', Hx|].
      rewrite Hother by done.
      apply elem_of_cons in Hin as [[= -> ->]|Hin].
      + rewrite Elr in Elr'. injection Elr' as <-. congruence.
      + by eapply Hvis.
  Qed.

Lemma mark_loop ps h visited :
    marking_inv num n0 h1 h → marked_at num locs h1 h visited →
    forallb in_grid ps = true →
    ∃ h', forS (λ '(row, col), mark_at u num row col) ps h = Returned tt h'
      ∧ marking_inv num n0 h1 h'
      ∧ marked_at num locs h1 h' (ps ++ visited).
  Proof.
    revert h visited. induction ps as [|[r k] ps IH]; intros h visited Hinv Hvis Hps.
    - by exists h.
    - cbn in Hps. apply andb_prop in Hps as [[Hr%Nat.ltb_lt Hk%Nat.ltb_lt]%andb_prop Hps].
      destruct (mark_at_step r k h visited Hinv Hvis Hr Hk) as (h2 & E2 & Hinv2 & Hvis2).
      destruct (IH h2 ((r, k) :: visited) Hinv2 Hvis2 Hps) as (h3 & E3 & Hinv3 & Hvis3).
      exists h3. split; [|split; [done|]].
      + cbn. by erewrite bind_Returned by exact E2.
      + intros r' k' lr' x' Hin. apply (Hvis3 r' k' lr' x').
        rewrite elem_of_app, elem_of_cons in *. tauto.
  Qed.

Lemma marked_graph h :
    marking_inv num n0 h1 h → marked_at num locs h1 h (positions 5 5) →
    card_graph h u locs (with_cells c (map (map (mark_cell num)) (cells c))).
  Proof.
    intros Hinv Hvis. destruct Hgraph as (cl & rowRefs & Eu & Ecl & Hrows & Hcells).
    exists cl, rowRefs. cbn [card_id card_name card_createdAt cells with_cells].
    split; [by destruct (inv_lookup h u _ Hinv Eu)|].
    split; [by destruct (inv_lookup h cl _ Hinv Ecl)|].
    split.
    - eapply Forall2_impl; [exact Hrows|]. intros rr lr E.
      by destruct (inv_lookup h rr _ Hinv E).
    - pose proof Hshape as [Hlen Hall]%andb_prop. apply Nat.eqb_eq in Hlen.
      unfold cells_at in *. apply Forall2_same_length_lookup.
      split; [rewrite length_map; by eapply Forall2_length|].
      intros r lr row' Elr Erow'. rewrite list_lookup_fmap in Erow'.
      destruct (cells c !! r) as [row|] eqn:Erow; [|discriminate].
      injection Erow' as <-.
      pose proof (Forall2_lookup_lr _ _ _ _ _ _ Hcells Elr Erow) as Hrow.
      assert (Hr : (r < 5)%nat) by (apply lookup_lt_Some in Erow; lia).
      assert (Hrl : length row = 5%nat).
      { rewrite forallb_forall in Hall. apply Nat.eqb_eq, Hall, list_elem_of_In.
        by eapply list_elem_of_lookup_2. }
      apply Forall2_same_length_lookup.
      split; [rewrite length_map; by eapply Forall2_length|].
      intros k x c' Ex Ec'. rewrite list_lookup_fmap in Ec'.
      destruct (row !! k) as [c0|] eqn:Ec0; [|discriminate].
      injection Ec' as <-.
      assert (Hk : (k < 5)%nat) by (apply lookup_lt_Some in Ec0; lia).
      rewrite (Hvis r k lr x); [|by apply elem_of_positions|done|done].
      by rewrite (Forall2_lookup_lr _ _ _ _ _ _ Hrow Ex Ec0).
  Qed.
End marking.

Lemma markNumber_run h card c num :
  load_card h card = Some c → card_shape c →
  ∃ updatedCard h',
    markNumber card num h = Returned updatedCard h'
    ∧ heap_preserved h h'
    ∧ (length h ≤ updatedCard)%nat
    ∧ load_card h' updatedCard
      = Some (with_cells c (map (map (mark_cell num)) (cells c))).
Proof.
  intros Hc Hshape.
  destruct (parse_card_spec c h) as (u & h1 & locs & E1 & H01 & Hu & Hgraph & Hfresh).
  destruct (mark_loop num (length h) h1 u locs c Hgraph Hshape Hfresh
              (positions 5 5) h1 []) as (h2 & E2 & Hinv & Hvis).
  { split; [done|]. split; [by left|done]. }
  { intros r k lr x Hin. inversion Hin. }
  { reflexivity. }
  rewrite app_nil_r in Hvis.
  exists u, h2. split; [|split; [|split; [done|]]].
  - unfold markNumber, stringify_card. unfold bind at 1. rewrite Hc.
    erewrite bind_Returned by exact E1.
    by erewrite bind_Returned by (rewrite for2S_positions; exact E2).
  - intros l o Hl. destruct Hinv as (_ & _ & Hfr).
    rewrite Hfr by (by eapply lookup_lt_Some). by apply H01.
  - eapply card_graph_load, marked_graph; eauto.
Qed.

(** ** Cell by cell *)

Lemma cell_map card f row col :
  card_shape card → (row < 5)%nat → (col < 5)%nat →
  cell (with_cells card (map (map f) (cells card))) row col = f (cell card row col).
Proof.
  intros Hs Hr Hc. destruct (shape5_lookup (cells card) row col Hs Hr Hc) as [E1 E2].
  unfold cell. cbn [cells with_cells].
  rewrite (list_lookup_total_correct (map (map f) (cells card)) row
             (map f (cells card !!! row))).
  - apply list_lookup_total_correct. by rewrite list_lookup_fmap, E2.
  - by rewrite list_lookup_fmap, E1.
Qed.

Lemma shape5_map {A C} (f : A → C) (m : list (list A)) :
  shape5 m = true → shape5 (map (map f) m) = true.
Proof.
  unfold shape5. rewrite length_map, forallb_map.
  intros [-> H]%andb_prop. cbn. erewrite forallb_eq; [exact H|].
  intros r. cbn. by rewrite length_map.
Qed.

Lemma map_map_id_shape card f :
  card_shape card →
  (∀ row col, (row < 5)%nat → (col < 5)%nat → f (cell card row col) = cell card row col) →
  map (map f) (cells card) = cells card.
Proof.
  intros Hs Hf. apply list_eq. intros r. rewrite list_lookup_fmap.
  destruct (cells card !! r) as [row|] eqn:Er; [|done]. cbn. f_equal.
  assert (Hr : (r < 5)%nat).
  { apply lookup_lt_Some in Er. apply andb_prop in Hs as [Hl%Nat.eqb_eq _]. lia. }
  apply list_eq. intros k. rewrite list_lookup_fmap.
  destruct (row !! k) as [x|] eqn:Ek; [|done]. cbn. f_equal.
  assert (Hk : (k < 5)%nat).
  { apply lookup_lt_Some in Ek. apply andb_prop in Hs as [_ Hall].
    rewrite forallb_forall in Hall. specialize (Hall row).
    rewrite Nat.eqb_eq in Hall. rewrite Hall in Ek; [done|].
    apply list_elem_of_In. by eapply list_elem_of_lookup_2. }
  destruct (shape5_lookup (cells card) r k Hs Hr Hk) as [E1 E2].
  assert (x = cell card r k) as ->; [|by apply Hf].
  unfold cell. rewrite E1 in Er. injection Er as <-. rewrite E2 in Ek.
  by injection Ek.
Qed.

Lemma with_cells_id card : with_cells card (cells card) = card.
Proof. by destruct card. Qed.

Lemma called_card_idem nums card :
  called_card nums (called_card nums card) = called_card nums card.
Proof.
  unfold called_card, with_cells. cbn. f_equal.
  rewrite map_map. apply map_ext. intros row. rewrite map_map. by apply map_ext.
Qed.

(** * The matcher on the scenarios of its specification *)

(** Four Corners on a card with only its corners marked. *)
Example four_corners_won :
  checkPattern card_corners four_corners = Some true
  ∧ getMissingNumbers card_corners four_corners = Some [].
Proof. split; reflexivity. Qed.

(** A row that lacks one number: one path, on pot. *)
Example horizontal_line_on_pot :
  getWinningPaths card_row_on_pot horizontal_line = Some [[Num 61]]
  ∧ isOnPot card_row_on_pot horizontal_line = Some true.
Proof. split; reflexivity. Qed.

(** The main diagonal is ahead of the anti-diagonal: it is the only path. *)
Example diagonal_line_best_only :
  getWinningPaths card_diagonals diagonal_line = Some [[Num 49; Num 65]].
Proof. reflexivity. Qed.

(** A pair that is complete wins Patong, and then no path is reported. *)
Example patong_won :
  checkPattern card_two_pairs patong_pattern = Some true
  ∧ getWinningPaths card_two_pairs patong_pattern = Some [].
Proof. split; reflexivity. Qed.

(** A number that is not on the card leaves the marks as they are. *)
Example mark_absent_number :
  ∃ u h, markNumber 31 (Int 75) example_heap = Returned u h
         ∧ load_card h u = Some card_two_pairs.
Proof. eexists _, _. split; vm_compute; reflexivity. Qed.

(** * The claims *)

(** C1 (amended). Every record of analyzeGame that comes from a path has
    [totalRequired] given by the pattern-category rule (2 for Dikit and
    Patong, 5 for the three line patterns, the number of true cells of the
    grid otherwise) and [totalMarked = totalRequired - missingNumbers.length];
    every other record of analyzeGame is a winner record made by
    analyzeCardForPattern.  Every record of analyzeCardForPattern for a
    pattern named Dikit or Patong has [totalRequired = 2] and [totalMarked]
    2 when nothing is missing and 1 otherwise; for every other pattern it has
    [totalMarked = totalRequired - missingNumbers.length]. *)
Theorem analysis_totals cards patterns :
  List.Forall card_shape cards → List.Forall grid_shape patterns →
  (∀ card pattern, In card cards → In pattern patterns →
     ∃ a, analyzeCardForPattern card pattern = Some a ∧ card_record pattern a)
  ∧ ∃ ga, analyzeGame cards patterns = Some ga
          ∧ List.Forall (game_record cards patterns) (cardAnalyses ga).
Proof.
  intros Hc Hp. split.
  - intros card pattern Hcard Hpat. apply analyzeCardForPattern_shape.
    + rewrite List.Forall_forall in Hc. auto.
    + rewrite List.Forall_forall in Hp. auto.
  - by apply analyzeGame_shape.
Qed.

Lemma analysis_totals_witness :
  (∀ card pattern, In card [card_two_pairs] → In pattern [dikit_pattern; full_house] →
     ∃ a, analyzeCardForPattern card pattern = Some a ∧ card_record pattern a)
  ∧ ∃ ga, analyzeGame [card_two_pairs] [dikit_pattern; full_house] = Some ga
          ∧ List.Forall (game_record [card_two_pairs] [dikit_pattern; full_house])
                        (cardAnalyses ga).
Proof.
  apply (analysis_totals [card_two_pairs] [dikit_pattern; full_house]);
    repeat constructor.
Defined.

(** With two tied Dikit pairs the record of analyzeCardForPattern has two
    missing numbers and [totalMarked = 1], not [2 - 2]. *)
Lemma analysis_totals_counterexample :
  ∃ a, analyzeCardForPattern card_two_pairs dikit_pattern = Some a
       ∧ totalRequired a = 2
       ∧ length (missingNumbers a) = 2%nat
       ∧ totalMarked a = 1
       ∧ totalMarked a ≠ totalRequired a - Z.of_nat (length (missingNumbers a)).
Proof. eexists. split; [vm_compute; reflexivity|]. cbn. repeat split. discriminate. Qed.

(** For a pattern that is neither Dikit nor Patong the counting loop of
    analyzeCardForPattern starts from 2. *)
Lemma analyzeCardForPattern_totalRequired card pattern a :
  grid_shape pattern → is_dikit_or_patong pattern = false →
  analyzeCardForPattern card pattern = Some a →
  totalRequired a = 2 + grid_cardinality pattern.
Proof.
  intros Hg Hn. unfold analyzeCardForPattern.
  destruct (checkPattern card pattern); [|discriminate].
  destruct (getMissingNumbers card pattern); [|discriminate].
  destruct (isOnPot card pattern); [|discriminate].
  cbn [mbind option_bind]. rewrite Hn, count_required_shape by done.
  cbn. intros E. by simplify_eq.
Qed.

(** C2. On a well-formed card the Dikit (horizontal pairs) and Patong
    (vertical pairs) matchers look only at pairs that do not touch a FREE
    cell.  With [best] the largest markedCount among such pairs with
    progress, checkPattern is true exactly when [best = 2]; otherwise
    getWinningPaths returns, in scan order, one path per pair whose
    markedCount is [best], the path being the unmarked values of the pair.
    No path comes from a pair without progress and all paths come from
    pairs with that same markedCount. *)
Theorem pair_patterns_paths card pattern :
  card_shape card →
  (pattern_name pattern = DIKIT →
     pair_pattern_spec card pattern (horizontal_pairs card))
  ∧ (pattern_name pattern = PATONG →
       pair_pattern_spec card pattern (vertical_pairs card)).
Proof.
  intros Hs. split; intros Hn.
  - by apply pair_pattern_dikit.
  - by apply pair_pattern_patong.
Qed.

Lemma pair_patterns_paths_witness :
  pair_pattern_spec card_two_pairs dikit_pattern (horizontal_pairs card_two_pairs)
  ∧ pair_pattern_spec card_two_pairs patong_pattern (vertical_pairs card_two_pairs).
Proof.
  split.
  - apply (pair_patterns_paths card_two_pairs dikit_pattern); reflexivity.
  - apply (pair_patterns_paths card_two_pairs patong_pattern); reflexivity.
Defined.

(** C3 (amended). For a well-formed card and a standard pattern, with
    [missing] the values of the required cells that are unmarked and not
    FREE, in row-major order: getWinningPaths returns the single path
    [missing] when it is not empty and no path when it is empty; and when it
    is empty and every FREE cell of the card is marked, the card is won with
    zero missing numbers. *)
Theorem standard_paths card pattern :
  card_shape card → grid_shape pattern → standard pattern →
  (standard_missing card pattern ≠ [] →
     getWinningPaths card pattern = Some [standard_missing card pattern])
  ∧ (standard_missing card pattern = [] →
       getWinningPaths card pattern = Some []
       ∧ (free_cells_marked card →
            checkPattern card pattern = Some true
            ∧ getMissingNumbers card pattern = Some [])).
Proof.
  intros Hc Hg Hn.
  rewrite getWinningPaths_standard, checkPattern_standard,
    getMissingNumbers_standard by done.
  split.
  - intros Hne. by destruct (standard_missing card pattern).
  - intros E. rewrite E. split; [reflexivity|]. intros Hfree. split; [|reflexivity].
    f_equal. by apply marked_iff_none_missing.
Qed.

Lemma standard_paths_witness :
  (standard_missing card_two_pairs four_corners ≠ [] →
     getWinningPaths card_two_pairs four_corners
     = Some [standard_missing card_two_pairs four_corners])
  ∧ (standard_missing card_two_pairs four_corners = [] →
       getWinningPaths card_two_pairs four_corners = Some []
       ∧ (free_cells_marked card_two_pairs →
            checkPattern card_two_pairs four_corners = Some true
            ∧ getMissingNumbers card_two_pairs four_corners = Some [])).
Proof.
  apply (standard_paths card_two_pairs four_corners); reflexivity.
Defined.

(** [card_two_pairs] has won the custom pattern [left_pair]: no value is
    missing and getWinningPaths returns no path at all, not the one empty
    path.  On a card of the manual editor (its FREE cell unmarked) with all
    its numbers marked, Full House requires 25 cells and none is missing,
    getWinningPaths returns no path, and the card is not won. *)
Lemma standard_paths_counterexample :
  (card_shape card_two_pairs ∧ grid_shape left_pair ∧ standard left_pair
   ∧ checkPattern card_two_pairs left_pair = Some true
   ∧ standard_missing card_two_pairs left_pair = []
   ∧ getWinningPaths card_two_pairs left_pair = Some []
   ∧ getWinningPaths card_two_pairs left_pair
     ≠ Some [standard_missing card_two_pairs left_pair])
  ∧ (card_shape card_manual_complete ∧ grid_shape full_house ∧ standard full_house
     ∧ grid_cardinality full_house = 25
     ∧ standard_missing card_manual_complete full_house = []
     ∧ getWinningPaths card_manual_complete full_house = Some []
     ∧ checkPattern card_manual_complete full_house = Some false).
Proof. repeat split; try reflexivity. discriminate. Qed.

(** C4 (amended). For a well-formed card in which every cell whose value is
    FREE is marked, and every standard pattern, checkPattern is true exactly
    when getMissingNumbers is empty. *)
Theorem standard_win_iff_none_missing card pattern :
  card_shape card → grid_shape pattern → standard pattern →
  free_cells_marked card →
  ∃ won missing,
    checkPattern card pattern = Some won
    ∧ getMissingNumbers card pattern = Some missing
    ∧ (won = true ↔ missing = []).
Proof.
  intros Hc Hg Hn Hfree. eexists _, _.
  split; [by apply checkPattern_standard|].
  split; [by apply getMissingNumbers_standard|].
  by apply marked_iff_none_missing.
Qed.

Lemma standard_win_iff_none_missing_witness :
  ∃ won missing,
    checkPattern card_two_pairs four_corners = Some won
    ∧ getMissingNumbers card_two_pairs four_corners = Some missing
    ∧ (won = true ↔ missing = []).
Proof.
  apply (standard_win_iff_none_missing card_two_pairs four_corners); reflexivity.
Defined.

(** The centre is FREE and marked, Four Corners is a standard pattern, no
    number is missing, and the card is not won: its unmarked top-left corner
    holds FREE. *)
Lemma standard_win_iff_none_missing_counterexample :
  card_shape card_free_corner ∧ grid_shape four_corners ∧ standard four_corners
  ∧ value (cell card_free_corner 2 2) = FREE
  ∧ marked (cell card_free_corner 2 2) = true
  ∧ checkPattern card_free_corner four_corners = Some false
  ∧ getMissingNumbers card_free_corner four_corners = Some []
  ∧ ¬ (checkPattern card_free_corner four_corners = Some true
       ↔ getMissingNumbers card_free_corner four_corners = Some []).
Proof.
  repeat split; try reflexivity. intros [_ H]. specialize (H eq_refl). discriminate.
Qed.

(** C5. isOnPot is true exactly when getMissingNumbers has one element.  On
    [card_two_pairs] with the pattern named Dikit two pairs tie with one
    marked cell each: the aggregate missing set has two elements, so isOnPot
    is false, while analyzeGame emits one record per pair, each on pot with
    a single missing number. *)
Theorem isOnPot_aggregate_vs_paths :
  (∀ card pattern,
     isOnPot card pattern
     = (λ missing, (length missing =? 1)%nat) <$> getMissingNumbers card pattern)
  ∧ ∃ card pattern ga,
      card_shape card ∧ pattern_name pattern = DIKIT
      ∧ isOnPot card pattern = Some false
      ∧ (∃ missing, getMissingNumbers card pattern = Some missing
                    ∧ length missing = 2%nat)
      ∧ analyzeGame [card] [pattern] = Some ga
      ∧ length (cardAnalyses ga) = 2%nat
      ∧ List.Forall (λ a, isWinner a = false ∧ onPot a = true
                          ∧ length (missingNumbers a) = 1%nat) (cardAnalyses ga).
Proof.
  split.
  - intros card pattern. unfold isOnPot.
    by destruct (getMissingNumbers card pattern).
  - exists card_two_pairs, dikit_pattern. eexists.
    split; [reflexivity|]. split; [reflexivity|]. split; [reflexivity|].
    split; [eexists; split; [vm_compute; reflexivity|reflexivity]|].
    split; [vm_compute; reflexivity|]. split; [reflexivity|].
    repeat constructor.
Qed.

(** C9. For a pattern with one of the five special names the matcher never
    reads the grid: two patterns with the same special name give the same
    checkPattern, getMissingNumbers and getWinningPaths on every card,
    whatever their grids (and whatever the card). *)
Theorem special_names_ignore_grid card p1 p2 :
  pattern_name p1 = pattern_name p2 →
  In (pattern_name p1) special_names →
  checkPattern card p1 = checkPattern card p2
  ∧ getMissingNumbers card p1 = getMissingNumbers card p2
  ∧ getWinningPaths card p1 = getWinningPaths card p2.
Proof.
  intros E Hin. unfold checkPattern, getMissingNumbers, getWinningPaths.
  rewrite <- E. unfold special_names in Hin. cbn [In] in Hin.
  destruct Hin as [<-|[<-|[<-|[<-|[<-|[]]]]]]; repeat split; reflexivity.
Qed.

Lemma special_names_ignore_grid_witness :
  checkPattern card_two_pairs dikit_pattern = checkPattern card_two_pairs dikit_other_grid
  ∧ getMissingNumbers card_two_pairs dikit_pattern
    = getMissingNumbers card_two_pairs dikit_other_grid
  ∧ getWinningPaths card_two_pairs dikit_pattern
    = getWinningPaths card_two_pairs dikit_other_grid.
Proof.
  apply (special_names_ignore_grid card_two_pairs dikit_pattern dikit_other_grid).
  - reflexivity.
  - simpl. tauto.
Defined.

(** C10. addCalledNumber throws exactly when the number is not an integer
    in 1-75 or is already among the called numbers of the session, and then
    leaves the store as it was.  Otherwise it returns a new session object
    whose value is the input session with the number appended to
    [calledNumbers]; every object of the input store, the input session
    included, is unchanged. *)
Theorem addCalledNumber_atomic h session s num :
  load_session h session = Some s →
  ((∃ e, addCalledNumber session num h = Thrown e h)
     ↔ (¬ bingo_number num ∨ In num (calledNumbers s)))
  ∧ (∀ e h', addCalledNumber session num h = Thrown e h' → h' = h)
  ∧ (bingo_number num → ¬ In num (calledNumbers s) →
      ∃ session' h', addCalledNumber session num h = Returned session' h'
        ∧ (length h ≤ session')%nat
        ∧ heap_preserved h h'
        ∧ load_session h' session = Some s
        ∧ load_session h' session' = Some (with_called s (calledNumbers s ++ [num]))).
Proof.
  intros Hs. rewrite (addCalledNumber_run h session s num Hs).
  pose proof (isValidBingoNumber_spec num) as Hv.
  pose proof (includes_spec (calledNumbers s) num) as Hi.
  destruct (isValidBingoNumber num); cbn [negb].
  2:{ split; [|split].
      - split; [intros _; left; intros Hb; by apply Hv in Hb|eauto].
      - by intros e h' [= _ ->].
      - intros Hb. by apply Hv in Hb. }
  destruct (includes (calledNumbers s) num).
  { split; [|split].
    - split; [intros _; right; by apply Hi|eauto].
    - by intros e h' [= _ ->].
    - intros _ Hn. destruct Hn. by apply Hi. }
  split; [|split].
  - split; [by intros [e ?]|].
    intros [Hn|Hn]; [destruct Hn; by apply Hv|by apply Hi in Hn].
  - discriminate.
  - intros _ _. clear Hv Hi. eexists _, _. split; [reflexivity|].
    set (h' := h ++ _).
    assert (Hp : heap_preserved h h') by apply heap_preserved_app.
    split; [lia|]. split; [exact Hp|]. split; [by eapply load_session_preserved|].
    unfold load_session in Hs |- *.
    subst h'. rewrite app_assoc.
    rewrite (lookup_app_r (h ++ _)) by (rewrite length_app; cbn; lia).
    rewrite length_app. cbn [length].
    replace (S (length h) - (length h + 1))%nat with 0%nat by lia.
    destruct (h !! session) as [[| | | | |cardIds patternIds called start active]|];
      try discriminate.
    cbn [lookup list_lookup].
    destruct (load_strings h cardIds) as [cs|] eqn:E1; [|discriminate].
    destruct (load_strings h patternIds) as [ps|] eqn:E2; [|discriminate].
    destruct (load_numbers h called) as [ns|] eqn:E3; [|discriminate].
    cbn in Hs. injection Hs as <-. rewrite <- app_assoc.
    set (h' := h ++ _).
    assert (Hp' : heap_preserved h h') by apply heap_preserved_app.
    rewrite (load_strings_preserved _ _ Hp' _ _ E1), (load_strings_preserved _ _ Hp' _ _ E2).
    cbn. unfold load_numbers. subst h'.
    rewrite lookup_app_r by lia. rewrite Nat.sub_diag. reflexivity.
Qed.


Lemma addCalledNumber_atomic_witness :
  ((∃ e, addCalledNumber 3 (Int 7) session_heap = Thrown e session_heap)
     ↔ (¬ bingo_number (Int 7) ∨ In (Int 7) (calledNumbers example_session)))
  ∧ (∀ e h', addCalledNumber 3 (Int 7) session_heap = Thrown e h' → h' = session_heap)
  ∧ (bingo_number (Int 7) → ¬ In (Int 7) (calledNumbers example_session) →
      ∃ session' h', addCalledNumber 3 (Int 7) session_heap = Returned session' h'
        ∧ (length session_heap ≤ session')%nat
        ∧ heap_preserved session_heap h'
        ∧ load_session h' 3 = Some example_session
        ∧ load_session h' session'
          = Some (with_called example_session (calledNumbers example_session ++ [Int 7]))).
Proof.
  apply (addCalledNumber_atomic session_heap 3 example_session (Int 7)). reflexivity.
Defined.

(** ** Marking *)

Lemma value_is_equals v num : value_is v num = true ↔ value_equals v num.
Proof.
  unfold value_is, value_equals. destruct v as [n| |].
  - rewrite bool_decide_eq_true. split; [intros ->; eauto|].
    intros (n' & [= <-] & ->). reflexivity.
  - split; [discriminate|]. by intros (n & ? & _).
  - split; [discriminate|]. by intros (n & ? & _).
Qed.

Lemma mark_cell_marked num c : cell_marked num c (mark_cell num c).
Proof.
  unfold cell_marked, mark_cell. pose proof (value_is_equals (value c) num) as H.
  destruct (value_is (value c) num); cbn.
  - split; [done|]. split; [done|]. split; [done|].
    intros Hn. destruct Hn. by apply H.
  - split; [done|]. split; [done|]. split; [|done].
    intros He. apply H in He. discriminate.
Qed.

Lemma includes_value_spec nums v :
  includes_value nums v = true ↔ ∃ n, v = Num n ∧ In (Int n) nums.
Proof.
  unfold includes_value. destruct v as [n| |].
  - rewrite includes_spec. split; [eauto|]. by intros (n' & [= <-] & ?).
  - split; [discriminate|]. by intros (n & ? & _).
  - split; [discriminate|]. by intros (n & ? & _).
Qed.

Lemma called_cell_called nums c : cell_called nums c (called_cell nums c).
Proof.
  unfold cell_called, called_cell. cbn [column value marked].
  split; [done|]. split; [done|].
  rewrite orb_true_iff, andb_true_iff, includes_value_spec.
  unfold is_free, value_nonzero. destruct (value c) as [n| |].
  - split.
    + intros [?|[Hn (n' & [= <-] & Hin)]]; [discriminate|].
      right. exists n. repeat split; [|done]. intros ->. discriminate.
    + intros [?|(n' & [= <-] & Hn & Hin)]; [discriminate|].
      right. split; [|eauto]. apply negb_true_iff, Z.eqb_neq, Hn.
  - split; auto.
  - split.
    + intros [?|[_ (n & ? & _)]]; discriminate.
    + intros [?|(n & ? & _)]; discriminate.
Qed.

Lemma called_card_called nums card : card_called nums card (called_card nums card).
Proof.
  unfold card_called, called_card. cbn. repeat split.
  apply Forall2_fmap_r, Forall_Forall2_diag, Forall_forall. intros row _.
  apply Forall2_fmap_r, Forall_Forall2_diag, Forall_forall. intros c _.
  apply called_cell_called.
Qed.

(** C6 (amended). For every list of cards and every list of called numbers
    in the store, applyCalledNumbersToCards returns a new array of new card
    objects in which a cell is marked exactly when its value is FREE or its
    value is a number other than 0 that is in the called-number list; the
    value and column of every cell and the other fields of every card are
    unchanged, and no object of the input store is modified. *)
Theorem applyCalledNumbersToCards_spec h cardsRef numsRef cards nums :
  load_cards h cardsRef = Some cards →
  load_numbers h numsRef = Some nums →
  ∃ out h' refs cards',
    applyCalledNumbersToCards cardsRef numsRef h = Returned out h'
    ∧ heap_preserved h h'
    ∧ load_cards h' cardsRef = Some cards
    ∧ (length h ≤ out)%nat
    ∧ get_array h' out = Some refs
    ∧ Forall (λ u, (length h ≤ u)%nat) refs
    ∧ load_cards h' out = Some cards'
    ∧ Forall2 (card_called nums) cards cards'.
Proof.
  intros Hcards Hnums.
  destruct (applyCalledNumbersToCards_run h numsRef nums Hnums cardsRef cards Hcards)
    as (out & h' & refs & E & Hp & Hout & Hrefs & Hnew & Hl).
  exists out, h', refs, (map (called_card nums) cards).
  split; [done|]. split; [done|].
  split; [by eapply load_cards_preserved|]. split; [done|]. split; [done|].
  split; [done|]. split; [done|].
  apply Forall2_fmap_r, Forall_Forall2_diag, Forall_forall. intros card _.
  apply called_card_called.
Qed.

Lemma applyCalledNumbersToCards_spec_witness :
  ∃ out h' refs cards',
    applyCalledNumbersToCards 32 33 example_heap = Returned out h'
    ∧ heap_preserved example_heap h'
    ∧ load_cards h' 32 = Some [card_two_pairs]
    ∧ (length example_heap ≤ out)%nat
    ∧ get_array h' out = Some refs
    ∧ Forall (λ u, (length example_heap ≤ u)%nat) refs
    ∧ load_cards h' out = Some cards'
    ∧ Forall2 (card_called [Int 1; Int 2]) [card_two_pairs] cards'.
Proof.
  apply (applyCalledNumbersToCards_spec example_heap 32 33); reflexivity.
Defined.

(** The first cell of [card_placeholder] holds 0 and 0 is in the called
    list, yet the cell is left unmarked. *)
Lemma applyCalledNumbersToCards_spec_counterexample :
  ∃ out h' card',
    load_cards placeholder_heap 32 = Some [card_placeholder]
    ∧ load_numbers placeholder_heap 33 = Some [Int 0]
    ∧ applyCalledNumbersToCards 32 33 placeholder_heap = Returned out h'
    ∧ load_cards h' out = Some [card']
    ∧ value (cell card_placeholder 0 0) = Num 0
    ∧ In (Int 0) [Int 0]
    ∧ value (cell card' 0 0) = Num 0
    ∧ marked (cell card' 0 0) = false.
Proof.
  eexists _, _, _. split; [reflexivity|]. split; [reflexivity|].
  split; [vm_compute; reflexivity|]. split; [vm_compute; reflexivity|].
  repeat split. by left.
Qed.

(** C7. Applying the same called numbers to the result of
    applyCalledNumbersToCards yields cards equal to that result, so every
    cell has the same marked flag after two applications as after one. *)
Theorem applyCalledNumbersToCards_idempotent h cardsRef numsRef cards nums :
  load_cards h cardsRef = Some cards →
  load_numbers h numsRef = Some nums →
  ∃ out1 h1 out2 h2 once,
    applyCalledNumbersToCards cardsRef numsRef h = Returned out1 h1
    ∧ applyCalledNumbersToCards out1 numsRef h1 = Returned out2 h2
    ∧ load_cards h1 out1 = Some once
    ∧ load_cards h2 out2 = Some once
    ∧ map (λ card, map (map marked) (cells card)) once
      = map (λ card, map (map marked) (cells (called_card nums card))) cards.
Proof.
  intros Hcards Hnums.
  destruct (applyCalledNumbersToCards_run h numsRef nums Hnums cardsRef cards Hcards)
    as (out1 & h1 & refs1 & E1 & Hp1 & _ & _ & _ & Hl1).
  assert (Hnums1 : load_numbers h1 numsRef = Some nums)
    by (by eapply load_numbers_preserved).
  destruct (applyCalledNumbersToCards_run h1 numsRef nums Hnums1 out1 _ Hl1)
    as (out2 & h2 & refs2 & E2 & Hp2 & _ & _ & _ & Hl2).
  exists out1, h1, out2, h2, (map (called_card nums) cards).
  split; [done|]. split; [done|]. split; [done|]. split.
  - rewrite Hl2. f_equal. rewrite map_map. apply map_ext. intros card.
    apply called_card_idem.
  - by rewrite map_map.
Qed.

Lemma applyCalledNumbersToCards_idempotent_witness :
  ∃ out1 h1 out2 h2 once,
    applyCalledNumbersToCards 32 33 example_heap = Returned out1 h1
    ∧ applyCalledNumbersToCards out1 33 h1 = Returned out2 h2
    ∧ load_cards h1 out1 = Some once
    ∧ load_cards h2 out2 = Some once
    ∧ map (λ card, map (map marked) (cells card)) once
      = map (λ card, map (map marked) (cells (called_card [Int 1; Int 2] card)))
            [card_two_pairs].
Proof.
  apply (applyCalledNumbersToCards_idempotent example_heap 32 33); reflexivity.
Defined.

(** C8. For every well-formed card in the store and every number,
    markNumber returns a new card object in which every cell whose value
    equals the number is marked and every other cell keeps its marked flag;
    values, columns and the other fields of the card are as in the input.
    If the number is nowhere on the card, the result equals the input card.
    No object of the input store is modified: the input card reads as
    before. *)
Theorem markNumber_spec h card c num :
  load_card h card = Some c → card_shape c →
  ∃ updatedCard h' c',
    markNumber card num h = Returned updatedCard h'
    ∧ heap_preserved h h'
    ∧ load_card h' card = Some c
    ∧ (length h ≤ updatedCard)%nat
    ∧ load_card h' updatedCard = Some c'
    ∧ card_id c' = card_id c
    ∧ card_name c' = card_name c
    ∧ card_createdAt c' = card_createdAt c
    ∧ card_shape c'
    ∧ (∀ row col, (row < 5)%nat → (col < 5)%nat →
         cell_marked num (cell c row col) (cell c' row col))
    ∧ ((∀ row col, (row < 5)%nat → (col < 5)%nat →
          ¬ value_equals (value (cell c row col)) num) → c' = c).
Proof.
  intros Hc Hs.
  destruct (markNumber_run h card c num Hc Hs) as (u & h' & E & Hp & Hu & Hl).
  exists u, h', (with_cells c (map (map (mark_cell num)) (cells c))).
  split; [done|]. split; [done|]. split; [by eapply load_card_preserved|].
  split; [done|]. split; [done|]. split; [done|]. split; [done|]. split; [done|].
  split; [by apply shape5_map|]. split.
  - intros row col Hr Hk. rewrite cell_map by done. apply mark_cell_marked.
  - intros Hno. rewrite map_map_id_shape; [apply with_cells_id|done|].
    intros row col Hr Hk. unfold mark_cell.
    destruct (value_is (value (cell c row col)) num) eqn:Ev; [|done].
    apply value_is_equals in Ev. by destruct (Hno row col Hr Hk).
Qed.

Lemma markNumber_spec_witness :
  ∃ updatedCard h' c',
    markNumber 31 (Int 16) example_heap = Returned updatedCard h'
    ∧ heap_preserved example_heap h'
    ∧ load_card h' 31 = Some card_two_pairs
    ∧ (length example_heap ≤ updatedCard)%nat
    ∧ load_card h' updatedCard = Some c'
    ∧ card_id c' = card_id card_two_pairs
    ∧ card_name c' = card_name card_two_pairs
    ∧ card_createdAt c' = card_createdAt card_two_pairs
    ∧ card_shape c'
    ∧ (∀ row col, (row < 5)%nat → (col < 5)%nat →
         cell_marked (Int 16) (cell card_two_pairs row col) (cell c' row col))
    ∧ ((∀ row col, (row < 5)%nat → (col < 5)%nat →
          ¬ value_equals (value (cell card_two_pairs row col)) (Int 16))
       → c' = card_two_pairs).
Proof.
  apply (markNumber_spec example_heap 31 card_two_pairs (Int 16)); reflexivity.
Defined.

(** * The line patterns *)

#[local] Arguments checkPattern : simpl never.
#[local] Arguments getMissingNumbers : simpl never.
#[local] Arguments getWinningPaths : simpl never.
#[local] Arguments analyzeCardForPattern : simpl never.
#[local] Arguments count_required : simpl never.

(** The scan of a line, as a function of its cells. *)
Lemma scan_fold (cs : list BingoCell) (n : nat) (m : list CellValue) :
  foldl scan_step (n, m) cs
  = ((n + length (List.filter marked cs))%nat,
     m ++ map value (List.filter (λ c, negb (marked c) && negb (is_free c)) cs)).
Proof.
  revert n m. induction cs as [|c cs IH]; intros n m.
  - cbn. by rewrite Nat.add_0_r, app_nil_r.
  - cbn [foldl List.filter]. unfold scan_step at 2. cbn [fst snd].
    destruct (marked c); cbn [negb andb].
    + rewrite IH. cbn [length]. f_equal. lia.
    + destruct (is_free c); cbn [negb]; rewrite IH; [done|].
      cbn [map]. by rewrite <- app_assoc.
Qed.

Lemma line_scan_shape card line :
  card_shape card → forallb in_grid line = true →
  line_scan card line = Some (line_marked card line, line_missing card line).
Proof.
  intros Hs Hl. unfold line_scan.
  rewrite (foldM_pure _ (λ st '(r, c), scan_step st (cell card r c))).
  - f_equal. transitivity (foldl scan_step (0%nat, []) (line_cells card line)).
    + unfold line_cells. clear Hl. generalize (0%nat, @nil CellValue).
      induction line as [|[r c] line IH]; intros st; [reflexivity|]. cbn. apply IH.
    + by rewrite scan_fold.
  - intros st [r c] Hin%list_elem_of_In. rewrite forallb_forall in Hl.
    pose proof (cell_at_in_grid card (r, c) Hs (Hl _ Hin)) as E. cbn [fst snd] in E.
    by rewrite E.
Qed.

Lemma line_complete_shape card line :
  card_shape card → forallb in_grid line = true →
  line_complete card line = Some (forallb marked (line_cells card line)).
Proof.
  intros Hs Hl. unfold line_complete, line_cells. rewrite forallb_map.
  rewrite (allM_pure _ (λ x, marked (let '(r, c) := x in cell card r c))).
  - done.
  - intros [r c] Hin%list_elem_of_In. rewrite forallb_forall in Hl.
    pose proof (cell_at_in_grid card (r, c) Hs (Hl _ Hin)) as E. cbn [fst snd] in E.
    by rewrite E.
Qed.

Lemma filter_length_le {A} (f : A → bool) (l : list A) :
  (length (List.filter f l) ≤ length l)%nat.
Proof. induction l as [|x l IH]; cbn; [lia|]. destruct (f x); cbn; lia. Qed.

Lemma forallb_filter_length {A} (f : A → bool) (l : list A) :
  forallb f l = (length (List.filter f l) =? length l)%nat.
Proof.
  induction l as [|x l IH]; [reflexivity|]. cbn. destruct (f x); cbn.
  - exact IH.
  - symmetry. apply Nat.eqb_neq. pose proof (filter_length_le f l). lia.
Qed.

(** A line is complete exactly when all of its cells count as marked. *)
Lemma line_complete_marked card line :
  forallb marked (line_cells card line) = (line_marked card line =? length line)%nat.
Proof.
  unfold line_marked. rewrite forallb_filter_length. unfold line_cells.
  by rewrite length_map.
Qed.

Lemma line_marked_le card line : (line_marked card line ≤ length line)%nat.
Proof.
  unfold line_marked. etransitivity; [apply filter_length_le|].
  unfold line_cells. by rewrite length_map.
Qed.

(** A line with every cell marked has nothing missing. *)
Lemma line_missing_complete card line :
  line_marked card line = length line → line_missing card line = [].
Proof.
  intros E. unfold line_missing.
  assert (H : forallb marked (line_cells card line) = true)
    by (rewrite line_complete_marked; by apply Nat.eqb_eq).
  rewrite forallb_forall in H. rewrite filter_none; [done|].
  intros x Hx. by rewrite (H x Hx).
Qed.

(** *** The loops over the scans *)

Lemma scans_best_app l1 l2 :
  scans_best (l1 ++ l2) = Nat.max (scans_best l1) (scans_best l2).
Proof. unfold scans_best. by rewrite map_app, list_max_app. Qed.

Lemma scans_le_best scans s : In s scans → (fst s ≤ scans_best scans)%nat.
Proof.
  intros Hs. unfold scans_best.
  pose proof (proj1 (list_max_le (map fst scans) _) (le_n _)) as H.
  rewrite List.Forall_forall in H. apply H, in_map, Hs.
Qed.

Lemma scans_tied_above scans best :
  (scans_best scans < best)%nat → scans_tied scans best = [].
Proof.
  intros Hb. apply filter_none. intros s Hs%scans_le_best.
  apply andb_false_intro2, Nat.eqb_neq. lia.
Qed.

(** The loop of getWinningPaths over the lines, as a function of the scans. *)
Lemma line_paths_fold scans :
  foldl line_step_paths ([], 0%nat) scans
  = (List.filter (λ m, (0 <? length m)%nat)
       (map snd (scans_tied scans (scans_best scans))),
     scans_best scans).
Proof.
  induction scans as [|[mc lm] scans IH] using rev_ind; [reflexivity|].
  rewrite foldl_app, IH. clear IH. cbn [foldl].
  rewrite scans_best_app. unfold scans_tied at 2. rewrite List.filter_app.
  fold (scans_tied scans (Nat.max (scans_best scans) (scans_best [(mc, lm)]))).
  pose proof (scans_tied_above scans) as Habove.
  set (b := scans_best scans) in *.
  unfold line_step_paths, scans_best. cbn [map list_max fold_right fst snd List.filter].
  rewrite Nat.max_0_r.
  destruct (Nat.ltb_spec 0 mc) as [Hm|Hm]; cbn [andb].
  2:{ replace (Nat.max b mc) with b by lia. by rewrite app_nil_r. }
  destruct (Nat.ltb_spec b mc) as [Hb|Hb]; cbn [fst snd].
  - rewrite Nat.eqb_refl. replace (Nat.max b mc) with mc by lia.
    rewrite Habove by done. rewrite Nat.eqb_refl. cbn [andb app map List.filter snd].
    by destruct (0 <? length lm)%nat.
  - replace (Nat.max b mc) with b by lia.
    destruct (Nat.eqb_spec mc b) as [E|E]; cbn [andb].
    + rewrite map_app, List.filter_app. cbn [map List.filter snd].
      destruct (0 <? length lm)%nat; cbn [fst snd]; by rewrite ?app_nil_r.
    + by rewrite app_nil_r.
Qed.

(** The loop of getMissingNumbers over the lines. *)
Lemma line_missing_fold scans :
  foldl line_step_missing ([], 0%nat) scans
  = (foldl set_add [] (concat (map snd (scans_tied scans (scans_best scans)))),
     scans_best scans).
Proof.
  induction scans as [|[mc lm] scans IH] using rev_ind; [reflexivity|].
  rewrite foldl_app, IH. clear IH. cbn [foldl].
  rewrite scans_best_app. unfold scans_tied at 2. rewrite List.filter_app.
  fold (scans_tied scans (Nat.max (scans_best scans) (scans_best [(mc, lm)]))).
  pose proof (scans_tied_above scans) as Habove.
  set (b := scans_best scans) in *.
  unfold line_step_missing, scans_best. cbn [map list_max fold_right fst snd List.filter].
  rewrite Nat.max_0_r.
  destruct (Nat.ltb_spec 0 mc) as [Hm|Hm]; cbn [andb].
  2:{ replace (Nat.max b mc) with b by lia. by rewrite app_nil_r. }
  destruct (Nat.ltb_spec b mc) as [Hb|Hb]; cbn [fst snd].
  - rewrite Nat.eqb_refl. replace (Nat.max b mc) with mc by lia.
    rewrite Habove by done. rewrite Nat.eqb_refl. cbn [andb app map concat snd].
    by rewrite app_nil_r.
  - replace (Nat.max b mc) with b by lia.
    destruct (Nat.eqb_spec mc b) as [E|E]; cbn [andb fst snd].
    + rewrite map_app, concat_app, foldl_app. cbn [map concat snd].
      by rewrite app_nil_r.
    + by rewrite app_nil_r.
Qed.

Lemma foldl_map_list {A C S} (g : S → C → S) (h : A → C) (l : list A) (s : S) :
  foldl g s (map h l) = foldl (λ s x, g s (h x)) s l.
Proof. revert s. induction l as [|x l IH]; intros s; [done|]. cbn. apply IH. Qed.

Lemma filter_map_list {A C} (f : C → bool) (h : A → C) (l : list A) :
  List.filter f (map h l) = map h (List.filter (λ x, f (h x)) l).
Proof.
  induction l as [|x l IH]; [done|]. cbn. destruct (f (h x)); cbn; by rewrite IH.
Qed.

Lemma scans_best_lines card lines :
  scans_best (map (scan_of card) lines) = line_best card lines.
Proof. unfold scans_best, line_best. by rewrite map_map. Qed.

Lemma scans_tied_lines card lines :
  map snd (scans_tied (map (scan_of card) lines) (line_best card lines))
  = map (line_missing card) (tied_lines card lines).
Proof.
  unfold scans_tied, tied_lines. rewrite filter_map_list, map_map. reflexivity.
Qed.

(** A loop over lines that scans each of them. *)
Lemma lines_loop {S A} card (step : S → nat * list CellValue → S) (line : A → list (nat * nat))
    (l : list A) (s : S) :
  card_shape card → (∀ x, x ∈ l → forallb in_grid (line x) = true) →
  foldM (λ st x, scan ← line_scan card (line x); Some (step st scan)) s l
  = Some (foldl step s (map (scan_of card) (map line l))).
Proof.
  intros Hs Hl. rewrite map_map, foldl_map_list.
  apply (foldM_pure _ (λ st x, step st (scan_of card (line x)))).
  intros st x Hx. by rewrite (line_scan_shape card (line x) Hs (Hl x Hx)).
Qed.

Lemma lines_any {A} card (line : A → list (nat * nat)) (l : list A) :
  card_shape card → (∀ x, x ∈ l → forallb in_grid (line x) = true) →
  anyM (λ x, line_complete card (line x)) l
  = Some (existsb (λ ln, forallb marked (line_cells card ln)) (map line l)).
Proof.
  intros Hs Hl. rewrite existsb_map. apply anyM_pure.
  intros x Hx. by apply line_complete_shape, Hl.
Qed.

Lemma is_line_names pattern :
  is_line pattern = true →
  pattern_name pattern = HORIZONTAL_LINE ∨ pattern_name pattern = VERTICAL_LINE
  ∨ pattern_name pattern = DIAGONAL_LINE.
Proof.
  unfold is_line. intros [[H|H]%orb_prop|H]%orb_prop; apply String.eqb_eq in H; tauto.
Qed.

Lemma diagonals_in_grid :
  forallb in_grid main_diagonal = true ∧ forallb in_grid anti_diagonal = true.
Proof. split; reflexivity. Qed.

(** The diagonal branch of getWinningPaths is the same loop, unrolled. *)
Lemma diagonal_paths (s1 s2 : nat * list CellValue) :
  (let '(mainMarkedCount, mainMissing) := s1 in
   let '(antiMarkedCount, antiMissing) := s2 in
   let bestDiagonalMarkedCount := Nat.max mainMarkedCount antiMarkedCount in
   if (0 <? bestDiagonalMarkedCount)%nat then
     let p1 := if (mainMarkedCount =? bestDiagonalMarkedCount)%nat
                  && (0 <? length mainMissing)%nat
               then [mainMissing] else [] in
     if (antiMarkedCount =? bestDiagonalMarkedCount)%nat
        && (0 <? length antiMissing)%nat
     then p1 ++ [antiMissing] else p1
   else [])
  = List.filter (λ m, (0 <? length m)%nat)
      (map snd (scans_tied [s1; s2] (scans_best [s1; s2]))).
Proof.
  destruct s1 as [m1 l1], s2 as [m2 l2]. unfold scans_tied, scans_best.
  cbn [map list_max fold_right fst snd List.filter]. rewrite Nat.max_0_r.
  set (b := Nat.max m1 m2).
  destruct (Nat.ltb_spec 0 b) as [Hb|Hb].
  - destruct (Nat.eqb_spec m1 b) as [E1|E1], (Nat.eqb_spec m2 b) as [E2|E2];
      destruct (Nat.ltb_spec 0 m1), (Nat.ltb_spec 0 m2); try lia;
      cbn [andb map List.filter snd];
      destruct (0 <? length l1)%nat, (0 <? length l2)%nat; reflexivity.
  - destruct (Nat.ltb_spec 0 m1), (Nat.ltb_spec 0 m2); try lia. reflexivity.
Qed.

Lemma diagonal_missing (s1 s2 : nat * list CellValue) :
  (let '(mainMarkedCount, mainMissing) := s1 in
   let '(antiMarkedCount, antiMissing) := s2 in
   let bestDiagonalMarkedCount := Nat.max mainMarkedCount antiMarkedCount in
   if (0 <? bestDiagonalMarkedCount)%nat then
     let s1 := if (mainMarkedCount =? bestDiagonalMarkedCount)%nat
               then foldl set_add [] mainMissing else [] in
     if (antiMarkedCount =? bestDiagonalMarkedCount)%nat
     then foldl set_add s1 antiMissing else s1
   else [])
  = foldl set_add [] (concat (map snd (scans_tied [s1; s2] (scans_best [s1; s2])))).
Proof.
  destruct s1 as [m1 l1], s2 as [m2 l2]. unfold scans_tied, scans_best.
  cbn [map list_max fold_right fst snd List.filter]. rewrite Nat.max_0_r.
  set (b := Nat.max m1 m2).
  destruct (Nat.ltb_spec 0 b) as [Hb|Hb].
  - destruct (Nat.eqb_spec m1 b) as [E1|E1], (Nat.eqb_spec m2 b) as [E2|E2];
      destruct (Nat.ltb_spec 0 m1), (Nat.ltb_spec 0 m2); try lia;
      cbn [andb map concat snd]; rewrite ?app_nil_r, ?foldl_app; reflexivity.
  - destruct (Nat.ltb_spec 0 m1), (Nat.ltb_spec 0 m2); try lia. reflexivity.
Qed.

Ltac eval_names :=
  repeat match goal with
         | |- context [String.eqb ?a ?b] =>
           let v := eval vm_compute in (String.eqb a b) in
           change (String.eqb a b) with v
         end;
  cbv iota.

(** What the three functions compute for a line pattern. *)
Lemma line_pattern_run card pattern :
  card_shape card → is_line pattern = true →
  checkPattern card pattern
  = Some (existsb (λ line, forallb marked (line_cells card line)) (lines_of pattern))
  ∧ getWinningPaths card pattern
    = Some (List.filter (λ m, (0 <? length m)%nat)
              (map (line_missing card) (tied_lines card (lines_of pattern))))
  ∧ getMissingNumbers card pattern
    = Some (foldl set_add []
              (concat (map (line_missing card) (tied_lines card (lines_of pattern))))).
Proof.
  intros Hs Hl.
  pose proof row_line_in_grid as Hrow. pose proof col_line_in_grid as Hcol.
  destruct diagonals_in_grid as [Hmain Hanti].
  destruct (is_line_names pattern Hl) as [Hn|[Hn|Hn]];
    unfold checkPattern, getWinningPaths, getMissingNumbers, lines_of; rewrite Hn;
    eval_names.
  - rewrite (lines_any card row_line) by done.
    rewrite !(lines_loop card _ row_line) by done.
    rewrite line_paths_fold, line_missing_fold. cbn [fmap option_fmap option_map fst].
    by rewrite scans_best_lines, scans_tied_lines.
  - rewrite (lines_any card col_line) by done.
    rewrite !(lines_loop card _ col_line) by done.
    rewrite line_paths_fold, line_missing_fold. cbn [fmap option_fmap option_map fst].
    by rewrite scans_best_lines, scans_tied_lines.
  - rewrite !line_complete_shape, !line_scan_shape by done.
    cbn [mbind option_bind]. split; [|split].
    + cbn [existsb]. rewrite orb_false_r.
      by destruct (forallb marked (line_cells card main_diagonal)).
    + f_equal.
      etransitivity;
        [exact (diagonal_paths (scan_of card main_diagonal) (scan_of card anti_diagonal))|].
      change [scan_of card main_diagonal; scan_of card anti_diagonal]
        with (map (scan_of card) [main_diagonal; anti_diagonal]).
      by rewrite scans_best_lines, scans_tied_lines.
    + f_equal.
      etransitivity;
        [exact (diagonal_missing (scan_of card main_diagonal) (scan_of card anti_diagonal))|].
      change [scan_of card main_diagonal; scan_of card anti_diagonal]
        with (map (scan_of card) [main_diagonal; anti_diagonal]).
      by rewrite scans_best_lines, scans_tied_lines.
Qed.

(** * The missing set and the paths *)

Lemma concat_filter_nonempty {A} (l : list (list A)) :
  concat (List.filter (λ m, (0 <? length m)%nat) l) = concat l.
Proof.
  induction l as [|m l IH]; [done|]. cbn [List.filter].
  destruct m as [|x m]; [exact IH|].
  change (0 <? length (x :: m))%nat with true. cbn [concat]. by rewrite IH.
Qed.

(** The loop of getMissingNumbers over pairs, as a function of the pairs. *)
Lemma pair_missing_fold pairs :
  foldl pair_step_missing ([], 0%nat) (map (λ p, pair_of (fst p) (snd p)) pairs)
  = (foldl set_add []
       (concat (map unmarked_values
          (List.filter (λ p, (markedCount p =? best_count pairs)%nat)
                       (progressing pairs)))),
     best_count pairs).
Proof.
  induction pairs as [|x pairs IH] using rev_ind; [reflexivity|].
  rewrite map_app, foldl_app, IH. clear IH. cbn [map foldl].
  rewrite progressing_app, best_count_app, List.filter_app, map_app, concat_app.
  set (b := best_count pairs).
  assert (Hle : ∀ p, In p (progressing pairs) → (markedCount p ≤ b)%nat)
    by apply markedCount_le_best.
  destruct x as [x1 x2]. unfold pair_of, pair_step_missing. cbn [fst snd].
  unfold best_count, progressing, touches_free. cbn [List.filter fst snd].
  destruct (is_free x1 || is_free x2);
    cbn [negb List.filter map list_max fold_right concat].
  { rewrite Nat.max_0_r, app_nil_r. reflexivity. }
  change (pair_markedCount x1 x2) with (markedCount (x1, x2)).
  change (pair_missing x1 x2) with (unmarked_values (x1, x2)).
  set (m := markedCount (x1, x2)) in *.
  destruct (Nat.ltb_spec 0 m) as [Hm|Hm];
    cbn [List.filter map list_max fold_right concat].
  2:{ rewrite Nat.max_0_r, app_nil_r. reflexivity. }
  fold m. rewrite (Nat.max_0_r m).
  destruct (Nat.ltb_spec b m) as [Hb|Hb]; cbn [fst snd].
  - rewrite Nat.eqb_refl. replace (Nat.max b m) with m by lia.
    rewrite filter_none.
    2:{ intros p Hp. apply Hle in Hp. apply Nat.eqb_neq. lia. }
    rewrite Nat.eqb_refl. cbn [map concat app]. by rewrite app_nil_r.
  - replace (Nat.max b m) with b by lia.
    destruct (Nat.eqb_spec m b) as [E|E]; cbn [map concat fst snd].
    + by rewrite foldl_app, app_nil_r.
    + by rewrite app_nil_r.
Qed.

Lemma pair_pattern_run card pattern pairs :
  getWinningPaths card pattern
    = Some (fst (foldl pair_step_paths ([], 0%nat)
                   (map (λ p, pair_of (fst p) (snd p)) pairs))) →
  getMissingNumbers card pattern
    = Some (fst (foldl pair_step_missing ([], 0%nat)
                   (map (λ p, pair_of (fst p) (snd p)) pairs))) →
  ∃ paths, getWinningPaths card pattern = Some paths
    ∧ getMissingNumbers card pattern = Some (foldl set_add [] (concat paths)).
Proof.
  intros -> ->. eexists. split; [reflexivity|].
  rewrite pair_paths_fold, pair_missing_fold. cbn [fst]. do 2 f_equal.
  rewrite <- (concat_filter_nonempty (map unmarked_values _)).
  rewrite filter_map_list. do 2 f_equal.
  generalize (progressing pairs). intros l.
  induction l as [|p l IH]; [done|]. cbn [List.filter].
  destruct (markedCount p =? best_count pairs)%nat; cbn [andb List.filter].
  - destruct (0 <? length (unmarked_values p))%nat; by rewrite IH.
  - exact IH.
Qed.

(** For the five special names the missing set is the union of the paths;
    for a standard pattern it is the one path, or empty. *)
Lemma missing_of_paths card pattern :
  card_shape card → grid_shape pattern →
  ∃ paths, getWinningPaths card pattern = Some paths
    ∧ getMissingNumbers card pattern
      = Some (if forallb (λ s, negb (String.eqb (pattern_name pattern) s)) special_names
              then concat paths else foldl set_add [] (concat paths)).
Proof.
  intros Hs Hg.
  destruct (special_or_standard pattern) as [Hn|[Hn|[Hn|[Hn|[Hn|Hn]]]]].
  - assert (Hrd : ∀ r c, (r < 5)%nat → (c < 4)%nat →
      horizontal_pair card r c
      = Some (pair_of (fst (cell card r c, cell card r (c + 1)%nat))
                      (snd (cell card r c, cell card r (c + 1)%nat))))
      by (intros; by apply horizontal_pair_shape).
    destruct (pair_pattern_run card pattern (horizontal_pairs card)) as (paths & E1 & E2).
    + unfold getWinningPaths. rewrite Hn. eval_names.
      by rewrite (pair_loop_fold _ (λ r c, (cell card r c, cell card r (c + 1)%nat)) 5 4 Hrd).
    + unfold getMissingNumbers. rewrite Hn. eval_names.
      by rewrite (pair_loop_fold _ (λ r c, (cell card r c, cell card r (c + 1)%nat)) 5 4 Hrd).
    + exists paths. split; [done|]. rewrite E2, Hn. reflexivity.
  - assert (Hrd : ∀ r c, (r < 4)%nat → (c < 5)%nat →
      vertical_pair card r c
      = Some (pair_of (fst (cell card r c, cell card (r + 1)%nat c))
                      (snd (cell card r c, cell card (r + 1)%nat c))))
      by (intros; by apply vertical_pair_shape).
    destruct (pair_pattern_run card pattern (vertical_pairs card)) as (paths & E1 & E2).
    + unfold getWinningPaths. rewrite Hn. eval_names.
      by rewrite (pair_loop_fold _ (λ r c, (cell card r c, cell card (r + 1)%nat c)) 4 5 Hrd).
    + unfold getMissingNumbers. rewrite Hn. eval_names.
      by rewrite (pair_loop_fold _ (λ r c, (cell card r c, cell card (r + 1)%nat c)) 4 5 Hrd).
    + exists paths. split; [done|]. rewrite E2, Hn. reflexivity.
  - destruct (line_pattern_run card pattern Hs) as (_ & E1 & E2).
    { unfold is_line. rewrite Hn. reflexivity. }
    eexists. split; [exact E1|]. rewrite E2, concat_filter_nonempty, Hn. reflexivity.
  - destruct (line_pattern_run card pattern Hs) as (_ & E1 & E2).
    { unfold is_line. rewrite Hn. reflexivity. }
    eexists. split; [exact E1|]. rewrite E2, concat_filter_nonempty, Hn. reflexivity.
  - destruct (line_pattern_run card pattern Hs) as (_ & E1 & E2).
    { unfold is_line. rewrite Hn. reflexivity. }
    eexists. split; [exact E1|]. rewrite E2, concat_filter_nonempty, Hn. reflexivity.
  - rewrite getWinningPaths_standard, getMissingNumbers_standard by done.
    eexists. split; [reflexivity|]. unfold standard in Hn. rewrite Hn.
    destruct (standard_missing card pattern); cbn; by rewrite ?app_nil_r.
Qed.

Lemma lines_of_length pattern line :
  In line (lines_of pattern) → length line = 5%nat.
Proof.
  unfold lines_of.
  destruct (String.eqb _ HORIZONTAL_LINE); [|destruct (String.eqb _ VERTICAL_LINE);
    [|destruct (String.eqb _ DIAGONAL_LINE)]]; cbn;
    intros H; repeat (destruct H as [<-|H]; [reflexivity|]); destruct H.
Qed.

Lemma line_best_le card pattern : (line_best card (lines_of pattern) ≤ 5)%nat.
Proof.
  unfold line_best. apply list_max_le, List.Forall_forall.
  intros n (line & <- & Hl)%in_map_iff.
  rewrite <- (lines_of_length pattern line Hl). apply line_marked_le.
Qed.

(** Some line is complete exactly when the best count is 5. *)
Lemma lines_complete_best card (lines : list (list (nat * nat))) :
  (∀ line, In line lines → length line = 5%nat) →
  existsb (λ line, forallb marked (line_cells card line)) lines
  = (line_best card lines =? 5)%nat.
Proof.
  intros Hlen. unfold line_best. induction lines as [|line lines IH]; [reflexivity|].
  cbn [existsb map].
  change (list_max (line_marked card line :: map (line_marked card) lines))
    with (Nat.max (line_marked card line) (list_max (map (line_marked card) lines))).
  rewrite line_complete_marked, (Hlen line) by (by left).
  pose proof (line_marked_le card line) as Hm. rewrite (Hlen line) in Hm by (by left).
  rewrite IH by (intros; apply Hlen; by right). clear IH.
  assert (Hb : (list_max (map (line_marked card) lines) ≤ 5)%nat).
  { apply list_max_le, List.Forall_forall. intros n (l & <- & Hl)%in_map_iff.
    rewrite <- (Hlen l) by (by right). apply line_marked_le. }
  set (b := list_max (map (line_marked card) lines)) in *.
  destruct (Nat.eqb_spec (line_marked card line) 5), (Nat.eqb_spec b 5); cbn;
    symmetry; try (apply Nat.eqb_eq; lia); apply Nat.eqb_neq; lia.
Qed.

Lemma line_complete_best card pattern :
  existsb (λ line, forallb marked (line_cells card line)) (lines_of pattern)
  = (line_best card (lines_of pattern) =? 5)%nat.
Proof. apply lines_complete_best, lines_of_length. Qed.

(** A won pattern has no path and nothing missing. *)
Lemma won_run card pattern :
  card_shape card → grid_shape pattern →
  checkPattern card pattern = Some true →
  getWinningPaths card pattern = Some [] ∧ getMissingNumbers card pattern = Some [].
Proof.
  intros Hs Hg Hwon.
  destruct (missing_of_paths card pattern Hs Hg) as (paths & E1 & E2).
  enough (paths = []) as ->.
  { split; [done|]. rewrite E2. by destruct (forallb _ special_names). }
  assert (Hlines : is_line pattern = true → paths = []).
  { intros Hl. destruct (line_pattern_run card pattern Hs Hl) as (Hc & Hp & _).
    rewrite Hc, line_complete_best in Hwon. injection Hwon as Hb; apply Nat.eqb_eq in Hb.
    rewrite Hp in E1. injection E1 as <-.
    apply filter_none. intros m (line & <- & Hin)%in_map_iff.
    unfold tied_lines in Hin. apply filter_In in Hin as [Hin Ht].
    apply andb_prop in Ht as [_ Ht%Nat.eqb_eq].
    rewrite line_missing_complete; [done|].
    rewrite (lines_of_length pattern line Hin). lia. }
  destruct (special_or_standard pattern) as [Hn|[Hn|[Hn|[Hn|[Hn|Hn]]]]].
  - destruct (pair_pattern_dikit card pattern Hs Hn) as (Hc & _ & Hp & _).
    rewrite Hc in Hwon. injection Hwon as Hb; apply Nat.eqb_eq in Hb.
    rewrite Hp in E1 by done. congruence.
  - destruct (pair_pattern_patong card pattern Hs Hn) as (Hc & _ & Hp & _).
    rewrite Hc in Hwon. injection Hwon as Hb; apply Nat.eqb_eq in Hb.
    rewrite Hp in E1 by done. congruence.
  - apply Hlines. unfold is_line. by rewrite Hn.
  - apply Hlines. unfold is_line. by rewrite Hn.
  - apply Hlines. unfold is_line. by rewrite Hn.
  - rewrite checkPattern_standard in Hwon by done. injection Hwon as Hall.
    rewrite getWinningPaths_standard in E1 by done. injection E1 as <-.
    enough (standard_missing card pattern = []) as -> by done.
    unfold standard_missing. rewrite forallb_forall in Hall.
    rewrite filter_none; [done|]. intros x Hx. by rewrite (Hall x Hx).
Qed.

(** * Sorting *)

Section sorting.
Context {A : Type} (compare : A → A → Z).

Lemma insert_by_perm x l : insert_by compare x l ≡ₚ x :: l.
  Proof.
    induction l as [|y l IH]; [done|]. cbn.
    destruct (compare x y <=? 0); [done|]. rewrite IH. apply Permutation_swap.
  Qed.

Lemma sort_by_perm l : sort_by compare l ≡ₚ l.
  Proof.
    induction l as [|x l IH]; [done|]. cbn. rewrite insert_by_perm. by rewrite IH.
  Qed.

Lemma ordered_by_nil : ordered_by compare [].
  Proof. intros i j x y _ E. by rewrite lookup_nil in E. Qed.

Lemma ordered_by_cons x l :
    ordered_by compare (x :: l)
    ↔ Forall (λ y, compare x y ≤ 0) l ∧ ordered_by compare l.
  Proof.
    split.
    - intros H. split.
      + apply Forall_lookup. intros j y Ey. by apply (H 0%nat (S j) x y); [lia|..].
      + intros i j a b Hij Ea Eb. by apply (H (S i) (S j) a b); [lia|..].
    - intros [Hx Hl] i j a b Hij Ea Eb. destruct j as [|j]; [lia|]. cbn in Eb.
      destruct i as [|i].
      + injection Ea as <-. by eapply (proj1 (Forall_lookup _ _) Hx).
      + cbn in Ea. apply (Hl i j a b); [lia|done..].
  Qed.

Hypothesis total : ∀ x y, 0 < compare x y → compare y x ≤ 0.
Hypothesis trans : ∀ x y z, compare x y ≤ 0 → compare y z ≤ 0 → compare x z ≤ 0.

Lemma insert_by_ordered x l :
    ordered_by compare l → ordered_by compare (insert_by compare x l).
  Proof.
    induction l as [|y l IH]; intros Hl.
    - apply ordered_by_cons. split; [constructor|apply ordered_by_nil].
    - cbn. apply ordered_by_cons in Hl as [Hy Hl].
      destruct (Z.leb_spec (compare x y) 0) as [Hxy|Hxy].
      + apply ordered_by_cons. split.
        * constructor; [done|]. eapply Forall_impl; [exact Hy|]. intros z Hz. eauto.
        * by apply ordered_by_cons.
      + apply ordered_by_cons. split; [|by apply IH].
        rewrite insert_by_perm. constructor; [|done]. by apply total.
  Qed.

Lemma sort_by_ordered l : ordered_by compare (sort_by compare l).
  Proof.
    induction l as [|x l IH]; [apply ordered_by_nil|]. cbn. by apply insert_by_ordered.
  Qed.
End sorting.

Lemma sort_numbers_sort_by l :
  sort_numbers l = sort_by (λ a b, sort_key a - sort_key b) l.
Proof.
  unfold sort_numbers, sort_by. induction l as [|x l IH]; [done|]. cbn. rewrite IH.
  generalize (foldr (insert_by (λ a b, sort_key a - sort_key b)) [] l). intros k.
  induction k as [|y k IHk]; [done|]. cbn. rewrite IHk.
  destruct (Z.leb_spec (sort_key x) (sort_key y)), (Z.leb_spec (sort_key x - sort_key y) 0);
    try lia; reflexivity.
Qed.

(** * Insertion-ordered sets *)

Lemma set_add_elem s v x : x ∈ set_add s v ↔ x ∈ s ∨ x = v.
Proof.
  unfold set_add. destruct (decide (v ∈ s)) as [Hin|Hin].
  - split; [tauto|]. intros [H| ->]; done.
  - rewrite elem_of_app, list_elem_of_singleton. tauto.
Qed.

Lemma set_add_NoDup s v : NoDup s → NoDup (set_add s v).
Proof.
  intros Hs. unfold set_add. destruct (decide (v ∈ s)) as [Hin|Hin]; [done|].
  apply NoDup_app. split; [done|]. split; [|apply NoDup_singleton].
  intros x Hx ->%list_elem_of_singleton. done.
Qed.

Lemma set_add_fold_elem l s x : x ∈ foldl set_add s l ↔ x ∈ s ∨ x ∈ l.
Proof.
  revert s. induction l as [|v l IH]; intros s; cbn.
  - rewrite elem_of_nil. tauto.
  - rewrite IH, set_add_elem, elem_of_cons. tauto.
Qed.

Lemma set_add_fold_NoDup l s : NoDup s → NoDup (foldl set_add s l).
Proof.
  revert s. induction l as [|v l IH]; intros s Hs; cbn; [done|].
  by apply IH, set_add_NoDup.
Qed.

(** * The lists of analyzeGame *)

Lemma lists_ok_path card pattern n st ip st' :
  lists_ok st → path_step card pattern n st ip = Some st' → lists_ok st'.
Proof.
  intros (Hr & Hw & Hp & Hn) E. destruct ip as [i pathMissing]. unfold path_step in E.
  destruct (length pathMissing =? 0)%nat eqn:E0; [by injection E as <-|].
  destruct (path_totalRequired pattern) as [tr|]; [|discriminate].
  cbn [mbind option_bind] in E.
  destruct (0 <? tr - Z.of_nat (length pathMissing)); injection E as <-; [|done].
  unfold lists_ok. cbn [st_cardAnalyses st_potCards st_winningCards st_nextNumbersSet].
  rewrite !List.filter_app. cbn [List.filter]. unfold pot_record at 2, open_record at 2.
  cbn [isWinner missingNumbers negb andb].
  split; [|split; [by rewrite app_nil_r|split]].
  - apply Forall_app. split; [done|]. constructor; [|done]. intros _.
    cbn [onPot missingNumbers]. split; [done|]. intros ->. discriminate.
  - rewrite Hp. by destruct (length pathMissing =? 1)%nat; rewrite ?app_nil_r.
  - rewrite Hn, map_app, concat_app, foldl_app. cbn [map concat missingNumbers].
    by rewrite app_nil_r.
Qed.

Lemma lists_ok_paths card pattern n l st st' :
  lists_ok st → foldM (path_step card pattern n) st l = Some st' → lists_ok st'.
Proof.
  revert st. induction l as [|ip l IH]; intros st Hst E; cbn in E.
  - by injection E as <-.
  - destruct (path_step card pattern n st ip) as [st1|] eqn:E1; [|discriminate].
    cbn in E. eapply IH; [|exact E]. by eapply lists_ok_path.
Qed.

Lemma lists_ok_pattern card st pattern st' :
  lists_ok st → pattern_step card st pattern = Some st' → lists_ok st'.
Proof.
  intros Hst E. unfold pattern_step in E.
  destruct (checkPattern card pattern) as [[|]|] eqn:Ec; [| |discriminate];
    cbn [mbind option_bind] in E.
  - destruct (analyzeCardForPattern card pattern) as [a|] eqn:Ea; [|discriminate].
    cbn [mbind option_bind] in E. injection E as <-.
    destruct (analyzeCardForPattern_isWinner _ _ _ Ea) as [Ew _].
    rewrite Ec in Ew. injection Ew as Ew. destruct Hst as (Hr & Hw & Hp & Hn).
    unfold lists_ok. cbn [st_cardAnalyses st_potCards st_winningCards st_nextNumbersSet].
    rewrite !List.filter_app. cbn [List.filter]. unfold pot_record at 2, open_record at 2.
    rewrite <- Ew. cbn [negb andb]. rewrite !app_nil_r. rewrite Hw.
    repeat split; try done. apply Forall_app. split; [done|]. constructor; [|done].
    intros Hf. congruence.
  - destruct (getWinningPaths card pattern) as [paths|]; [|discriminate].
    cbn [mbind option_bind] in E. by eapply lists_ok_paths.
Qed.

Lemma lists_ok_patterns card l st st' :
  lists_ok st → foldM (pattern_step card) st l = Some st' → lists_ok st'.
Proof.
  revert st. induction l as [|p l IH]; intros st Hst E; cbn in E.
  - by injection E as <-.
  - destruct (pattern_step card st p) as [st1|] eqn:E1; [|discriminate].
    cbn in E. eapply IH; [|exact E]. by eapply lists_ok_pattern.
Qed.

Lemma lists_ok_cards patterns l st st' :
  lists_ok st →
  foldM (λ st card, foldM (pattern_step card) st patterns) st l = Some st' →
  lists_ok st'.
Proof.
  revert st. induction l as [|c l IH]; intros st Hst E; cbn in E.
  - by injection E as <-.
  - destruct (foldM (pattern_step c) st patterns) as [st1|] eqn:E1; [|discriminate].
    cbn in E. eapply IH; [|exact E]. by eapply lists_ok_patterns.
Qed.

Lemma analyzeGame_lists cards patterns ga :
  analyzeGame cards patterns = Some ga →
  Forall waiting_record (cardAnalyses ga)
  ∧ winningCards ga = List.filter isWinner (cardAnalyses ga)
  ∧ potCards ga = List.filter pot_record (cardAnalyses ga)
  ∧ nextNumbersToWatch ga
    = sort_numbers (foldl set_add []
        (concat (map missingNumbers (List.filter open_record (cardAnalyses ga))))).
Proof.
  unfold analyzeGame. intros E.
  destruct (foldM _ _ cards) as [st|] eqn:Est; [|discriminate].
  cbn [mbind option_bind] in E. injection E as <-.
  cbn [cardAnalyses potCards winningCards nextNumbersToWatch].
  assert (H0 : lists_ok {| st_cardAnalyses := []; st_potCards := [];
                           st_winningCards := []; st_nextNumbersSet := [] |})
    by (repeat split; constructor).
  destruct (lists_ok_cards patterns cards _ st H0 Est) as (Hr & Hw & Hp & Hn).
  by rewrite Hn.
Qed.

Lemma elem_of_concat {A} (x : A) (ls : list (list A)) :
  x ∈ concat ls ↔ ∃ l, l ∈ ls ∧ x ∈ l.
Proof.
  rewrite list_elem_of_In, in_concat. split; intros (l & H1 & H2); exists l.
  - by rewrite !list_elem_of_In.
  - by rewrite <- !list_elem_of_In.
Qed.

(** * The queries of the analyzer *)

Lemma closeness_compare_total x y :
  0 < closeness_compare x y → closeness_compare y x ≤ 0.
Proof.
  unfold closeness_compare.
  destruct (isWinner x), (isWinner y), (onPot x), (onPot y); cbn; lia.
Qed.

Lemma closeness_compare_trans x y z :
  closeness_compare x y ≤ 0 → closeness_compare y z ≤ 0 → closeness_compare x z ≤ 0.
Proof.
  unfold closeness_compare.
  destruct (isWinner x), (isWinner y), (isWinner z), (onPot x), (onPot y), (onPot z);
    cbn; lia.
Qed.

(** Every pattern of the list gets its analysis. *)
Lemma analyses_shape card patterns :
  card_shape card → List.Forall grid_shape patterns →
  ∃ mapped, mapM (analyzeCardForPattern card) patterns = Some mapped
    ∧ Forall2 (λ pattern a, analyzeCardForPattern card pattern = Some a) patterns mapped.
Proof.
  intros Hs Hp. induction Hp as [|p ps Hg _ (mapped & E & H)].
  - exists []. split; [done|constructor].
  - destruct (analyzeCardForPattern_shape card p Hs Hg) as (a & Ea & _).
    exists (a :: mapped). split; [|by constructor].
    cbn. rewrite Ea. cbn. by rewrite E.
Qed.

Lemma slice0_take {A} (l : list A) (limit : Z) :
  0 ≤ limit → slice0 l limit = take (Z.to_nat limit) l.
Proof. intros H. unfold slice0. by destruct (Z.ltb_spec limit 0); [lia|]. Qed.

Lemma ordered_by_take_drop {A} (compare : A → A → Z) (l : list A) n x y :
  ordered_by compare l → x ∈ take n l → y ∈ drop n l → compare x y ≤ 0.
Proof.
  intros Hl (i & Ei & Hi)%elem_of_take (j & Ej)%list_elem_of_lookup_1.
  rewrite lookup_drop in Ej. apply (Hl i (n + j)%nat x y); [lia|done..].
Qed.

Lemma ordered_by_take {A} (compare : A → A → Z) (l : list A) n :
  ordered_by compare l → ordered_by compare (take n l).
Proof.
  intros Hl i j x y Hij Ei Ej.
  apply lookup_take_Some in Ei as [Ei _], Ej as [Ej _]. by apply (Hl i j).
Qed.



(** The test of getCardsWaitingForNumber is the test of isNumberImportant:
    a winner has nothing missing. *)
Lemma waiting_test num card pattern :
  card_shape card → grid_shape pattern →
  ∃ a, analyzeCardForPattern card pattern = Some a
    ∧ getMissingNumbers card pattern = Some (missingNumbers a)
    ∧ negb (isWinner a) && includes_number (missingNumbers a) num
      = waits_for num card pattern.
Proof.
  intros Hs Hg. destruct (analyzeCardForPattern_shape card pattern Hs Hg) as (a & Ea & _).
  destruct (analyzeCardForPattern_isWinner _ _ _ Ea) as [Ew Em].
  exists a. split; [done|]. split; [done|]. unfold waits_for. rewrite Em. cbn [default].
  destruct (isWinner a) eqn:E; [|done].
  destruct (won_run card pattern Hs Hg Ew) as [_ Em']. rewrite Em in Em'.
  injection Em' as ->. reflexivity.
Qed.

Lemma waiting_patterns num card patterns results :
  card_shape card → List.Forall grid_shape patterns →
  ∃ new,
    foldM (λ results pattern,
      analysis ← analyzeCardForPattern card pattern;
      Some (if negb (isWinner analysis) && includes_number (missingNumbers analysis) num
            then results ++ [(card, pattern, analysis)] else results))
      results patterns = Some (results ++ new)
    ∧ map fst new
      = List.filter (λ '(c, p), waits_for num c p) (map (λ pattern, (card, pattern)) patterns)
    ∧ Forall (λ '(c, p, a), analyzeCardForPattern c p = Some a ∧ isWinner a = false
                            ∧ includes_number (missingNumbers a) num = true) new.
Proof.
  intros Hs Hp. revert results. induction Hp as [|p ps Hg _ IH]; intros results.
  - exists []. rewrite app_nil_r. by repeat split.
  - destruct (waiting_test num card p Hs Hg) as (a & Ea & _ & Et).
    cbn [foldM map List.filter]. rewrite Ea. cbn [mbind option_bind]. rewrite Et.
    destruct (waits_for num card p) eqn:Ew.
    + destruct (IH (results ++ [(card, p, a)])) as (new & E & Hm & Hf).
      exists ((card, p, a) :: new). rewrite E, <- app_assoc. split; [done|].
      split; [cbn; by rewrite Hm|]. constructor; [|done].
      apply andb_prop in Et as [Hw%negb_true_iff Hi]. done.
    + destruct (IH results) as (new & E & Hm & Hf). by exists new.
Qed.

Lemma waiting_cards num cards patterns results :
  List.Forall card_shape cards → List.Forall grid_shape patterns →
  ∃ new,
    foldM (λ results card, foldM (λ results pattern,
      analysis ← analyzeCardForPattern card pattern;
      Some (if negb (isWinner analysis) && includes_number (missingNumbers analysis) num
            then results ++ [(card, pattern, analysis)] else results))
      results patterns) results cards = Some (results ++ new)
    ∧ map fst new
      = List.filter (λ '(c, p), waits_for num c p) (card_pattern_pairs cards patterns)
    ∧ Forall (λ '(c, p, a), analyzeCardForPattern c p = Some a ∧ isWinner a = false
                            ∧ includes_number (missingNumbers a) num = true) new.
Proof.
  intros Hc Hp. revert results. induction Hc as [|c cs Hs _ IH]; intros results.
  - exists []. rewrite app_nil_r. by repeat split.
  - destruct (waiting_patterns num c patterns results Hs Hp) as (new1 & E1 & Hm1 & Hf1).
    destruct (IH (results ++ new1)) as (new2 & E2 & Hm2 & Hf2).
    exists (new1 ++ new2). cbn [foldM]. rewrite E1. cbn [mbind option_bind].
    rewrite E2, <- app_assoc. split; [done|]. split; [|by apply Forall_app].
    unfold card_pattern_pairs in *. cbn [flat_map].
    by rewrite map_app, List.filter_app, Hm1, Hm2.
Qed.

Lemma important_run num cards patterns :
  List.Forall card_shape cards → List.Forall grid_shape patterns →
  isNumberImportant num cards patterns
  = Some (existsb (λ '(c, p), waits_for num c p) (card_pattern_pairs cards patterns)).
Proof.
  intros Hc Hp. unfold isNumberImportant, card_pattern_pairs.
  rewrite (anyM_pure _ (λ card, existsb (λ pattern, waits_for num card pattern) patterns)).
  - f_equal. clear Hc. induction cards as [|c cs IH]; [done|].
    cbn [existsb flat_map]. by rewrite existsb_app, existsb_map, IH.
  - intros card Hcard%list_elem_of_In. rewrite List.Forall_forall in Hc.
    apply anyM_pure. intros pattern Hpat%list_elem_of_In.
    rewrite List.Forall_forall in Hp.
    destruct (waiting_test num card pattern (Hc _ Hcard) (Hp _ Hpat)) as (a & _ & Em & _).
    unfold waits_for. by rewrite Em.
Qed.

Lemma existsb_filter_nil {A} (f : A → bool) (l : list A) :
  existsb f l = true ↔ List.filter f l ≠ [].
Proof.
  induction l as [|x l IH]; cbn; [split; [discriminate|done]|].
  destruct (f x); cbn; [split; [discriminate|done]|exact IH].
Qed.

(** * Counting bingo numbers *)

Lemma bingo_numbers_length (l : list number) :
  NoDup l → Forall bingo_number l → (length l ≤ 75)%nat.
Proof.
  intros Hnd Hall.
  assert (H : l ⊆+ map (λ i, Int (Z.of_nat i + 1)) (seq 0 75)).
  { apply NoDup_submseteq; [done|]. intros x Hx.
    rewrite Forall_forall in Hall. destruct (Hall x Hx) as (z & -> & Hz).
    apply list_elem_of_In, in_map_iff. exists (Z.to_nat (z - 1)).
    split; [f_equal; lia|]. apply in_seq. lia. }
  apply submseteq_length in H. by rewrite length_map, length_seq in H.
Qed.

(** * The session *)

(** The store after a function has built a session from [session] with the
    called numbers [ns']. *)
Lemma new_session_load h session s ns' :
  load_session h session = Some s →
  let h' := h ++ [ObjNumbers ns']
              ++ [match h !! session with
                  | Some (ObjSession cardIds patternIds _ start active) =>
                    ObjSession cardIds patternIds (length h) start active
                  | _ => ObjNumbers []
                  end] in
  heap_preserved h h'
  ∧ load_session h' session = Some s
  ∧ load_session h' (S (length h)) = Some (with_called s ns').
Proof.
  intros Hs h'.
  assert (Hp : heap_preserved h h') by apply heap_preserved_app.
  split; [exact Hp|]. split; [by eapply load_session_preserved|].
  unfold load_session in Hs |- *.
  subst h'. rewrite app_assoc.
  rewrite (lookup_app_r (h ++ _)) by (rewrite length_app; cbn; lia).
  rewrite length_app. cbn [length].
  replace (S (length h) - (length h + 1))%nat with 0%nat by lia.
  destruct (h !! session) as [[| | | | |cardIds patternIds called start active]|];
    try discriminate.
  cbn [lookup list_lookup].
  destruct (load_strings h cardIds) as [cs|] eqn:E1; [|discriminate].
  destruct (load_strings h patternIds) as [ps|] eqn:E2; [|discriminate].
  destruct (load_numbers h called) as [ns|] eqn:E3; [|discriminate].
  cbn in Hs. injection Hs as <-. rewrite <- app_assoc.
  set (h' := h ++ _).
  assert (Hp' : heap_preserved h h') by apply heap_preserved_app.
  rewrite (load_strings_preserved _ _ Hp' _ _ E1), (load_strings_preserved _ _ Hp' _ _ E2).
  cbn. unfold load_numbers. subst h'.
  rewrite lookup_app_r by lia. rewrite Nat.sub_diag. reflexivity.
Qed.

Lemma removeCalledNumber_run h session s num :
  load_session h session = Some s →
  removeCalledNumber session num h
  = Returned (S (length h))
      (h ++ [ObjNumbers (List.filter (λ n, negb (strict_equal n num)) (calledNumbers s))]
         ++ [match h !! session with
             | Some (ObjSession cardIds patternIds _ start active) =>
               ObjSession cardIds patternIds (length h) start active
             | _ => ObjNumbers []
             end]).
Proof.
  unfold load_session, removeCalledNumber. intros Hs.
  unfold bind, deref, read_numbers.
  destruct (h !! session) as [[| | | | |cardIds patternIds called start active]|];
    try discriminate.
  destruct (load_strings h cardIds) as [cs|]; [|discriminate].
  destruct (load_strings h patternIds) as [ps|]; [|discriminate].
  unfold load_numbers in Hs. unfold bind, deref.
  destruct (h !! called) as [[| | |ns| |]|]; try discriminate.
  cbn in Hs. injection Hs as <-. cbn.
  unfold alloc. rewrite length_app. cbn. rewrite Nat.add_1_r, <- app_assoc.
  reflexivity.
Qed.

Lemma strict_equal_spec a b : strict_equal a b = true ↔ a = b ∧ a ≠ NaN.
Proof.
  unfold strict_equal. destruct a; rewrite ?bool_decide_eq_true; split;
    try (intros ->; done); try (intros [-> _]; done); try done.
  by intros [_ []].
Qed.

(** Removing a number that is not there changes nothing. *)
Lemma filter_not_called ns num :
  ¬ In num ns → List.filter (λ n, negb (strict_equal n num)) ns = ns.
Proof.
  intros Hout. induction ns as [|n ns IH]; [done|]. cbn.
  destruct (strict_equal n num) eqn:E.
  - apply strict_equal_spec in E as [-> _]. destruct Hout. by left.
  - cbn. rewrite IH; [done|]. intros H. apply Hout. by right.
Qed.

Lemma calls_ok_spec ns :
  calls_ok ns = true ↔ Forall bingo_number ns ∧ NoDup ns.
Proof.
  unfold calls_ok. rewrite andb_true_iff, bool_decide_eq_true, forallb_forall, Forall_forall.
  split; intros [H1 H2]; (split; [|done]); intros x Hx.
  - apply isValidBingoNumber_spec, H1. by apply list_elem_of_In.
  - apply isValidBingoNumber_spec, H1. by apply list_elem_of_In.
Qed.

Lemma calls_ok_filter ns (f : number → bool) :
  calls_ok ns = true → calls_ok (List.filter f ns) = true.
Proof.
  rewrite !calls_ok_spec. intros [Hv Hn]. split.
  - apply Forall_forall. intros x [Hx _]%list_elem_of_In%List.filter_In.
    rewrite Forall_forall in Hv. by apply Hv, list_elem_of_In.
  - clear Hv. induction Hn as [|x l Hx Hl IH]; cbn; [constructor|].
    destruct (f x); [|done]. constructor; [|done].
    rewrite list_elem_of_In, List.filter_In, <- list_elem_of_In. tauto.
Qed.

Lemma calls_ok_snoc ns num :
  calls_ok ns = true → isValidBingoNumber num = true → includes ns num = false →
  calls_ok (ns ++ [num]) = true.
Proof.
  rewrite !calls_ok_spec. intros [Hv Hn] Hnum Hout. split.
  - apply Forall_app. split; [done|]. constructor; [|done].
    by apply isValidBingoNumber_spec.
  - apply NoDup_app. split; [done|]. split; [|apply NoDup_singleton].
    intros x Hx ->%list_elem_of_singleton.
    apply list_elem_of_In, includes_spec in Hx. congruence.
Qed.

(** The 75 bingo numbers. *)
Lemma all_numbers_spec n :
  n ∈ map (λ i, Int (Z.of_nat i + 1)) (seq 0 75) ↔ bingo_number n.
Proof.
  rewrite list_elem_of_In, in_map_iff. split.
  - intros (i & <- & Hi%in_seq). eexists. split; [reflexivity|lia].
  - intros (z & -> & Hz). exists (Z.to_nat (z - 1)). split; [f_equal; lia|].
    apply in_seq. lia.
Qed.

Lemma all_numbers_NoDup : NoDup (map (λ i, Int (Z.of_nat i + 1)) (seq 0 75)).
Proof.
  apply NoDup_fmap_2; [|apply NoDup_seq]. intros i j [= H]. lia.
Qed.

Lemma NoDup_filter_list {A} (f : A → bool) (l : list A) :
  NoDup l → NoDup (List.filter f l).
Proof.
  induction 1 as [|x l Hx Hl IH]; cbn; [constructor|].
  destruct (f x); [|done]. constructor; [|done].
  rewrite list_elem_of_In, List.filter_In, <- list_elem_of_In. tauto.
Qed.

(** The numbers not called and the numbers called are the 75 numbers. *)
Lemma uncalled_count s :
  calls_ok (calledNumbers s) = true →
  (length (getUncalledNumbers s) + length (calledNumbers s) = 75)%nat.
Proof.
  intros [Hv Hn]%calls_ok_spec. unfold getUncalledNumbers.
  set (all := map (λ i, Int (Z.of_nat i + 1)) (seq 0 75)).
  rewrite <- length_app.
  replace 75%nat with (length all) by (subst all; by rewrite length_map, length_seq).
  apply Permutation_length, NoDup_Permutation.
  - apply NoDup_app. split; [apply NoDup_filter_list, all_numbers_NoDup|]. split; [|done].
    intros x [_ Hx]%list_elem_of_In%List.filter_In Hc.
    apply negb_true_iff in Hx. apply list_elem_of_In, includes_spec in Hc. congruence.
  - apply all_numbers_NoDup.
  - intros x. rewrite elem_of_app, list_elem_of_In, List.filter_In, <- list_elem_of_In.
    subst all. rewrite all_numbers_spec, negb_true_iff.
    rewrite Forall_forall in Hv. split.
    + intros [[H _]|H]; [done|by apply Hv].
    + intros Hx. destruct (includes (calledNumbers s) x) eqn:E; [|by left].
      right. by apply list_elem_of_In, includes_spec.
Qed.

(** * Columns *)

Ltac by_comparisons :=
  repeat (match goal with
          | |- context [(?a <=? ?b)] => destruct (Z.leb_spec a b)
          | |- context [(?a <? ?b)] => destruct (Z.ltb_spec a b)
          end; try lia; cbn [andb orb negb]).

Lemma getNumberColumn_range num columnIndex range :
  num ≠ NaN → COLUMN_RANGES columnIndex = Some range →
  getNumberColumn num = Some (range_letter range)
  ↔ number_ltb num (range_min range) || number_gtb num (range_max range) = false.
Proof.
  intros Hnum Hrange.
  destruct columnIndex as [|[|[|[|[|?]]]]]; try discriminate; injection Hrange as <-;
    unfold getNumberColumn; cbn [range_min range_max range_letter];
    destruct num as [z|f bits| | |]; try done;
    cbn [number_geb number_leb number_ltb number_gtb];
    by_comparisons; split; intros; try done; try lia.
Qed.

(** * Loops that may return *)

Lemma loopM_app {A S R} (body : S → A → option (S + R)) (l1 l2 : list A) (s : S) :
  loopM body s (l1 ++ l2)
  = r ← loopM body s l1;
    match r with inl s' => loopM body s' l2 | inr v => Some (inr v) end.
Proof.
  revert s. induction l1 as [|x l1 IH]; intros s; [reflexivity|].
  cbn. destruct (body s x) as [[s'|v]|]; cbn; [apply IH|reflexivity..].
Qed.

Lemma loop2_positions {S R} rows cols (body : nat → nat → S → option (S + R)) s :
  loop2 rows cols body s
  = loopM (λ s '(row, col), body row col s) s (positions rows cols).
Proof.
  unfold loop2, positions. generalize (seq 0 rows) as rs. intros rs. revert s.
  induction rs as [|r rs IH]; intros s; [reflexivity|].
  cbn [loopM flat_map]. rewrite loopM_app.
  assert (∀ cs s, loopM (λ s col, body r col s) s cs
          = loopM (λ s '(row, col), body row col s) s (map (λ col, (r, col)) cs)) as ->.
  { induction cs as [|c cs IHc]; intros s0; [reflexivity|].
    cbn. destruct (body r c s0) as [[s'|v]|]; cbn; [apply IHc|reflexivity..]. }
  destruct (loopM _ s (map _ (seq 0 cols))) as [[s'|v]|]; cbn; [apply IH|reflexivity..].
Qed.

Lemma loopM_ext {A S R} (f g : S → A → option (S + R)) (l : list A) (s : S) :
  (∀ s x, x ∈ l → f s x = g s x) → loopM f s l = loopM g s l.
Proof.
  revert s. induction l as [|x l IH]; intros s H; [reflexivity|].
  cbn. rewrite H by left. destruct (g s x) as [[s'|v]|]; cbn; try reflexivity.
  apply IH. intros. apply H. by right.
Qed.

(** * Cards without duplicates *)


Lemma card_values_nonfree card : card_values card = nonfree_values (all_cells card).
Proof. reflexivity. Qed.

Lemma positions_in_grid : forallb in_grid (positions 5 5) = true.
Proof. reflexivity. Qed.

(** The duplicate scan over a list of cells. *)
Lemma duplicate_scan (cs : list BingoCell) (numbers : list CellValue) :
  NoDup numbers →
  loopM (λ s c, Some (duplicate_step s c)) numbers cs
  = Some (if bool_decide (NoDup (numbers ++ nonfree_values cs))
          then inl (numbers ++ nonfree_values cs) else inr false).
Proof.
  revert numbers. induction cs as [|c cs IH]; intros numbers Hn.
  - cbn. rewrite app_nil_r. by rewrite bool_decide_eq_true_2.
  - cbn [loopM mbind option_bind]. unfold duplicate_step at 1, nonfree_values.
    cbn [List.filter]. destruct (is_free c); cbn [negb map].
    + by apply IH.
    + destruct (bool_decide_reflect (value c ∈ numbers)) as [Hin|Hout].
      * rewrite bool_decide_eq_false_2; [done|].
        intros H. apply NoDup_app in H as (_ & H & _). apply (H _ Hin). left.
      * unfold set_add. rewrite decide_False by done.
        fold (nonfree_values cs).
        rewrite IH.
        -- by rewrite <- app_assoc.
        -- apply NoDup_app. split; [done|]. split; [|apply NoDup_singleton].
           by intros x Hx ->%list_elem_of_singleton.
Qed.

Lemma validateBingoCard_run card :
  card_shape card →
  validateBingoCard card = Some (bool_decide (NoDup (card_values card))).
Proof.
  intros Hs. unfold validateBingoCard. rewrite loop2_positions.
  rewrite (loopM_ext _ (λ s p, Some (duplicate_step s (cell card (fst p) (snd p))))).
  2:{ intros s [r c] [Hr Hc]%elem_of_positions.
      rewrite (cell_at_shape card r c Hs Hr Hc). cbn [mbind option_bind fst snd].
      unfold duplicate_step. destruct (is_free (cell card r c)); [done|].
      by destruct (bool_decide (value (cell card r c) ∈ s)). }
  pose proof (duplicate_scan (all_cells card) [] (NoDup_nil_2)) as H.
  unfold all_cells in H.
  assert (E : ∀ ps s, loopM (λ s (p : nat * nat),
                         Some (duplicate_step s (cell card (fst p) (snd p)))) s ps
               = loopM (λ s c, Some (duplicate_step s c)) s
                   (map (λ '(r, c), cell card r c) ps)).
  { induction ps as [|[r c] ps IHp]; intros s; [done|].
    cbn [loopM map mbind option_bind fst snd].
    destruct (duplicate_step s (cell card r c)) as [s'|v]; [apply IHp|done]. }
  rewrite E, H. cbn [mbind option_bind app]. rewrite card_values_nonfree.
  unfold all_cells. by destruct (bool_decide _).
Qed.

Lemma getCardNumbers_run card :
  card_shape card → getCardNumbers card = Some (card_values card).
Proof.
  intros Hs. unfold getCardNumbers. rewrite for2_positions.
  rewrite (foldM_pure _ (λ numbers '(r, c),
             if negb (is_free (cell card r c)) then numbers ++ [value (cell card r c)]
             else numbers)).
  - f_equal. unfold card_values.
    enough (∀ ps acc,
      foldl (λ numbers '(r, c),
               if negb (is_free (cell card r c)) then numbers ++ [value (cell card r c)]
               else numbers) acc ps
      = acc ++ map value (List.filter (λ c, negb (is_free c))
                            (map (λ '(r, c), cell card r c) ps))) as -> by done.
    induction ps as [|[r c] ps IH]; intros acc; cbn; [by rewrite app_nil_r|].
    rewrite IH. destruct (is_free (cell card r c)); cbn; [done|].
    by rewrite <- app_assoc.
  - intros numbers [r c] [Hr Hc]%elem_of_positions.
    by rewrite (cell_at_shape card r c Hs Hr Hc).
Qed.

(** * Complete cards *)

Lemma validateNumberForColumn_error num col :
  isValid (validateNumberForColumn num col) = false →
  is_Some (error (validateNumberForColumn num col)).
Proof.
  unfold validateNumberForColumn. destruct (COLUMN_RANGES col) as [range|]; [|by eexists].
  destruct (number_ltb _ _ || number_gtb _ _); [by eexists|discriminate].
Qed.

Lemma nonfree_values_cons c cs :
  nonfree_values (c :: cs) = (if is_free c then [] else [value c]) ++ nonfree_values cs.
Proof. unfold nonfree_values. cbn. by destruct (is_free c). Qed.

Lemma complete_scan card (ps : list (nat * nat)) (numbers : list CellValue) :
  NoDup numbers →
  ∃ r, loopM (λ s p, Some (complete_step s (cell card (fst p) (snd p)) (snd p))) numbers ps
       = Some r
    ∧ match r with
      | inl _ =>
        forallb (cell_ok card) ps = true
        ∧ NoDup (numbers ++ nonfree_values (map (λ '(r, c), cell card r c) ps))
      | inr result =>
        isValid result = false ∧ is_Some (error result)
        ∧ (forallb (cell_ok card) ps = true →
           ¬ NoDup (numbers ++ nonfree_values (map (λ '(r, c), cell card r c) ps)))
      end.
Proof.
  revert numbers. induction ps as [|[r c] ps IH]; intros numbers Hn.
  - eexists. split; [reflexivity|]. cbn. by rewrite app_nil_r.
  - cbn [loopM mbind option_bind fst snd forallb map]. rewrite nonfree_values_cons.
    assert (Hok : cell_ok card (r, c)
                  = is_free (cell card r c)
                    || (value_nonzero (value (cell card r c))
                        && isValid (validateNumberForColumn
                                      (to_number (value (cell card r c))) c)))
      by reflexivity.
    rewrite Hok. clear Hok. unfold complete_step at 1.
    destruct (is_free (cell card r c)) eqn:Ef; cbn [negb orb andb app].
    { by apply IH. }
    destruct (value_nonzero (value (cell card r c))); cbn [negb andb].
    2:{ eexists. split; [reflexivity|]. split; [done|]. split; [by eexists|done]. }
    destruct (isValid (validateNumberForColumn _ c)) eqn:Ev; cbn [negb].
    2:{ eexists. split; [reflexivity|]. split; [done|].
        split; [by apply validateNumberForColumn_error|done]. }
    destruct (bool_decide_reflect (value (cell card r c) ∈ numbers)) as [Hin|Hout].
    { eexists. split; [reflexivity|]. split; [done|]. split; [by eexists|].
      intros _ H. apply NoDup_app in H as (_ & H & _). apply (H _ Hin). left. }
    unfold set_add. rewrite decide_False by done.
    destruct (IH (numbers ++ [value (cell card r c)])) as (res & E & Hres).
    { apply NoDup_app. split; [done|]. split; [|apply NoDup_singleton].
      by intros x Hx ->%list_elem_of_singleton. }
    exists res. split; [exact E|].
    rewrite <- app_assoc in Hres. exact Hres.
Qed.

Lemma validateCompleteCard_run card :
  card_shape card →
  ∃ result, validateCompleteCard card = Some result
    ∧ (isValid result = true
       ↔ forallb (cell_ok card) (positions 5 5) = true ∧ NoDup (card_values card))
    ∧ (isValid result = true → error result = None)
    ∧ (isValid result = false → is_Some (error result)).
Proof.
  intros Hs. unfold validateCompleteCard. rewrite loop2_positions.
  rewrite (loopM_ext _ (λ s p, Some (complete_step s (cell card (fst p) (snd p)) (snd p)))).
  2:{ intros s [r c] [Hr Hc]%elem_of_positions.
      rewrite (cell_at_shape card r c Hs Hr Hc). cbn [mbind option_bind fst snd].
      unfold complete_step. destruct (is_free (cell card r c)); [done|].
      destruct (negb (value_nonzero (value (cell card r c)))); [done|]. cbv zeta.
      destruct (negb (isValid _)); [done|].
      by destruct (bool_decide (value (cell card r c) ∈ s)). }
  destruct (complete_scan card (positions 5 5) [] NoDup_nil_2) as (r & -> & Hr).
  cbn [mbind option_bind app] in *. fold (all_cells card) in Hr.
  rewrite <- card_values_nonfree in Hr.
  destruct r as [s|result]; eexists; (split; [reflexivity|]).
  - split; [by split|]. split; [done|discriminate].
  - destruct Hr as (Hf & He & Hno). rewrite Hf. split; [|split; try done].
    split; [done|]. intros [H1 H2]. by destruct (Hno H1).
Qed.

Lemma cell_ok_spec card row col :
  (col < 5)%nat →
  cell_ok card (row, col) = true
  ↔ value (cell card row col) = FREE ∨ in_column_range (value (cell card row col)) col.
Proof.
  intros Hc. unfold cell_ok, in_column_range, is_free. cbn [fst snd].
  destruct (value (cell card row col)) as [n| |]; cbn [orb value_nonzero to_number].
  - unfold validateNumberForColumn.
    destruct col as [|[|[|[|[|?]]]]]; try lia; cbn [COLUMN_RANGES range_min range_max
      number_ltb number_gtb]; (split; [|intros [[=]|(n' & range & [= <-] & [= <-] & Hn)]]);
      cbn [range_min range_max] in *;
      try (intros H; right; eexists n, _; split; [done|]; split; [done|];
           cbn [range_min range_max]; revert H);
      by_comparisons; try done; try (destruct (Z.eqb_spec n 0); cbn; try done; lia).
  - split; [by left|done].
  - split; [|intros [[=]|(n' & range & [=] & _)]].
    unfold validateNumberForColumn.
    by destruct col as [|[|[|[|[|?]]]]]; try lia.
Qed.

(** * Entering a number *)

Lemma free_value_is c num : is_free c = true → value_is (value c) num = false.
Proof. unfold is_free. by destruct (value c). Qed.

Lemma entry_scan card num row col (ps : list (nat * nat)) :
  loopM (λ (_ : unit) p,
           Some (if ((fst p =? row)%nat && (snd p =? col)%nat) then inl tt
                 else if negb (is_free (cell card (fst p) (snd p)))
                         && value_is (value (cell card (fst p) (snd p))) num
                      then inr (invalid (AlreadyUsed num)) else inl tt)) tt ps
  = Some (if forallb (entry_free card num row col) ps then inl tt
          else inr (invalid (AlreadyUsed num))).
Proof.
  induction ps as [|[r c] ps IH]; [reflexivity|].
  cbn [loopM mbind option_bind forallb fst snd]. unfold entry_free at 1. cbn [fst snd].
  destruct ((r =? row)%nat && (c =? col)%nat); cbn [orb andb]; [exact IH|].
  destruct (is_free (cell card r c)) eqn:Ef; cbn [negb andb].
  - rewrite (free_value_is _ num Ef). exact IH.
  - destruct (value_is (value (cell card r c)) num); [reflexivity|exact IH].
Qed.

Lemma validateNumberEntry_run card num row col :
  card_shape card →
  validateNumberEntry card num row col
  = Some (if negb (isValid (validateNumberForColumn num col))
          then validateNumberForColumn num col
          else if forallb (entry_free card num row col) (positions 5 5) then valid
               else invalid (AlreadyUsed num)).
Proof.
  intros Hs. unfold validateNumberEntry. cbv zeta.
  destruct (negb (isValid (validateNumberForColumn num col))); [done|].
  rewrite loop2_positions.
  rewrite (loopM_ext _ (λ (_ : unit) p,
           Some (if ((fst p =? row)%nat && (snd p =? col)%nat) then inl tt
                 else if negb (is_free (cell card (fst p) (snd p)))
                         && value_is (value (cell card (fst p) (snd p))) num
                      then inr (invalid (AlreadyUsed num)) else inl tt))).
  2:{ intros s [r c] [Hr Hc]%elem_of_positions. cbn [fst snd].
      destruct ((r =? row)%nat && (c =? col)%nat); [done|].
      rewrite (cell_at_shape card r c Hs Hr Hc). cbn [mbind option_bind].
      by destruct (negb _ && _). }
  rewrite entry_scan. cbn [mbind option_bind].
  by destruct (forallb _ _).
Qed.

Lemma isDuplicateNumber_run card num :
  card_shape card →
  isDuplicateNumber card num
  = Some (existsb (λ '(r, c), value_is (value (cell card r c)) num) (positions 5 5)).
Proof.
  intros Hs. unfold isDuplicateNumber. rewrite <- existsb_positions.
  apply anyM_pure. intros r Hr. apply anyM_pure. intros c Hc.
  assert (Hrc : (r, c) ∈ positions 5 5).
  { apply elem_of_positions. apply list_elem_of_In, in_seq in Hr, Hc. lia. }
  apply elem_of_positions in Hrc as [Hr' Hc'].
  rewrite (cell_at_shape card r c Hs Hr' Hc'). cbn [mbind option_bind]. f_equal.
  destruct (is_free (cell card r c)) eqn:Ef; [|done].
  by rewrite (free_value_is _ num Ef).
Qed.

(** * Loops that rewrite the cells of a parsed card *)

Section cell_loop.
Variables (f : BingoCell → BingoCell) (body : loc → nat → nat → M unit).
Hypothesis f_idem : ∀ c, f (f c) = f c.
Hypothesis body_run : rewrites_cell f body.
Variables (n0 : nat) (h1 : heap) (u : loc).
Variables (locs : list (list loc)) (c : BingoCard).
Hypothesis Hgraph : card_graph h1 u locs c.
Hypothesis Hshape : card_shape c.
Hypothesis Hfresh : Forall (Forall (λ l, (n0 ≤ l)%nat)) locs.

Lemma update_inv_lookup h l o :
    update_inv f n0 h1 h → h1 !! l = Some o →
    h !! l = Some o ∨ h !! l = Some (update_obj f o).
  Proof.
    intros (_ & Hinv & _) E. destruct (Hinv l) as [->| ->]; rewrite E; auto.
  Qed.

Lemma update_step r k h visited :
    update_inv f n0 h1 h → updated_at f locs h1 h visited →
    (r < 5)%nat → (k < 5)%nat →
    ∃ h', body u r k h = Returned tt h'
      ∧ update_inv f n0 h1 h'
      ∧ updated_at f locs h1 h' ((r, k) :: visited).
  Proof.
    intros Hinv Hvis Hr Hk.
    destruct (graph_position n0 h1 u locs c Hgraph Hshape Hfresh r k Hr Hk)
      as (cl & rowRefs & rr & lr & x & Eu & Ecl & Err & Hrr & Elr & Ex & Hx & Hn).
    assert (Hu : h !! u = Some (ObjCard (card_id c) (card_name c) cl (card_createdAt c)))
      by (by destruct (update_inv_lookup h u _ Hinv Eu)).
    assert (Hcl : get_array h cl = Some rowRefs)
      by (unfold get_array; by destruct (update_inv_lookup h cl _ Hinv Ecl) as [->| ->]).
    assert (Hrow : get_array h rr = Some lr)
      by (unfold get_array; by destruct (update_inv_lookup h rr _ Hinv Hrr) as [->| ->]).
    assert (∃ cx, h !! x = Some (ObjCell cx) ∧ f cx = f (cell c r k)) as (cx & Hcx & Hf).
    { destruct (update_inv_lookup h x _ Hinv Hx) as [E|E]; eexists; split; eauto. }
    destruct (body_run h u _ _ _ _ rowRefs rr lr x cx r k Hu Hcl Err Hrow Ex Hcx)
      as (h' & E & Hx' & Hother & Hlen).
    rewrite Hf in Hx'.
    exists h'. split; [exact E|]. split.
    - destruct Hinv as (Hl & Hor & Hfr). split; [lia|]. split.
      + intros l. destruct (decide (l = x)) as [->|Hne].
        * right. by rewrite Hx', Hx.
        * rewrite Hother by done. apply Hor.
      + intros l Hl0. rewrite Hother by lia. by apply Hfr.
    - intros r' k' lr' x' Hin Elr' Ex'.
      destruct (decide (x' = x)) as [->|Hne]; [by rewrite Hx', Hx|].
      rewrite Hother by done.
      apply elem_of_cons in Hin as [[= -> ->]|Hin].
      + rewrite Elr in Elr'. injection Elr' as <-. congruence.
      + by eapply Hvis.
  Qed.

Lemma update_loop ps h visited :
    update_inv f n0 h1 h → updated_at f locs h1 h visited →
    forallb in_grid ps = true →
    ∃ h', forS (λ '(row, col), body u row col) ps h = Returned tt h'
      ∧ update_inv f n0 h1 h'
      ∧ updated_at f locs h1 h' (ps ++ visited).
  Proof.
    revert h visited. induction ps as [|[r k] ps IH]; intros h visited Hinv Hvis Hps.
    - by exists h.
    - cbn in Hps. apply andb_prop in Hps as [[Hr%Nat.ltb_lt Hk%Nat.ltb_lt]%andb_prop Hps].
      destruct (update_step r k h visited Hinv Hvis Hr Hk) as (h2 & E2 & Hinv2 & Hvis2).
      destruct (IH h2 ((r, k) :: visited) Hinv2 Hvis2 Hps) as (h3 & E3 & Hinv3 & Hvis3).
      exists h3. split; [|split; [done|]].
      + cbn. by erewrite bind_Returned by exact E2.
      + intros r' k' lr' x' Hin. apply (Hvis3 r' k' lr' x').
        rewrite elem_of_app, elem_of_cons in *. tauto.
  Qed.

Lemma updated_graph h :
    update_inv f n0 h1 h → updated_at f locs h1 h (positions 5 5) →
    card_graph h u locs (with_cells c (map (map f) (cells c))).
  Proof.
    intros Hinv Hvis. destruct Hgraph as (cl & rowRefs & Eu & Ecl & Hrows & Hcells).
    exists cl, rowRefs. cbn [card_id card_name card_createdAt cells with_cells].
    split; [by destruct (update_inv_lookup h u _ Hinv Eu)|].
    split; [by destruct (update_inv_lookup h cl _ Hinv Ecl)|].
    split.
    - eapply Forall2_impl; [exact Hrows|]. intros rr lr E.
      by destruct (update_inv_lookup h rr _ Hinv E).
    - pose proof Hshape as [Hlen Hall]%andb_prop. apply Nat.eqb_eq in Hlen.
      unfold cells_at in *. apply Forall2_same_length_lookup.
      split; [rewrite length_map; by eapply Forall2_length|].
      intros r lr row' Elr Erow'. rewrite list_lookup_fmap in Erow'.
      destruct (cells c !! r) as [row|] eqn:Erow; [|discriminate].
      injection Erow' as <-.
      pose proof (Forall2_lookup_lr _ _ _ _ _ _ Hcells Elr Erow) as Hrow.
      assert (Hr : (r < 5)%nat) by (apply lookup_lt_Some in Erow; lia).
      assert (Hrl : length row = 5%nat).
      { rewrite forallb_forall in Hall. apply Nat.eqb_eq, Hall, list_elem_of_In.
        by eapply list_elem_of_lookup_2. }
      apply Forall2_same_length_lookup.
      split; [rewrite length_map; by eapply Forall2_length|].
      intros k x c' Ex Ec'. rewrite list_lookup_fmap in Ec'.
      destruct (row !! k) as [c0|] eqn:Ec0; [|discriminate].
      injection Ec' as <-.
      assert (Hk : (k < 5)%nat) by (apply lookup_lt_Some in Ec0; lia).
      rewrite (Hvis r k lr x); [|by apply elem_of_positions|done|done].
      by rewrite (Forall2_lookup_lr _ _ _ _ _ _ Hrow Ex Ec0).
  Qed.
End cell_loop.

(** A deep clone followed by a loop that rewrites its cells. *)
Lemma clone_and_rewrite f body h card c :
  (∀ c, f (f c) = f c) → rewrites_cell f body →
  load_card h card = Some c → card_shape c →
  ∃ updatedCard h',
    bind (stringify_card card) (λ json,
      bind (parse_card json) (λ updatedCard,
        bind (for2S 5 5 (body updatedCard)) (λ _, ret updatedCard))) h
    = Returned updatedCard h'
    ∧ heap_preserved h h'
    ∧ (length h ≤ updatedCard)%nat
    ∧ load_card h' updatedCard = Some (with_cells c (map (map f) (cells c))).
Proof.
  intros Hidem Hbody Hc Hshape.
  destruct (parse_card_spec c h) as (u & h1 & locs & E1 & H01 & Hu & Hgraph & Hfresh).
  destruct (update_loop f body Hidem Hbody (length h) h1 u locs c Hgraph Hshape Hfresh
              (positions 5 5) h1 []) as (h2 & E2 & Hinv & Hvis).
  { split; [done|]. split; [intros; by left|done]. }
  { intros r k lr x Hin. by apply elem_of_nil in Hin. }
  { reflexivity. }
  rewrite app_nil_r in Hvis.
  exists u, h2. split; [|split; [|split; [done|]]].
  - unfold stringify_card. unfold bind at 1. rewrite Hc.
    erewrite bind_Returned by exact E1.
    by erewrite bind_Returned by (rewrite for2S_positions; exact E2).
  - intros l o Hl. destruct Hinv as (_ & _ & Hfr).
    rewrite Hfr by (by eapply lookup_lt_Some). by apply H01.
  - eapply card_graph_load, updated_graph; eauto.
Qed.

Lemma reset_cell_idem c : reset_cell (reset_cell c) = reset_cell c.
Proof.
  unfold reset_cell. destruct (is_free c) eqn:E; cbn [negb]; [by rewrite E|].
  change (is_free (set_unmarked c)) with (is_free c). by rewrite E.
Qed.

Lemma reset_at_rewrites : rewrites_cell reset_cell reset_at.
Proof.
  intros h u id name cl t rowRefs rr lr x cx r k Hu Hcl Err Hrow Ex Hcx.
  set (h' := if negb (is_free cx) then <[x := ObjCell (set_unmarked cx)]> h else h).
  exists h'. split; [|split; [|split]].
  - unfold reset_at, index. unfold bind at 1, deref. rewrite Hu.
    erewrite bind_Returned
      by (erewrite bind_Returned by (by apply read_array_run); by rewrite Err).
    erewrite bind_Returned
      by (erewrite bind_Returned by (by apply read_array_run); by rewrite Ex).
    erewrite bind_Returned by (apply read_cell_run; unfold load_cell; by rewrite Hcx).
    subst h'. by destruct (negb (is_free cx)).
  - subst h'. unfold reset_cell. destruct (negb (is_free cx)); [|done].
    apply list_lookup_insert_eq. by eapply lookup_lt_Some.
  - intros l Hl. subst h'. destruct (negb (is_free cx)); [|done].
    by apply list_lookup_insert_ne.
  - subst h'. destruct (negb (is_free cx)); [apply length_insert|done].
Qed.

Lemma resetCard_run h card c :
  load_card h card = Some c → card_shape c →
  ∃ reset h',
    resetCard card h = Returned reset h'
    ∧ heap_preserved h h'
    ∧ (length h ≤ reset)%nat
    ∧ load_card h' reset = Some (with_cells c (map (map reset_cell) (cells c))).
Proof.
  intros Hc Hs. exact (clone_and_rewrite reset_cell reset_at h card c
                         reset_cell_idem reset_at_rewrites Hc Hs).
Qed.

Lemma map_map_cells {A B C} (g : B → C) (f : A → B) (m : list (list A)) :
  map (map g) (map (map f) m) = map (map (λ x, g (f x))) m.
Proof.
  rewrite map_map. apply map_ext. intros row. by rewrite map_map.
Qed.

Lemma card_shape_map card f :
  card_shape card → card_shape (with_cells card (map (map f) (cells card))).
Proof. intros Hs. unfold card_shape. cbn. by apply shape5_map. Qed.

Lemma reset_mark_cell num c : reset_cell (mark_cell num c) = reset_cell c.
Proof.
  unfold mark_cell. destruct (value_is (value c) num) eqn:E; [|done].
  unfold reset_cell. change (is_free (set_marked c)) with (is_free c).
  destruct (is_free c) eqn:Ef; cbn [negb]; [|done].
  by rewrite (free_value_is c num Ef) in E.
Qed.

(** Every cell is marked once every number of the card has been called. *)
Lemma fully_called_marked nums card row col :
  card_shape card → fully_called nums card → (row < 5)%nat → (col < 5)%nat →
  marked (cell (called_card nums card) row col) = true.
Proof.
  intros Hs Hfull Hr Hc. unfold called_card. rewrite cell_map by done.
  unfold fully_called in Hfull. rewrite forallb_forall in Hfull.
  specialize (Hfull (row, col) (proj1 (list_elem_of_In _ _)
                                  (proj2 (elem_of_positions 5 5 row col) (conj Hr Hc)))).
  cbv beta iota in Hfull. unfold called_cell, is_free. cbn [marked].
  by destruct (value (cell card row col)).
Qed.

(** * Pattern grids *)

Lemma rows_check (grid : list (list bool)) :
  length grid = 5%nat →
  allM (λ row, r ← grid !! row; Some (length r =? 5)%nat) (seq 0 5)
  = Some (forallb (λ r, (length r =? 5)%nat) grid).
Proof.
  intros Hlen. destruct grid as [|r0 [|r1 [|r2 [|r3 [|r4 [|]]]]]]; try discriminate.
  cbn. by destruct (length r0 =? 5)%nat, (length r1 =? 5)%nat, (length r2 =? 5)%nat,
    (length r3 =? 5)%nat, (length r4 =? 5)%nat.
Qed.

Lemma validatePattern_run (grid : list (list bool)) :
  validatePattern grid
  = Some (shape5 grid
          && existsb (λ '(r, c), (grid !!! r) !!! c) (positions 5 5)).
Proof.
  unfold validatePattern, shape5. destruct (Nat.eqb_spec (length grid) 5) as [Hlen|Hlen];
    cbn [negb andb]; [|done].
  rewrite rows_check by done. cbn [mbind option_bind].
  destruct (forallb (λ r, (length r =? 5)%nat) grid) eqn:Hrows; cbn [negb andb]; [|done].
  assert (Hs : shape5 grid = true).
  { unfold shape5. rewrite Hrows. by apply andb_true_intro, conj; [apply Nat.eqb_eq|]. }
  rewrite <- existsb_positions. apply anyM_pure. intros r Hr. apply anyM_pure.
  intros c Hc. apply list_elem_of_In, in_seq in Hr, Hc.
  destruct (shape5_lookup grid r c Hs) as [-> E]; [lia..|].
  cbn [mbind option_bind]. by rewrite E.
Qed.

Lemma existsb_filter_length {A} (f : A → bool) (l : list A) :
  existsb f l = (0 <? length (List.filter f l))%nat.
Proof. induction l as [|x l IH]; [done|]. cbn. by destruct (f x). Qed.

Lemma getPatternPositions_run pattern :
  grid_shape pattern →
  getPatternPositions pattern
  = Some (List.filter (λ '(r, c), required pattern r c) (positions 5 5)).
Proof.
  intros Hg. unfold getPatternPositions. rewrite for2_positions.
  rewrite (foldM_pure _ (λ ps '(r, c), if required pattern r c then ps ++ [(r, c)] else ps)).
  - f_equal.
    enough (∀ l acc,
      foldl (λ ps '(r, c), if required pattern r c then ps ++ [(r, c)] else ps) acc l
      = acc ++ List.filter (λ '(r, c), required pattern r c) l) as -> by done.
    induction l as [|[r c] l IH]; intros acc; cbn; [by rewrite app_nil_r|].
    rewrite IH. destruct (required pattern r c); [|done]. by rewrite <- app_assoc.
  - intros ps [r c] [Hr Hc]%elem_of_positions.
    by rewrite (grid_at_shape pattern r c Hg Hr Hc).
Qed.

(** * The generator *)

Lemma add_number_NoDup s n : NoDup s → NoDup (add_number s n).
Proof.
  intros Hs. unfold add_number. destruct (decide (n ∈ s)) as [Hin|Hin]; [done|].
  apply NoDup_app. split; [done|]. split; [|apply NoDup_singleton].
  by intros x Hx ->%list_elem_of_singleton.
Qed.

Lemma add_number_length s n : (length (add_number s n) ≤ S (length s))%nat.
Proof.
  unfold add_number. destruct (decide (n ∈ s)); [lia|]. rewrite length_app. cbn. lia.
Qed.

Lemma add_number_Forall (P : Z → Prop) s n : Forall P s → P n → Forall P (add_number s n).
Proof.
  intros Hs Hn. unfold add_number. destruct (decide (n ∈ s)); [done|].
  apply Forall_app. split; [done|]. by constructor.
Qed.

(** The set the loop of generateColumnNumbers ends with. *)
Lemma column_loop_spec min count draws numbers ns rest :
  column_loop min count numbers draws = Some (ns, rest) →
  NoDup numbers → Forall (λ n, min ≤ n < min + 15) numbers →
  Forall (λ d, 0 ≤ d < 15) draws → (length numbers ≤ count)%nat →
  NoDup ns ∧ Forall (λ n, min ≤ n < min + 15) ns ∧ length ns = count
  ∧ Forall (λ d, 0 ≤ d < 15) rest.
Proof.
  revert numbers. induction draws as [|d draws IH]; intros numbers E Hn Hr Hd Hlen.
  - change (column_loop min count numbers [])
      with (if (length numbers <? count)%nat
            then @None (list Z * list Z) else Some (numbers, [])) in E.
    destruct (Nat.ltb_spec (length numbers) count); [discriminate|].
    injection E as <- <-. repeat split; try done. lia.
  - change (column_loop min count numbers (d :: draws))
      with (if (length numbers <? count)%nat
            then column_loop min count (add_number numbers (d + min)) draws
            else Some (numbers, d :: draws)) in E.
    destruct (Nat.ltb_spec (length numbers) count).
    + apply Forall_cons in Hd as [Hd0 Hd]. apply (IH _ E).
      * by apply add_number_NoDup.
      * apply add_number_Forall; [done|]. lia.
      * done.
      * pose proof (add_number_length numbers (d + min)). lia.
    + injection E as <- <-. repeat split; try done. lia.
Qed.

(** One column of generateBingoCard. *)
Lemma generator_column col column (cs : list (list BingoCell)) draws cs' draws' :
  (column ← COLUMNS !! col;
   '(numbers, draws') ← generateColumnNumbers column 5 draws;
   cs' ← fill_column col numbers cs;
   Some (cs', draws')) = Some (cs', draws') →
  COLUMNS !! col = Some column →
  Forall (λ d, 0 ≤ d < 15) draws →
  ∃ a b c d e,
    fill_column col [a; b; c; d; e] cs = Some cs'
    ∧ NoDup [a; b; c; d; e]
    ∧ Forall (λ n, fst (GENERATOR_RANGES column) ≤ n < fst (GENERATOR_RANGES column) + 15)
             [a; b; c; d; e]
    ∧ Forall (λ d, 0 ≤ d < 15) draws'.
Proof.
  intros E Hcol Hd. rewrite Hcol in E. cbn [mbind option_bind] in E.
  destruct (generateColumnNumbers column 5 draws) as [[ns rest]|] eqn:En; [|discriminate].
  cbn [mbind option_bind] in E.
  destruct (fill_column col ns cs) as [cs1|] eqn:Ef; [|discriminate].
  injection E as <- <-.
  destruct (column_loop_spec _ _ _ _ _ _ En) as (Hn & Hr & Hl & Hrest);
    [constructor|constructor|done|cbn; lia|].
  destruct ns as [|a [|b [|c [|d [|e [|]]]]]]; try discriminate.
  by exists a, b, c, d, e.
Qed.

Lemma not_elem_of_different {A} (x : A) (l : list A) : Forall (λ y, x ≠ y) l → x ∉ l.
Proof. intros H Hin. rewrite Forall_forall in H. by apply (H x Hin). Qed.

Lemma NoDup_values (zs : list Z) : NoDup zs → NoDup (map Num zs).
Proof. apply NoDup_fmap_2. by intros x y [=]. Qed.

Lemma column_loop_done min count numbers draws :
  (count ≤ length numbers)%nat → column_loop min count numbers draws = Some (numbers, draws).
Proof.
  intros H. destruct draws as [|d draws].
  - change (column_loop min count numbers [])
      with (if (length numbers <? count)%nat
            then @None (list Z * list Z) else Some (numbers, [])).
    by destruct (Nat.ltb_spec (length numbers) count); [lia|].
  - change (column_loop min count numbers (d :: draws))
      with (if (length numbers <? count)%nat
            then column_loop min count (add_number numbers (d + min)) draws
            else Some (numbers, d :: draws)).
    by destruct (Nat.ltb_spec (length numbers) count); [lia|].
Qed.

(** With draws that are all new, the loop takes one draw per number. *)
Lemma column_loop_distinct min count ds rest numbers :
  NoDup (numbers ++ map (λ d, d + min) ds) →
  (length numbers + length ds = count)%nat →
  column_loop min count numbers (ds ++ rest)
  = Some (numbers ++ map (λ d, d + min) ds, rest).
Proof.
  revert numbers. induction ds as [|d ds IH]; intros numbers Hn Hlen.
  - cbn in *. rewrite app_nil_r. apply column_loop_done. lia.
  - change (column_loop min count numbers ((d :: ds) ++ rest))
      with (if (length numbers <? count)%nat
            then column_loop min count (add_number numbers (d + min)) (ds ++ rest)
            else Some (numbers, d :: ds ++ rest)).
    cbn [length] in Hlen.
    destruct (Nat.ltb_spec (length numbers) count); [|lia].
    assert (Hout : d + min ∉ numbers).
    { intros Hin. apply NoDup_app in Hn as (_ & Hn & _). apply (Hn _ Hin). left. }
    unfold add_number. rewrite decide_False by done.
    rewrite IH.
    + cbn [map]. by rewrite <- app_assoc.
    + cbn [map] in Hn. by rewrite <- app_assoc.
    + rewrite length_app. cbn. lia.
Qed.

Lemma column_loop_five min a b c d e rest :
  NoDup [a; b; c; d; e] →
  column_loop min 5 [] (a :: b :: c :: d :: e :: rest)
  = Some ([a + min; b + min; c + min; d + min; e + min], rest).
Proof.
  intros Hn. apply (column_loop_distinct min 5 [a; b; c; d; e] rest []); [|done].
  assert (Hinj : Inj eq eq (λ d, d + min)) by (intros x y E; lia).
  by apply (NoDup_fmap_2 (λ d, d + min)).
Qed.

Lemma map_map_ext_shape {C} card (f g : BingoCell → C) :
  card_shape card →
  (∀ row col, (row < 5)%nat → (col < 5)%nat → f (cell card row col) = g (cell card row col)) →
  map (map f) (cells card) = map (map g) (cells card).
Proof.
  intros Hs Hf. apply list_eq. intros r. rewrite !list_lookup_fmap.
  destruct (cells card !! r) as [row|] eqn:Er; [|done]. cbn. f_equal.
  assert (Hr : (r < 5)%nat).
  { apply lookup_lt_Some in Er. apply andb_prop in Hs as [Hl%Nat.eqb_eq _]. lia. }
  apply list_eq. intros k. rewrite !list_lookup_fmap.
  destruct (row !! k) as [x|] eqn:Ek; [|done]. cbn. f_equal.
  assert (Hk : (k < 5)%nat).
  { apply lookup_lt_Some in Ek. apply andb_prop in Hs as [_ Hall].
    rewrite forallb_forall in Hall. specialize (Hall row).
    rewrite Nat.eqb_eq in Hall. rewrite Hall in Ek; [done|].
    apply list_elem_of_In. by eapply list_elem_of_lookup_2. }
  destruct (shape5_lookup (cells card) r k Hs Hr Hk) as [E1 E2].
  assert (x = cell card r k) as ->; [|by apply Hf].
  unfold cell. rewrite E1 in Er. injection Er as <-. rewrite E2 in Ek.
  by injection Ek.
Qed.

(** With no number called, the marks are those of a reset. *)
Lemma empty_call_reset card :
  card_shape card → free_cells_marked card →
  called_card [] card = with_cells card (map (map reset_cell) (cells card)).
Proof.
  intros Hs Hfree. unfold called_card. f_equal.
  apply map_map_ext_shape; [done|]. intros row col Hr Hc.
  pose proof (free_cells_marked_at card row col Hfree Hr Hc) as Hm.
  unfold called_cell, reset_cell. destruct (cell card row col) as [cl v m].
  unfold is_free in *. cbn [column value marked] in *.
  destruct v as [n| |]; cbn.
  - by rewrite andb_false_r.
  - by rewrite Hm.
  - done.
Qed.

(** * Imported cards *)

Lemma validateCell_json c : validateCell (cell_json c) = is_numeric c.
Proof. unfold validateCell, cell_json, is_numeric. cbn. by destruct (value c). Qed.

Lemma validateCard_json card :
  validateCard (card_json card)
  = (length (cells card) =? 5)%nat
    && forallb (λ row, (length row =? 5)%nat && forallb is_numeric row) (cells card).
Proof.
  unfold validateCard, card_json.
  assert (Hrows : forallb (λ row, match row with
                                  | JArray cs => (length cs =? 5)%nat && forallb validateCell cs
                                  | _ => false
                                  end)
                    (map (λ row, JArray (map cell_json row)) (cells card))
                  = forallb (λ row, (length row =? 5)%nat && forallb is_numeric row)
                      (cells card)).
  { rewrite forallb_map. apply forallb_eq. intros row. rewrite length_map, forallb_map.
    f_equal. apply forallb_eq, validateCell_json. }
  destruct (card_name card) as [name|]; cbn; rewrite length_map, Hrows;
    destruct (length (cells card) =? 5)%nat; cbn [negb andb]; try done;
    destruct (forallb _ (cells card)); cbn [negb]; try done.
  all: by rewrite !andb_false_r.
Qed.

Lemma validateCard_json_spec card :
  validateCard (card_json card) = true
  ↔ card_shape card
    ∧ ∀ row col, (row < 5)%nat → (col < 5)%nat → is_numeric (cell card row col) = true.
Proof.
  rewrite validateCard_json, andb_true_iff, forallb_forall. unfold card_shape, shape5.
  rewrite andb_true_iff, forallb_forall. split.
  - intros [Hlen Hrows].
    assert (Hs : shape5 (cells card) = true).
    { unfold shape5. rewrite andb_true_iff, forallb_forall. split; [done|].
      intros row Hrow. by destruct (andb_prop _ _ (Hrows row Hrow)). }
    split; [unfold shape5 in Hs; by rewrite andb_true_iff, forallb_forall in Hs|].
    intros row col Hr Hc. destruct (shape5_lookup (cells card) row col Hs Hr Hc) as [E1 E2].
    assert (Hrow : In (cells card !!! row) (cells card)).
    { apply list_elem_of_In. by eapply list_elem_of_lookup_2. }
    destruct (andb_prop _ _ (Hrows _ Hrow)) as [_ Hnum].
    rewrite forallb_forall in Hnum. apply Hnum, list_elem_of_In.
    by eapply list_elem_of_lookup_2.
  - intros [[Hlen Hrows] Hnum]. split; [done|].
    assert (Hs : shape5 (cells card) = true).
    { unfold shape5. rewrite andb_true_iff, forallb_forall. by split. }
    intros row Hrow. rewrite andb_true_iff. split; [by apply Hrows|].
    apply list_elem_of_In, list_elem_of_lookup_1 in Hrow as [r Er].
    assert (Hr : (r < 5)%nat).
    { apply lookup_lt_Some in Er. apply Nat.eqb_eq in Hlen. lia. }
    rewrite forallb_forall. intros x [k Ek]%list_elem_of_In%list_elem_of_lookup_1.
    assert (Hk : (k < 5)%nat).
    { apply lookup_lt_Some in Ek.
      assert (Hl : (length row =? 5)%nat = true).
      { apply Hrows, list_elem_of_In. by eapply list_elem_of_lookup_2. }
      apply Nat.eqb_eq in Hl. lia. }
    destruct (shape5_lookup (cells card) r k Hs Hr Hk) as [E1 E2].
    assert (x = cell card r k) as ->; [|by apply Hnum].
    unfold cell. rewrite E1 in Er. injection Er as <-. rewrite E2 in Ek.
    by injection Ek.
Qed.

#[local] Arguments checkPattern : simpl never.
#[local] Arguments getMissingNumbers : simpl never.
#[local] Arguments getWinningPaths : simpl never.
#[local] Arguments analyzeCardForPattern : simpl never.
#[local] Arguments count_required : simpl never.

(** * Further properties of the matcher and the analyzer *)

(** X1. Line patterns, checkPattern: on a 5x5 card a pattern named
    'Horizontal Line', 'Vertical Line' or 'Diagonal Line' is won exactly
    when one of its lines (the five rows, the five columns, the two
    diagonals) has all five cells marked, that is, when the best marked
    count over its lines is 5.  FREE cells count only through their marked
    flag. *)
Theorem line_patterns_won card pattern :
  card_shape card → is_line pattern = true →
  checkPattern card pattern
  = Some (existsb (λ line, forallb marked (line_cells card line)) (lines_of pattern))
  ∧ checkPattern card pattern
    = Some (line_best card (lines_of pattern) =? 5)%nat.
Proof.
  intros Hs Hl. destruct (line_pattern_run card pattern Hs Hl) as (Hc & _).
  split; [exact Hc|]. by rewrite Hc, line_complete_best.
Qed.

Lemma line_patterns_won_witness :
  checkPattern card_row_on_pot horizontal_line
  = Some (existsb (λ line, forallb marked (line_cells card_row_on_pot line))
                  (lines_of horizontal_line))
  ∧ checkPattern card_row_on_pot horizontal_line
    = Some (line_best card_row_on_pot (lines_of horizontal_line) =? 5)%nat.
Proof. apply (line_patterns_won card_row_on_pot horizontal_line); reflexivity. Defined.

(** X2. Line patterns, getWinningPaths: on a 5x5 card the paths of a line
    pattern are, in scan order, the missing lists (values of the unmarked
    cells that are not FREE) of the lines that have at least one marked cell
    and whose marked count equals the best count over all lines, without
    the empty lists.  Lines below the best count and a card without any
    marked cell on the lines yield no path. *)
Theorem line_patterns_paths card pattern :
  card_shape card → is_line pattern = true →
  getWinningPaths card pattern
  = Some (List.filter (λ m, (0 <? length m)%nat)
            (map (line_missing card) (tied_lines card (lines_of pattern))))
  ∧ List.Forall (λ line, In line (lines_of pattern)
                         ∧ line_marked card line ≠ 0%nat
                         ∧ line_marked card line = line_best card (lines_of pattern))
                (tied_lines card (lines_of pattern))
  ∧ (line_best card (lines_of pattern) = 0%nat → getWinningPaths card pattern = Some []).
Proof.
  intros Hs Hl. destruct (line_pattern_run card pattern Hs Hl) as (_ & Hp & _).
  split; [exact Hp|]. split.
  - apply List.Forall_forall. intros line [Hin Ht]%List.filter_In.
    apply andb_prop in Ht as [Hm%Nat.ltb_lt Hb%Nat.eqb_eq]. repeat split; [done|lia|done].
  - intros E0. rewrite Hp. f_equal. unfold tied_lines.
    rewrite (filter_none _ (lines_of pattern)); [done|].
    intros line Hin. apply andb_false_intro1, Nat.ltb_ge.
    pose proof (scans_le_best (map (scan_of card) (lines_of pattern))
                  (scan_of card line) (in_map _ _ _ Hin)) as Hle.
    rewrite scans_best_lines, E0 in Hle. exact Hle.
Qed.

Lemma line_patterns_paths_witness :
  getWinningPaths card_diagonals diagonal_line
  = Some (List.filter (λ m, (0 <? length m)%nat)
            (map (line_missing card_diagonals)
                 (tied_lines card_diagonals (lines_of diagonal_line))))
  ∧ List.Forall (λ line, In line (lines_of diagonal_line)
                         ∧ line_marked card_diagonals line ≠ 0%nat
                         ∧ line_marked card_diagonals line
                           = line_best card_diagonals (lines_of diagonal_line))
                (tied_lines card_diagonals (lines_of diagonal_line))
  ∧ (line_best card_diagonals (lines_of diagonal_line) = 0%nat →
     getWinningPaths card_diagonals diagonal_line = Some []).
Proof. apply (line_patterns_paths card_diagonals diagonal_line); reflexivity. Defined.

(** X3. getMissingNumbers against getWinningPaths: for every 5x5 card and
    every pattern with a 5x5 grid, a value is in the missing list exactly
    when it is on one of the winning paths.  For the five special names the
    missing list is the union of the paths without repetitions, in order of
    first occurrence; for a standard pattern it is the single path (or
    empty). *)
Theorem missing_numbers_are_path_numbers card pattern :
  card_shape card → grid_shape pattern →
  ∃ paths missing,
    getWinningPaths card pattern = Some paths
    ∧ getMissingNumbers card pattern = Some missing
    ∧ (∀ v, v ∈ missing ↔ ∃ path, path ∈ paths ∧ v ∈ path)
    ∧ (In (pattern_name pattern) special_names →
       missing = foldl set_add [] (concat paths))
    ∧ (standard pattern → missing = concat paths).
Proof.
  intros Hs Hg. destruct (missing_of_paths card pattern Hs Hg) as (paths & E1 & E2).
  eexists paths, _. split; [exact E1|]. split; [exact E2|]. split; [|split].
  - intros v.
    pose proof (elem_of_concat v paths) as Hc.
    destruct (forallb _ special_names); [done|].
    rewrite set_add_fold_elem, elem_of_nil. tauto.
  - intros Hin. enough (forallb (λ s, negb (String.eqb (pattern_name pattern) s))
                          special_names = false) as -> by done.
    apply not_true_is_false. rewrite forallb_forall. intros H.
    specialize (H _ Hin). by rewrite String.eqb_refl in H.
  - intros Hst. unfold standard in Hst. by rewrite Hst.
Qed.

Lemma missing_numbers_are_path_numbers_witness :
  ∃ paths missing,
    getWinningPaths card_two_pairs dikit_pattern = Some paths
    ∧ getMissingNumbers card_two_pairs dikit_pattern = Some missing
    ∧ (∀ v, v ∈ missing ↔ ∃ path, path ∈ paths ∧ v ∈ path)
    ∧ (In (pattern_name dikit_pattern) special_names →
       missing = foldl set_add [] (concat paths))
    ∧ (standard dikit_pattern → missing = concat paths).
Proof.
  apply (missing_numbers_are_path_numbers card_two_pairs dikit_pattern); reflexivity.
Defined.

(** X4. A won pattern leaves nothing to wait for: for every 5x5 card and
    every pattern with a 5x5 grid (special or standard), if checkPattern
    returns true then getWinningPaths returns no path, getMissingNumbers
    returns the empty list and isOnPot returns false. *)
Theorem won_nothing_missing card pattern :
  card_shape card → grid_shape pattern →
  checkPattern card pattern = Some true →
  getWinningPaths card pattern = Some []
  ∧ getMissingNumbers card pattern = Some []
  ∧ isOnPot card pattern = Some false.
Proof.
  intros Hs Hg Hwon. destruct (won_run card pattern Hs Hg Hwon) as [Hp Hm].
  split; [done|]. split; [done|]. unfold isOnPot. by rewrite Hm.
Qed.

Lemma won_nothing_missing_witness :
  getWinningPaths card_two_pairs patong_pattern = Some []
  ∧ getMissingNumbers card_two_pairs patong_pattern = Some []
  ∧ isOnPot card_two_pairs patong_pattern = Some false.
Proof.
  apply (won_nothing_missing card_two_pairs patong_pattern); reflexivity.
Defined.

(** X5. The lists of analyzeGame: for 5x5 cards and grids, analyzeGame
    returns, and winningCards is the sublist of the winner records of
    cardAnalyses, potCards is the sublist of its records that are not
    winners and have exactly one missing number.  Every pot record has its
    isOnPot flag set, every winner record has no missing number, and every
    other record has at least one. *)
Theorem analyzeGame_pot_and_winners cards patterns :
  List.Forall card_shape cards → List.Forall grid_shape patterns →
  ∃ ga, analyzeGame cards patterns = Some ga
    ∧ winningCards ga = List.filter isWinner (cardAnalyses ga)
    ∧ potCards ga = List.filter pot_record (cardAnalyses ga)
    ∧ Forall (λ a, isWinner a = false ∧ onPot a = true
                   ∧ length (missingNumbers a) = 1%nat) (potCards ga)
    ∧ Forall (λ a, isWinner a = true ∧ missingNumbers a = []) (winningCards ga)
    ∧ Forall (λ a, isWinner a = false → missingNumbers a ≠ []) (cardAnalyses ga).
Proof.
  intros Hc Hp. destruct (analyzeGame_shape cards patterns Hc Hp) as (ga & E & Hrec).
  destruct (analyzeGame_lists cards patterns ga E) as (Hr & Hw & Hpot & _).
  exists ga. split; [exact E|]. split; [exact Hw|]. split; [exact Hpot|].
  rewrite Forall_forall in Hr. rewrite List.Forall_forall in Hrec.
  split; [|split].
  - rewrite Hpot. apply Forall_forall. intros a [Ha Hpr]%list_elem_of_In%List.filter_In.
    apply list_elem_of_In in Ha.
    apply andb_prop in Hpr as [Hnw%negb_true_iff H1].
    destruct (Hr a Ha Hnw) as [Hon _]. rewrite Hon. split; [done|]. split; [done|].
    by apply Nat.eqb_eq.
  - rewrite Hw. apply Forall_forall. intros a [Ha Hwin]%list_elem_of_In%List.filter_In.
    split; [done|].
    destruct (Hrec a Ha) as (card & pattern & Hcard & Hpat & [[_ Ea]|Hpath]).
    + destruct (analyzeCardForPattern_isWinner _ _ _ Ea) as [Ew Em].
      rewrite Hwin in Ew. rewrite List.Forall_forall in Hc, Hp.
      destruct (won_run card pattern (Hc _ Hcard) (Hp _ Hpat) Ew) as [_ Em'].
      congruence.
    + destruct Hpath as (Hf & _). congruence.
  - apply Forall_forall. intros a Ha Hf. by destruct (Hr a Ha Hf).
Qed.

Lemma analyzeGame_pot_and_winners_witness :
  ∃ ga, analyzeGame [card_two_pairs] [dikit_pattern; patong_pattern] = Some ga
    ∧ winningCards ga = List.filter isWinner (cardAnalyses ga)
    ∧ potCards ga = List.filter pot_record (cardAnalyses ga)
    ∧ Forall (λ a, isWinner a = false ∧ onPot a = true
                   ∧ length (missingNumbers a) = 1%nat) (potCards ga)
    ∧ Forall (λ a, isWinner a = true ∧ missingNumbers a = []) (winningCards ga)
    ∧ Forall (λ a, isWinner a = false → missingNumbers a ≠ []) (cardAnalyses ga).
Proof.
  apply (analyzeGame_pot_and_winners [card_two_pairs] [dikit_pattern; patong_pattern]);
    repeat constructor.
Defined.

(** X6. nextNumbersToWatch: for 5x5 cards and grids, the list analyzeGame
    returns holds exactly the values that are missing in some record of
    cardAnalyses that is not a winner record, each value once, in ascending
    numeric order. *)
Theorem analyzeGame_next_numbers cards patterns :
  List.Forall card_shape cards → List.Forall grid_shape patterns →
  ∃ ga, analyzeGame cards patterns = Some ga
    ∧ NoDup (nextNumbersToWatch ga)
    ∧ ordered_by (λ a b, sort_key a - sort_key b) (nextNumbersToWatch ga)
    ∧ ∀ v, v ∈ nextNumbersToWatch ga
           ↔ ∃ a, a ∈ cardAnalyses ga ∧ isWinner a = false ∧ v ∈ missingNumbers a.
Proof.
  intros Hc Hp. destruct (analyzeGame_shape cards patterns Hc Hp) as (ga & E & _).
  destruct (analyzeGame_lists cards patterns ga E) as (_ & _ & _ & Hn).
  exists ga. split; [exact E|]. rewrite Hn, sort_numbers_sort_by.
  split; [|split].
  - rewrite sort_by_perm. apply set_add_fold_NoDup, NoDup_nil_2.
  - apply sort_by_ordered; intros; lia.
  - intros v. rewrite sort_by_perm, set_add_fold_elem, elem_of_nil, elem_of_concat.
    split.
    + intros [[]|(m & Hm & Hv)].
      apply list_elem_of_In, in_map_iff in Hm as (a & <- & Ha).
      apply List.filter_In in Ha as [Ha Hopen]. exists a.
      split; [by apply list_elem_of_In|]. split; [|done].
      by apply negb_true_iff in Hopen.
    + intros (a & Ha & Hf & Hv). right. exists (missingNumbers a). split; [|done].
      apply list_elem_of_In, in_map, List.filter_In. split; [by apply list_elem_of_In|].
      unfold open_record. by rewrite Hf.
Qed.

Lemma analyzeGame_next_numbers_witness :
  ∃ ga, analyzeGame [card_two_pairs] [dikit_pattern; full_house] = Some ga
    ∧ NoDup (nextNumbersToWatch ga)
    ∧ ordered_by (λ a b, sort_key a - sort_key b) (nextNumbersToWatch ga)
    ∧ ∀ v, v ∈ nextNumbersToWatch ga
           ↔ ∃ a, a ∈ cardAnalyses ga ∧ isWinner a = false ∧ v ∈ missingNumbers a.
Proof.
  apply (analyzeGame_next_numbers [card_two_pairs] [dikit_pattern; full_house]);
    repeat constructor.
Defined.

(** X7. sortCardsByCloseness returns a rearrangement of its argument in
    which winner records come first, then, among records of the same winner
    status, pot records, and records of the same winner and pot status are
    in ascending order of their number of missing numbers. *)
Theorem sortCardsByCloseness_spec analyses :
  sortCardsByCloseness analyses ≡ₚ analyses
  ∧ ordered_by closeness_compare (sortCardsByCloseness analyses)
  ∧ ∀ i j x y, (i < j)%nat →
      sortCardsByCloseness analyses !! i = Some x →
      sortCardsByCloseness analyses !! j = Some y →
      (isWinner y = true → isWinner x = true)
      ∧ (isWinner x = isWinner y → onPot y = true → onPot x = true)
      ∧ (isWinner x = isWinner y → onPot x = onPot y →
         (length (missingNumbers x) ≤ length (missingNumbers y))%nat).
Proof.
  assert (Hord : ordered_by closeness_compare (sortCardsByCloseness analyses)).
  { apply sort_by_ordered; [apply closeness_compare_total|apply closeness_compare_trans]. }
  split; [apply sort_by_perm|]. split; [exact Hord|].
  intros i j x y Hij Ex Ey. specialize (Hord i j x y Hij Ex Ey).
  unfold closeness_compare in Hord.
  destruct (isWinner x), (isWinner y), (onPot x), (onPot y); cbn in Hord;
    repeat split; intros; try done; lia.
Qed.

(** X8. getClosestPatterns: for a 5x5 card, 5x5 grids and a limit that is
    not negative, the function returns at most [limit] analyses; each is the
    analysis of the card for one of the given patterns that the card has not
    won; they are in ascending order of their number of missing numbers; and
    an analysis of an unwon pattern that is left out has at least as many
    missing numbers as every analysis returned. *)
Theorem getClosestPatterns_spec card patterns limit :
  card_shape card → List.Forall grid_shape patterns → 0 ≤ limit →
  ∃ closest,
    getClosestPatterns card patterns limit = Some closest
    ∧ Z.of_nat (length closest) ≤ limit
    ∧ Forall (open_analysis card patterns) closest
    ∧ ordered_by missing_compare closest
    ∧ ∀ a b, open_analysis card patterns a → a ∉ closest → b ∈ closest →
        (length (missingNumbers b) ≤ length (missingNumbers a))%nat.
Proof.
  intros Hs Hp Hlimit.
  destruct (analyses_shape card patterns Hs Hp) as (mapped & E & Hmap).
  unfold getClosestPatterns. rewrite E. cbn [mbind option_bind].
  rewrite slice0_take by done.
  set (sorted := sort_by missing_compare
                   (List.filter (λ analysis, negb (isWinner analysis)) mapped)).
  assert (Hord : ordered_by missing_compare sorted)
    by (apply sort_by_ordered; unfold missing_compare; intros; lia).
  assert (Hin : ∀ a, a ∈ sorted ↔ open_analysis card patterns a).
  { intros a. subst sorted. rewrite sort_by_perm, list_elem_of_In, List.filter_In.
    rewrite negb_true_iff. unfold open_analysis. split.
    - intros [Ha Hw]. split; [done|].
      apply list_elem_of_In, list_elem_of_lookup_1 in Ha as [i Ei].
      destruct (Forall2_lookup_r _ _ _ _ _ Hmap Ei) as (p & Ep & Ea).
      exists p. split; [|done]. by eapply list_elem_of_In, list_elem_of_lookup_2.
    - intros [Hw (p & Hpin & Ea)]. split; [|done].
      apply list_elem_of_In, list_elem_of_lookup_1 in Hpin as [i Ei].
      destruct (Forall2_lookup_l _ _ _ _ _ Hmap Ei) as (a' & Ea' & Ep).
      rewrite Ea in Ep. injection Ep as <-.
      by eapply list_elem_of_In, list_elem_of_lookup_2. }
  eexists. split; [reflexivity|]. split; [|split; [|split]].
  - rewrite length_take. lia.
  - apply Forall_forall. intros a (i & Ei & _)%elem_of_take. apply Hin.
    by eapply list_elem_of_lookup_2.
  - by apply ordered_by_take.
  - intros a b Ha Hout Hb. apply Hin in Ha.
    rewrite <- (take_drop (Z.to_nat limit) sorted) in Ha.
    apply elem_of_app in Ha as [Ha|Ha]; [done|].
    pose proof (ordered_by_take_drop _ _ _ _ _ Hord Hb Ha) as H.
    unfold missing_compare in H. lia.
Qed.

Lemma getClosestPatterns_spec_witness :
  ∃ closest,
    getClosestPatterns card_two_pairs [dikit_pattern; patong_pattern; full_house] 3
    = Some closest
    ∧ Z.of_nat (length closest) ≤ 3
    ∧ Forall (open_analysis card_two_pairs [dikit_pattern; patong_pattern; full_house])
             closest
    ∧ ordered_by missing_compare closest
    ∧ ∀ a b,
        open_analysis card_two_pairs [dikit_pattern; patong_pattern; full_house] a →
        a ∉ closest → b ∈ closest →
        (length (missingNumbers b) ≤ length (missingNumbers a))%nat.
Proof.
  apply (getClosestPatterns_spec card_two_pairs
           [dikit_pattern; patong_pattern; full_house] 3);
    [reflexivity|repeat constructor|lia].
Defined.

(** X9. isNumberImportant against getCardsWaitingForNumber: for 5x5 cards
    and grids both return, isNumberImportant is true exactly when
    getCardsWaitingForNumber returns at least one entry, and the entries
    are, in loop order (cards first), the pairs of a card and a pattern
    whose missing list holds the number, each with its analysis, which is
    never a winner record. *)
Theorem important_iff_waiting num cards patterns :
  List.Forall card_shape cards → List.Forall grid_shape patterns →
  ∃ important results,
    isNumberImportant num cards patterns = Some important
    ∧ getCardsWaitingForNumber num cards patterns = Some results
    ∧ (important = true ↔ results ≠ [])
    ∧ map fst results
      = List.filter (λ '(c, p), waits_for num c p) (card_pattern_pairs cards patterns)
    ∧ Forall (λ '(c, p, a), analyzeCardForPattern c p = Some a ∧ isWinner a = false
                            ∧ includes_number (missingNumbers a) num = true) results.
Proof.
  intros Hc Hp. destruct (waiting_cards num cards patterns [] Hc Hp) as (new & E & Hm & Hf).
  exists (existsb (λ '(c, p), waits_for num c p) (card_pattern_pairs cards patterns)), new.
  split; [by apply important_run|]. split; [exact E|]. split; [|done].
  rewrite existsb_filter_nil, <- Hm. by destruct new.
Qed.

Lemma important_iff_waiting_witness :
  ∃ important results,
    isNumberImportant (Int 16) [card_two_pairs] [dikit_pattern; full_house] = Some important
    ∧ getCardsWaitingForNumber (Int 16) [card_two_pairs] [dikit_pattern; full_house]
      = Some results
    ∧ (important = true ↔ results ≠ [])
    ∧ map fst results
      = List.filter (λ '(c, p), waits_for (Int 16) c p)
          (card_pattern_pairs [card_two_pairs] [dikit_pattern; full_house])
    ∧ Forall (λ '(c, p, a), analyzeCardForPattern c p = Some a ∧ isWinner a = false
                            ∧ includes_number (missingNumbers a) (Int 16) = true) results.
Proof.
  apply (important_iff_waiting (Int 16) [card_two_pairs] [dikit_pattern; full_house]);
    repeat constructor.
Defined.

(** X10. getProbabilityInsight: when the called numbers are distinct
    integers in 1-75 and the missing numbers are distinct integers in 1-75,
    numbersNeeded counts the missing numbers not yet called and
    0 <= numbersNeeded <= numbersRemaining = 75 - (numbers called), so the
    probability is a quotient between 0 and 1, or the literal 0 when all 75
    numbers have been called (and then nothing is needed). *)
Theorem getProbabilityInsight_bounds called missing :
  NoDup called → Forall bingo_number called →
  NoDup missing → Forall bingo_number missing →
  let insight := getProbabilityInsight called missing in
  numbersRemaining insight = 75 - Z.of_nat (length called)
  ∧ 0 ≤ numbersNeeded insight ≤ numbersRemaining insight
  ∧ (numbersNeeded insight = 0 ↔ ∀ n, n ∈ missing → n ∈ called)
  ∧ probability insight
    = (if 0 <? numbersRemaining insight
       then Ratio (numbersNeeded insight) (numbersRemaining insight) else Zero).
Proof.
  intros Hc Hcb Hm Hmb.
  set (needed := List.filter (λ num, negb (includes called num)) missing).
  assert (Hin : ∀ n, n ∈ needed ↔ n ∈ missing ∧ n ∉ called).
  { intros n. subst needed. rewrite list_elem_of_In, List.filter_In, negb_true_iff.
    rewrite <- not_true_iff_false, includes_spec, <- !list_elem_of_In. tauto. }
  assert (Hlen : (length (needed ++ called) ≤ 75)%nat).
  { apply bingo_numbers_length.
    - apply NoDup_app. split; [|split; [|done]].
      + subst needed. clear -Hm. induction Hm as [|x l Hx Hl IH]; cbn; [constructor|].
        destruct (negb (includes called x)); [|done]. constructor; [|done].
        rewrite list_elem_of_In, List.filter_In, <- list_elem_of_In. tauto.
      + intros n Hn. by apply Hin in Hn as [_ Hn].
    - apply Forall_app. split; [|done]. apply Forall_forall. intros n [Hn _]%Hin.
      rewrite Forall_forall in Hmb. by apply Hmb. }
  rewrite length_app in Hlen.
  unfold getProbabilityInsight. cbn [numbersRemaining numbersNeeded probability].
  fold needed. split; [done|]. split; [lia|]. split; [|done].
  split.
  - intros H0 n Hn. destruct (decide (n ∈ called)) as [|Hout]; [done|].
    assert (Hx : n ∈ needed) by (by apply Hin). destruct needed; [inversion Hx|].
    cbn in H0. lia.
  - intros Hall. destruct needed as [|n l]; [done|].
    assert (Hx : n ∈ n :: l) by left. apply Hin in Hx as [Hx Hout].
    destruct Hout. by apply Hall.
Qed.

Lemma getProbabilityInsight_bounds_witness :
  let insight := getProbabilityInsight [Int 5; Int 16] [Int 16; Int 17] in
  numbersRemaining insight = 75 - Z.of_nat (length [Int 5; Int 16])
  ∧ 0 ≤ numbersNeeded insight ≤ numbersRemaining insight
  ∧ (numbersNeeded insight = 0 ↔ ∀ n, n ∈ [Int 16; Int 17] → n ∈ [Int 5; Int 16])
  ∧ probability insight
    = (if 0 <? numbersRemaining insight
       then Ratio (numbersNeeded insight) (numbersRemaining insight) else Zero).
Proof.
  apply (getProbabilityInsight_bounds [Int 5; Int 16] [Int 16; Int 17]).
  - apply (bool_decide_unpack _). reflexivity.
  - repeat constructor; (eexists; split; [reflexivity|lia]).
  - apply (bool_decide_unpack _). reflexivity.
  - repeat constructor; (eexists; split; [reflexivity|lia]).
Defined.

(** * Further properties of the game session *)

(** X11. The call history stays valid: when calledNumbers holds distinct
    integers in 1-75, it has at most 75 entries; addCalledNumber either
    throws and leaves the store as it was, or returns a session whose
    calledNumbers again holds distinct integers in 1-75 and is one entry
    longer; and once all 75 numbers have been called every further call
    throws. *)
Theorem called_numbers_stay_valid h session s num :
  load_session h session = Some s → calls_ok (calledNumbers s) = true →
  (length (calledNumbers s) ≤ 75)%nat
  ∧ match addCalledNumber session num h with
    | Returned session' h' =>
      ∃ s', load_session h' session' = Some s'
            ∧ calls_ok (calledNumbers s') = true
            ∧ length (calledNumbers s') = S (length (calledNumbers s))
    | Thrown _ h' => h' = h
    end
  ∧ (length (calledNumbers s) = 75%nat →
     ∃ e, addCalledNumber session num h = Thrown e h).
Proof.
  intros Hs Hok.
  assert (Hlen : ∀ ns, calls_ok ns = true → (length ns ≤ 75)%nat).
  { intros ns [Hv Hn]%calls_ok_spec. by apply bingo_numbers_length. }
  split; [by apply Hlen|].
  rewrite (addCalledNumber_run h session s num Hs).
  destruct (isValidBingoNumber num) eqn:Hv; cbn [negb]; [|split; eauto].
  destruct (includes (calledNumbers s) num) eqn:Hi; [split; eauto|].
  pose proof (calls_ok_snoc _ _ Hok Hv Hi) as Hok'.
  split.
  - destruct (new_session_load h session s (calledNumbers s ++ [num]) Hs) as (_ & _ & E).
    eexists. split; [exact E|]. cbn [calledNumbers with_called]. split; [done|].
    rewrite length_app. cbn. lia.
  - intros H75. apply Hlen in Hok'. rewrite length_app in Hok'. cbn in Hok'. lia.
Qed.

Lemma called_numbers_stay_valid_witness :
  (length (calledNumbers example_session) ≤ 75)%nat
  ∧ match addCalledNumber 3 (Int 7) session_heap with
    | Returned session' h' =>
      ∃ s', load_session h' session' = Some s'
            ∧ calls_ok (calledNumbers s') = true
            ∧ length (calledNumbers s') = S (length (calledNumbers example_session))
    | Thrown _ h' => h' = session_heap
    end
  ∧ (length (calledNumbers example_session) = 75%nat →
     ∃ e, addCalledNumber 3 (Int 7) session_heap = Thrown e session_heap).
Proof.
  apply (called_numbers_stay_valid session_heap 3 example_session (Int 7)); reflexivity.
Defined.

(** X12. removeCalledNumber: on a store holding a session the call never
    throws; it returns a new session object, every object of the input
    store (the input session included) is unchanged, and the new session is
    the input with every occurrence of the number filtered out of
    calledNumbers, the other numbers keeping their order.  Afterwards the
    number has not been called (for a number other than NaN, which [!==]
    never equals), a number that had not been called leaves the session
    value as it was, and distinct integers in 1-75 stay so. *)
Theorem removeCalledNumber_spec h session s num :
  load_session h session = Some s →
  ∃ session' h' s',
    removeCalledNumber session num h = Returned session' h'
    ∧ (length h ≤ session')%nat
    ∧ heap_preserved h h'
    ∧ load_session h' session = Some s
    ∧ load_session h' session' = Some s'
    ∧ s' = with_called s (List.filter (λ n, negb (strict_equal n num)) (calledNumbers s))
    ∧ (num ≠ NaN → hasBeenCalled s' num = false)
    ∧ (∀ n, n ≠ num → hasBeenCalled s' n = hasBeenCalled s n)
    ∧ (hasBeenCalled s num = false → calledNumbers s' = calledNumbers s)
    ∧ (calls_ok (calledNumbers s) = true → calls_ok (calledNumbers s') = true).
Proof.
  intros Hs. rewrite (removeCalledNumber_run h session s num Hs).
  set (ns' := List.filter (λ n, negb (strict_equal n num)) (calledNumbers s)).
  destruct (new_session_load h session s ns' Hs) as (Hp & E1 & E2).
  eexists _, _, _. split; [reflexivity|]. split; [lia|]. split; [exact Hp|].
  split; [exact E1|]. split; [exact E2|]. split; [reflexivity|].
  unfold hasBeenCalled. cbn [calledNumbers with_called].
  assert (Hin : ∀ n, In n ns' ↔ In n (calledNumbers s) ∧ strict_equal n num = false).
  { intros n. subst ns'. by rewrite List.filter_In, negb_true_iff. }
  split; [|split; [|split]].
  - intros Hnum. apply not_true_is_false. rewrite includes_spec, Hin.
    intros [_ Hne]. apply not_true_iff_false in Hne. apply Hne, strict_equal_spec.
    done.
  - intros n Hne. apply eq_true_iff_eq. rewrite !includes_spec, Hin.
    split; [tauto|]. intros H. split; [done|]. apply not_true_is_false.
    rewrite strict_equal_spec. tauto.
  - intros Hout. apply filter_not_called. rewrite <- includes_spec. congruence.
  - apply calls_ok_filter.
Qed.

Lemma removeCalledNumber_spec_witness :
  ∃ session' h' s',
    removeCalledNumber 3 (Int 5) session_heap = Returned session' h'
    ∧ (length session_heap ≤ session')%nat
    ∧ heap_preserved session_heap h'
    ∧ load_session h' 3 = Some example_session
    ∧ load_session h' session' = Some s'
    ∧ s' = with_called example_session
             (List.filter (λ n, negb (strict_equal n (Int 5)))
                          (calledNumbers example_session))
    ∧ (Int 5 ≠ NaN → hasBeenCalled s' (Int 5) = false)
    ∧ (∀ n, n ≠ Int 5 → hasBeenCalled s' n = hasBeenCalled example_session n)
    ∧ (hasBeenCalled example_session (Int 5) = false →
       calledNumbers s' = calledNumbers example_session)
    ∧ (calls_ok (calledNumbers example_session) = true →
       calls_ok (calledNumbers s') = true).
Proof.
  apply (removeCalledNumber_spec session_heap 3 example_session (Int 5)); reflexivity.
Defined.

(** X13. removeCalledNumber undoes addCalledNumber: when the number is an
    integer in 1-75 that has not been called, addCalledNumber returns a
    session from which removeCalledNumber of the same number returns a
    session with the value of the original one; the original session object
    is untouched by both calls. *)
Theorem remove_undoes_add h session s num :
  load_session h session = Some s →
  isValidBingoNumber num = true → hasBeenCalled s num = false →
  ∃ added h1 removed h2,
    addCalledNumber session num h = Returned added h1
    ∧ removeCalledNumber added num h1 = Returned removed h2
    ∧ load_session h2 removed = Some s
    ∧ load_session h2 session = Some s
    ∧ heap_preserved h h2.
Proof.
  intros Hs Hv Hout. unfold hasBeenCalled in Hout.
  rewrite (addCalledNumber_run h session s num Hs), Hv, Hout. cbn [negb].
  destruct (new_session_load h session s (calledNumbers s ++ [num]) Hs) as (Hp1 & E1 & E2).
  set (h1 := h ++ _) in *.
  destruct (new_session_load h1 _ _
              (List.filter (λ n, negb (strict_equal n num))
                           (calledNumbers (with_called s (calledNumbers s ++ [num])))) E2)
    as (Hp2 & E3 & E4).
  exists (S (length h)), h1. eexists _, _. split; [reflexivity|].
  split; [apply (removeCalledNumber_run h1 _ _ num E2)|].
  split; [|split].
  - rewrite E4. f_equal. cbn [calledNumbers with_called].
    rewrite List.filter_app, filter_not_called
      by (rewrite <- includes_spec; congruence).
    cbn [List.filter].
    assert (Hn : strict_equal num num = true).
    { apply strict_equal_spec. split; [done|]. intros ->. discriminate. }
    rewrite Hn. cbn [negb]. rewrite app_nil_r. by destruct s.
  - by eapply load_session_preserved.
  - by eapply heap_preserved_trans.
Qed.

Lemma remove_undoes_add_witness :
  ∃ added h1 removed h2,
    addCalledNumber 3 (Int 7) session_heap = Returned added h1
    ∧ removeCalledNumber added (Int 7) h1 = Returned removed h2
    ∧ load_session h2 removed = Some example_session
    ∧ load_session h2 3 = Some example_session
    ∧ heap_preserved session_heap h2.
Proof.
  apply (remove_undoes_add session_heap 3 example_session (Int 7)); reflexivity.
Defined.

(** X14. getUncalledNumbers: the result holds exactly the integers in 1-75
    that hasBeenCalled denies, each once; and when calledNumbers holds
    distinct integers in 1-75 its length is the [remaining] of
    getSessionStats, 75 minus the number of calls, which is then not
    negative. *)
Theorem getUncalledNumbers_spec s :
  calls_ok (calledNumbers s) = true →
  (∀ n, n ∈ getUncalledNumbers s ↔ bingo_number n ∧ hasBeenCalled s n = false)
  ∧ NoDup (getUncalledNumbers s)
  ∧ Z.of_nat (length (getUncalledNumbers s)) = remaining (getSessionStats s)
  ∧ 0 ≤ remaining (getSessionStats s).
Proof.
  intros Hok. split; [|split].
  - intros n. unfold getUncalledNumbers, hasBeenCalled.
    by rewrite list_elem_of_In, List.filter_In, <- list_elem_of_In, all_numbers_spec,
      negb_true_iff.
  - apply NoDup_filter_list, all_numbers_NoDup.
  - pose proof (uncalled_count s Hok) as H. unfold getSessionStats. cbn [remaining]. lia.
Qed.

Lemma getUncalledNumbers_spec_witness :
  (∀ n, n ∈ getUncalledNumbers three_calls
        ↔ bingo_number n ∧ hasBeenCalled three_calls n = false)
  ∧ NoDup (getUncalledNumbers three_calls)
  ∧ Z.of_nat (length (getUncalledNumbers three_calls))
    = remaining (getSessionStats three_calls)
  ∧ 0 ≤ remaining (getSessionStats three_calls).
Proof. apply (getUncalledNumbers_spec three_calls); reflexivity. Defined.

(** X15. getSessionStats after a call: when the number is an integer in
    1-75 that has not been called, addCalledNumber returns a session whose
    statistics have totalCalled one higher and remaining one lower than
    before, lastCalled equal to the number, and hasBeenCalled holds for it;
    a session without calls has lastCalled null. *)
Theorem stats_after_call h session s num :
  load_session h session = Some s →
  isValidBingoNumber num = true → hasBeenCalled s num = false →
  ∃ session' h' s',
    addCalledNumber session num h = Returned session' h'
    ∧ load_session h' session' = Some s'
    ∧ totalCalled (getSessionStats s') = totalCalled (getSessionStats s) + 1
    ∧ remaining (getSessionStats s') = remaining (getSessionStats s) - 1
    ∧ lastCalled (getSessionStats s') = Some num
    ∧ hasBeenCalled s' num = true
    ∧ (calledNumbers s = [] → lastCalled (getSessionStats s) = None).
Proof.
  intros Hs Hv Hout. unfold hasBeenCalled in Hout.
  rewrite (addCalledNumber_run h session s num Hs), Hv, Hout. cbn [negb].
  destruct (new_session_load h session s (calledNumbers s ++ [num]) Hs) as (_ & _ & E).
  eexists _, _, _. split; [reflexivity|]. split; [exact E|].
  unfold getSessionStats, hasBeenCalled.
  cbn [totalCalled remaining lastCalled calledNumbers with_called].
  rewrite length_app. cbn [length].
  split; [lia|]. split; [lia|]. split; [|split].
  - replace (length (calledNumbers s) + 1)%nat with (S (length (calledNumbers s))) by lia.
    cbn [Nat.ltb Nat.leb]. rewrite lookup_app_r by lia.
    replace (S (length (calledNumbers s)) - 1 - length (calledNumbers s))%nat
      with 0%nat by lia.
    reflexivity.
  - apply includes_spec, in_or_app. right. by left.
  - intros ->. reflexivity.
Qed.

Lemma stats_after_call_witness :
  ∃ session' h' s',
    addCalledNumber 3 (Int 7) session_heap = Returned session' h'
    ∧ load_session h' session' = Some s'
    ∧ totalCalled (getSessionStats s') = totalCalled (getSessionStats example_session) + 1
    ∧ remaining (getSessionStats s') = remaining (getSessionStats example_session) - 1
    ∧ lastCalled (getSessionStats s') = Some (Int 7)
    ∧ hasBeenCalled s' (Int 7) = true
    ∧ (calledNumbers example_session = [] →
       lastCalled (getSessionStats example_session) = None).
Proof.
  apply (stats_after_call session_heap 3 example_session (Int 7)); reflexivity.
Defined.

(** X16. getNumberColumn against the column ranges of cardValidation.ts:
    for every number other than NaN and every column index 0-4,
    validateNumberForColumn accepts the number for the column exactly when
    getNumberColumn returns the letter of that column; every valid bingo
    number has a column; and NaN, for which getNumberColumn returns null, is
    accepted by validateNumberForColumn for every column 0-4, while a column
    index above 4 is rejected as an invalid column. *)
Theorem columns_agree num columnIndex :
  (columnIndex < 5)%nat →
  (num ≠ NaN →
     (isValid (validateNumberForColumn num columnIndex) = true
      ↔ getNumberColumn num = COLUMNS !! columnIndex))
  ∧ (isValidBingoNumber num = true → is_Some (getNumberColumn num))
  ∧ getNumberColumn NaN = None
  ∧ isValid (validateNumberForColumn NaN columnIndex) = true
  ∧ validateNumberForColumn num (5 + columnIndex) = invalid InvalidColumn.
Proof.
  intros Hcol. split; [|split; [|split; [done|split; [|done]]]].
  - intros Hnum.
    assert (∃ range, COLUMN_RANGES columnIndex = Some range
                     ∧ COLUMNS !! columnIndex = Some (range_letter range))
      as (range & Er & El).
    { destruct columnIndex as [|[|[|[|[|?]]]]]; try lia; eexists; split; reflexivity. }
    rewrite El, (getNumberColumn_range num columnIndex range Hnum Er).
    unfold validateNumberForColumn. rewrite Er.
    by destruct (number_ltb num (range_min range) || number_gtb num (range_max range)).
  - intros (z & -> & Hz)%isValidBingoNumber_spec. unfold getNumberColumn.
    cbn [number_geb number_leb]. by_comparisons; by eexists.
  - by destruct columnIndex as [|[|[|[|[|?]]]]]; try lia.
Qed.

Lemma columns_agree_witness :
  (Int 20 ≠ NaN →
     (isValid (validateNumberForColumn (Int 20) 1) = true
      ↔ getNumberColumn (Int 20) = COLUMNS !! 1%nat))
  ∧ (isValidBingoNumber (Int 20) = true → is_Some (getNumberColumn (Int 20)))
  ∧ getNumberColumn NaN = None
  ∧ isValid (validateNumberForColumn NaN 1) = true
  ∧ validateNumberForColumn (Int 20) (5 + 1) = invalid InvalidColumn.
Proof. apply (columns_agree (Int 20) 1). lia. Defined.



(** * Further properties of the card functions *)

(** X18. validateBingoCard and getCardNumbers: on a 5x5 card
    getCardNumbers returns the values of the cells that are not FREE, in
    row-major order (FREE is never among them, every other cell value is),
    and validateBingoCard returns true exactly when these values are
    pairwise distinct; an empty-string value counts like any other value. *)
Theorem card_without_duplicates card :
  card_shape card →
  ∃ nums ok,
    getCardNumbers card = Some nums
    ∧ validateBingoCard card = Some ok
    ∧ nums = card_values card
    ∧ (ok = true ↔ NoDup nums)
    ∧ (FREE ∉ nums)
    ∧ (∀ row col, (row < 5)%nat → (col < 5)%nat →
         value (cell card row col) ≠ FREE → value (cell card row col) ∈ nums).
Proof.
  intros Hs. eexists _, _. split; [by apply getCardNumbers_run|].
  split; [by apply validateBingoCard_run|]. split; [reflexivity|].
  split; [apply bool_decide_eq_true|].
  assert (Hin : ∀ v, v ∈ card_values card
                     ↔ ∃ row col, (row < 5)%nat ∧ (col < 5)%nat
                                  ∧ v = value (cell card row col) ∧ v ≠ FREE).
  { intros v. unfold card_values. rewrite list_elem_of_In, in_map_iff. split.
    - intros (c & <- & [Hc Hf]%List.filter_In).
      apply in_map_iff in Hc as ([row col] & <- & Hp).
      apply list_elem_of_In, elem_of_positions in Hp as [Hr Hc].
      exists row, col. repeat split; try done. intros E.
      unfold is_free in Hf. by rewrite E in Hf.
    - intros (row & col & Hr & Hc & -> & Hf). exists (cell card row col).
      split; [done|]. apply List.filter_In. split.
      + apply in_map_iff. exists (row, col). split; [done|].
        by apply list_elem_of_In, elem_of_positions.
      + unfold is_free. by destruct (value (cell card row col)). }
  split.
  - intros (row & col & _ & _ & _ & H)%Hin. done.
  - intros row col Hr Hc Hf. apply Hin. by exists row, col.
Qed.

Lemma card_without_duplicates_witness :
  ∃ nums ok,
    getCardNumbers card_two_pairs = Some nums
    ∧ validateBingoCard card_two_pairs = Some ok
    ∧ nums = card_values card_two_pairs
    ∧ (ok = true ↔ NoDup nums)
    ∧ (FREE ∉ nums)
    ∧ (∀ row col, (row < 5)%nat → (col < 5)%nat →
         value (cell card_two_pairs row col) ≠ FREE →
         value (cell card_two_pairs row col) ∈ nums).
Proof. apply (card_without_duplicates card_two_pairs); reflexivity. Defined.

(** X19. validateCompleteCard: on a 5x5 card the result is valid exactly
    when every cell holds FREE or an integer within the range of its column
    index (B 1-15, I 16-30, N 31-45, G 46-60, O 61-75) and the values that
    are not FREE are pairwise distinct.  A valid result carries no error, an
    invalid one always does, and a card that validateCompleteCard accepts is
    accepted by validateBingoCard. *)
Theorem validateCompleteCard_spec card :
  card_shape card →
  ∃ result,
    validateCompleteCard card = Some result
    ∧ (isValid result = true
       ↔ (∀ row col, (row < 5)%nat → (col < 5)%nat →
            value (cell card row col) = FREE
            ∨ in_column_range (value (cell card row col)) col)
         ∧ NoDup (card_values card))
    ∧ (isValid result = true → error result = None)
    ∧ (isValid result = false → is_Some (error result))
    ∧ (isValid result = true → validateBingoCard card = Some true).
Proof.
  intros Hs. destruct (validateCompleteCard_run card Hs) as (result & E & Hv & He1 & He2).
  exists result. split; [exact E|].
  assert (Hcells : forallb (cell_ok card) (positions 5 5) = true
                   ↔ ∀ row col, (row < 5)%nat → (col < 5)%nat →
                       value (cell card row col) = FREE
                       ∨ in_column_range (value (cell card row col)) col).
  { rewrite forallb_forall. split.
    - intros H row col Hr Hc. apply cell_ok_spec; [done|].
      by apply H, list_elem_of_In, elem_of_positions.
    - intros H [row col] [Hr Hc]%list_elem_of_In%elem_of_positions.
      apply cell_ok_spec; [done|]. by apply H. }
  split; [by rewrite Hv, Hcells|]. split; [done|]. split; [done|].
  intros [_ Hn]%Hv. rewrite validateBingoCard_run by done.
  by rewrite bool_decide_eq_true_2.
Qed.

Lemma validateCompleteCard_spec_witness :
  ∃ result,
    validateCompleteCard card_two_pairs = Some result
    ∧ (isValid result = true
       ↔ (∀ row col, (row < 5)%nat → (col < 5)%nat →
            value (cell card_two_pairs row col) = FREE
            ∨ in_column_range (value (cell card_two_pairs row col)) col)
         ∧ NoDup (card_values card_two_pairs))
    ∧ (isValid result = true → error result = None)
    ∧ (isValid result = false → is_Some (error result))
    ∧ (isValid result = true → validateBingoCard card_two_pairs = Some true).
Proof. apply (validateCompleteCard_spec card_two_pairs); reflexivity. Defined.

(** X20. validateNumberEntry: on a 5x5 card the entry of a number at
    (row, col) is valid exactly when validateNumberForColumn accepts the
    number for the column and no cell other than (row, col) holds the
    number; the column test comes first, so its error is the one reported;
    and when isDuplicateNumber finds the number nowhere on the card the
    entry is valid exactly when the column test passes. *)
Theorem validateNumberEntry_spec card num row col :
  card_shape card →
  ∃ result duplicate,
    validateNumberEntry card num row col = Some result
    ∧ isDuplicateNumber card num = Some duplicate
    ∧ (isValid result = true
       ↔ isValid (validateNumberForColumn num col) = true
         ∧ ∀ r c, (r < 5)%nat → (c < 5)%nat → (r, c) ≠ (row, col) →
             ¬ value_equals (value (cell card r c)) num)
    ∧ (isValid (validateNumberForColumn num col) = false →
       result = validateNumberForColumn num col)
    ∧ (duplicate = false →
       isValid result = isValid (validateNumberForColumn num col))
    ∧ (duplicate = true
       ↔ ∃ r c, (r < 5)%nat ∧ (c < 5)%nat ∧ value_equals (value (cell card r c)) num).
Proof.
  intros Hs. rewrite validateNumberEntry_run, isDuplicateNumber_run by done.
  eexists _, _. split; [reflexivity|]. split; [reflexivity|].
  assert (Hfree : forallb (entry_free card num row col) (positions 5 5) = true
                  ↔ ∀ r c, (r < 5)%nat → (c < 5)%nat → (r, c) ≠ (row, col) →
                      ¬ value_equals (value (cell card r c)) num).
  { rewrite forallb_forall. unfold entry_free. split.
    - intros H r c Hr Hc Hne Hv.
      specialize (H (r, c) (proj1 (list_elem_of_In _ _)
                              (proj2 (elem_of_positions 5 5 r c) (conj Hr Hc)))).
      cbn [fst snd] in H. apply orb_prop in H as [H|H].
      + apply andb_prop in H as [->%Nat.eqb_eq ->%Nat.eqb_eq]. done.
      + apply value_is_equals in Hv. by rewrite Hv in H.
    - intros H [r c] [Hr Hc]%list_elem_of_In%elem_of_positions. cbn [fst snd].
      destruct (Nat.eqb_spec r row) as [->|Hne]; cbn [andb orb].
      + destruct (Nat.eqb_spec c col) as [->|Hne]; cbn [orb]; [done|].
        apply negb_true_iff, not_true_is_false. rewrite value_is_equals.
        apply H; [done..|]. congruence.
      + apply negb_true_iff, not_true_is_false. rewrite value_is_equals.
        apply H; [done..|]. congruence. }
  assert (Hdup : existsb (λ '(r, c), value_is (value (cell card r c)) num) (positions 5 5)
                 = true
                 ↔ ∃ r c, (r < 5)%nat ∧ (c < 5)%nat
                          ∧ value_equals (value (cell card r c)) num).
  { rewrite existsb_exists. split.
    - intros ([r c] & [Hr Hc]%list_elem_of_In%elem_of_positions & Hv%value_is_equals).
      by exists r, c.
    - intros (r & c & Hr & Hc & Hv%value_is_equals). exists (r, c).
      split; [|done]. by apply list_elem_of_In, elem_of_positions. }
  destruct (isValid (validateNumberForColumn num col)) eqn:Ev; cbn [negb].
  - split; [|split; [done|split; [|done]]].
    + rewrite <- Hfree. destruct (forallb _ _); cbn; intuition congruence.
    + intros Hno. enough (forallb (entry_free card num row col) (positions 5 5) = true)
        as -> by done.
      apply Hfree. intros r c Hr Hc _ Hv. apply not_true_iff_false in Hno.
      apply Hno, Hdup. by exists r, c.
  - rewrite Ev. split; [split; [done|by intros [? _]]|].
    split; [done|]. split; [done|exact Hdup].
Qed.

Lemma validateNumberEntry_spec_witness :
  ∃ result duplicate,
    validateNumberEntry card_two_pairs (Int 7) 0 0 = Some result
    ∧ isDuplicateNumber card_two_pairs (Int 7) = Some duplicate
    ∧ (isValid result = true
       ↔ isValid (validateNumberForColumn (Int 7) 0) = true
         ∧ ∀ r c, (r < 5)%nat → (c < 5)%nat → (r, c) ≠ (0%nat, 0%nat) →
             ¬ value_equals (value (cell card_two_pairs r c)) (Int 7))
    ∧ (isValid (validateNumberForColumn (Int 7) 0) = false →
       result = validateNumberForColumn (Int 7) 0)
    ∧ (duplicate = false →
       isValid result = isValid (validateNumberForColumn (Int 7) 0))
    ∧ (duplicate = true
       ↔ ∃ r c, (r < 5)%nat ∧ (c < 5)%nat
                ∧ value_equals (value (cell card_two_pairs r c)) (Int 7)).
Proof. apply (validateNumberEntry_spec card_two_pairs (Int 7) 0 0); reflexivity. Defined.

(** X21. resetCard: on a store holding a 5x5 card the call returns a new
    card object; every object of the input store, the input card included,
    is unchanged; the new card has the id, name, creation time, columns and
    values of the input, every cell whose value is not FREE is unmarked and
    every FREE cell keeps the marked flag it had (so a FREE cell that was
    not marked stays unmarked). *)
Theorem resetCard_spec h card c :
  load_card h card = Some c → card_shape c →
  ∃ reset h' c',
    resetCard card h = Returned reset h'
    ∧ heap_preserved h h'
    ∧ load_card h' card = Some c
    ∧ (length h ≤ reset)%nat
    ∧ load_card h' reset = Some c'
    ∧ card_id c' = card_id c
    ∧ card_name c' = card_name c
    ∧ card_createdAt c' = card_createdAt c
    ∧ card_shape c'
    ∧ ∀ row col, (row < 5)%nat → (col < 5)%nat →
        column (cell c' row col) = column (cell c row col)
        ∧ value (cell c' row col) = value (cell c row col)
        ∧ (value (cell c row col) = FREE →
           marked (cell c' row col) = marked (cell c row col))
        ∧ (value (cell c row col) ≠ FREE → marked (cell c' row col) = false).
Proof.
  intros Hc Hs. destruct (resetCard_run h card c Hc Hs) as (u & h' & E & Hp & Hu & Hl).
  exists u, h', (with_cells c (map (map reset_cell) (cells c))).
  split; [exact E|]. split; [exact Hp|]. split; [by eapply load_card_preserved|].
  split; [exact Hu|]. split; [exact Hl|]. split; [done|]. split; [done|].
  split; [done|]. split; [by apply card_shape_map|].
  intros row col Hr Hk. rewrite cell_map by done.
  unfold reset_cell, is_free.
  destruct (value (cell c row col)) eqn:Ev; cbn [negb column value marked set_unmarked];
    rewrite ?Ev; by repeat split.
Qed.

Lemma resetCard_spec_witness :
  ∃ reset h' c',
    resetCard 31 example_heap = Returned reset h'
    ∧ heap_preserved example_heap h'
    ∧ load_card h' 31 = Some card_two_pairs
    ∧ (length example_heap ≤ reset)%nat
    ∧ load_card h' reset = Some c'
    ∧ card_id c' = card_id card_two_pairs
    ∧ card_name c' = card_name card_two_pairs
    ∧ card_createdAt c' = card_createdAt card_two_pairs
    ∧ card_shape c'
    ∧ ∀ row col, (row < 5)%nat → (col < 5)%nat →
        column (cell c' row col) = column (cell card_two_pairs row col)
        ∧ value (cell c' row col) = value (cell card_two_pairs row col)
        ∧ (value (cell card_two_pairs row col) = FREE →
           marked (cell c' row col) = marked (cell card_two_pairs row col))
        ∧ (value (cell card_two_pairs row col) ≠ FREE →
           marked (cell c' row col) = false).
Proof. apply (resetCard_spec example_heap 31 card_two_pairs); reflexivity. Defined.

(** X22. resetCard forgets markNumber: on a store holding a 5x5 card,
    marking any number with markNumber and then resetting the result gives
    a card with the same value as resetting the original card, and
    resetting a reset card changes nothing. *)
Theorem reset_forgets_marks h card c num :
  load_card h card = Some c → card_shape c →
  ∃ marked_card h1 reset1 h2 reset2 h3 reset3 h4 c',
    markNumber card num h = Returned marked_card h1
    ∧ resetCard marked_card h1 = Returned reset1 h2
    ∧ resetCard card h2 = Returned reset2 h3
    ∧ resetCard reset2 h3 = Returned reset3 h4
    ∧ load_card h4 reset1 = Some c'
    ∧ load_card h4 reset2 = Some c'
    ∧ load_card h4 reset3 = Some c'
    ∧ load_card h4 card = Some c.
Proof.
  intros Hc Hs.
  destruct (markNumber_run h card c num Hc Hs) as (m & h1 & E1 & Hp1 & _ & Hm).
  destruct (resetCard_run h1 m _ Hm (card_shape_map c _ Hs))
    as (r1 & h2 & E2 & Hp2 & _ & Hr1).
  assert (Hc2 : load_card h2 card = Some c).
  { eapply load_card_preserved; [exact Hp2|]. by eapply load_card_preserved. }
  destruct (resetCard_run h2 card c Hc2 Hs) as (r2 & h3 & E3 & Hp3 & _ & Hr2).
  destruct (resetCard_run h3 r2 _ Hr2 (card_shape_map c _ Hs))
    as (r3 & h4 & E4 & Hp4 & _ & Hr3).
  exists m, h1, r1, h2, r2, h3, r3, h4, (with_cells c (map (map reset_cell) (cells c))).
  split; [exact E1|]. split; [exact E2|]. split; [exact E3|]. split; [exact E4|].
  split; [|split; [|split]].
  - eapply load_card_preserved; [exact Hp4|]. eapply load_card_preserved; [exact Hp3|].
    rewrite Hr1. f_equal. unfold with_cells. cbn [card_id card_name card_createdAt cells].
    f_equal. rewrite map_map_cells. apply map_ext. intros row. apply map_ext.
    intros x. apply reset_mark_cell.
  - by eapply load_card_preserved.
  - rewrite Hr3. f_equal. unfold with_cells. cbn [card_id card_name card_createdAt cells].
    f_equal. rewrite map_map_cells. apply map_ext. intros row. apply map_ext.
    intros x. apply reset_cell_idem.
  - eapply load_card_preserved; [exact Hp4|]. by eapply load_card_preserved.
Qed.

Lemma reset_forgets_marks_witness :
  ∃ marked_card h1 reset1 h2 reset2 h3 reset3 h4 c',
    markNumber 31 (Int 16) example_heap = Returned marked_card h1
    ∧ resetCard marked_card h1 = Returned reset1 h2
    ∧ resetCard 31 h2 = Returned reset2 h3
    ∧ resetCard reset2 h3 = Returned reset3 h4
    ∧ load_card h4 reset1 = Some c'
    ∧ load_card h4 reset2 = Some c'
    ∧ load_card h4 reset3 = Some c'
    ∧ load_card h4 31 = Some card_two_pairs.
Proof.
  apply (reset_forgets_marks example_heap 31 card_two_pairs (Int 16)); reflexivity.
Defined.

(** X23. Calling every number of a card wins: when applyCalledNumbersToCards
    runs on 5x5 cards whose cells each hold FREE or a number other than 0
    that is in the list of called numbers, every returned card has won every
    line pattern and every standard pattern with a 5x5 grid: checkPattern
    returns true, nothing is missing and there is no path left. *)
Theorem full_call_wins h cardsRef numsRef cards nums :
  load_cards h cardsRef = Some cards →
  load_numbers h numsRef = Some nums →
  List.Forall card_shape cards →
  List.Forall (fully_called nums) cards →
  ∃ out h' cards',
    applyCalledNumbersToCards cardsRef numsRef h = Returned out h'
    ∧ load_cards h' out = Some cards'
    ∧ length cards' = length cards
    ∧ Forall (λ card',
        ∀ pattern, grid_shape pattern → is_dikit_or_patong pattern = false →
          checkPattern card' pattern = Some true
          ∧ getMissingNumbers card' pattern = Some []
          ∧ getWinningPaths card' pattern = Some []) cards'.
Proof.
  intros Hcards Hnums Hshape Hcalled.
  destruct (applyCalledNumbersToCards_run h numsRef nums Hnums cardsRef cards Hcards)
    as (out & h' & refs & E & _ & _ & _ & _ & Hout).
  exists out, h', (map (called_card nums) cards). split; [exact E|]. split; [exact Hout|].
  split; [apply length_map|]. apply Forall_fmap, Forall_forall.
  intros card Hcard%list_elem_of_In pattern Hg Hpair.
  rewrite List.Forall_forall in Hshape, Hcalled.
  pose proof (Hshape _ Hcard) as Hs. pose proof (Hcalled _ Hcard) as Hfull.
  assert (Hs' : card_shape (called_card nums card)) by (by apply card_shape_map).
  enough (Hwon : checkPattern (called_card nums card) pattern = Some true).
  { destruct (won_run _ _ Hs' Hg Hwon) as [Hp Hm]. by repeat split. }
  pose proof (fully_called_marked nums card) as Hall.
  apply orb_false_elim in Hpair as [Hd Hp].
  destruct (special_or_standard pattern) as [Hn|[Hn|Hrest]].
  { rewrite Hn in Hd. discriminate. }
  { rewrite Hn in Hp. discriminate. }
  assert (Hline : ∀ line, forallb in_grid line = true →
            forallb marked (line_cells (called_card nums card) line) = true).
  { intros line Hin. unfold line_cells. rewrite forallb_map, forallb_forall.
    intros [r k] Hrk. rewrite forallb_forall in Hin.
    apply Hin, andb_prop in Hrk as [Hr%Nat.ltb_lt Hk%Nat.ltb_lt]. by apply Hall. }
  assert (Hlines : is_line pattern = true →
            checkPattern (called_card nums card) pattern = Some true).
  { intros Hl. destruct (line_pattern_run _ pattern Hs' Hl) as (-> & _). f_equal.
    unfold lines_of.
    destruct (is_line_names pattern Hl) as [Hn|[Hn|Hn]]; rewrite Hn; eval_names;
      cbn [map seq existsb]; by rewrite Hline. }
  destruct Hrest as [Hn|[Hn|[Hn|Hn]]];
    [apply Hlines; unfold is_line; by rewrite Hn..|].
  rewrite checkPattern_standard by done. f_equal. apply forallb_forall.
  intros x (r & k & Hr & Hk & ->)%required_cells_positions. by apply Hall.
Qed.

Lemma full_call_wins_witness :
  ∃ out h' cards',
    applyCalledNumbersToCards 32 33 full_call_heap = Returned out h'
    ∧ load_cards h' out = Some cards'
    ∧ length cards' = length [card_two_pairs]
    ∧ Forall (λ card',
        ∀ pattern, grid_shape pattern → is_dikit_or_patong pattern = false →
          checkPattern card' pattern = Some true
          ∧ getMissingNumbers card' pattern = Some []
          ∧ getWinningPaths card' pattern = Some []) cards'.
Proof.
  apply (full_call_wins full_call_heap 32 33 [card_two_pairs] all_called);
    [reflexivity|reflexivity|repeat constructor..].
Defined.

(** * Further properties of the pattern functions *)

(** X24. validatePattern never throws, whatever the grid: it returns true
    exactly when the grid has five rows of five cells and at least one cell
    is true, and false for every other grid (also a malformed one). *)
Theorem validatePattern_spec pattern :
  ∃ ok, validatePattern (grid pattern) = Some ok
    ∧ (ok = true ↔ grid_shape pattern ∧ 0 < grid_cardinality pattern)
    ∧ (ok = true ↔ grid_shape pattern
                   ∧ ∃ row col, (row < 5)%nat ∧ (col < 5)%nat
                                ∧ required pattern row col = true).
Proof.
  rewrite validatePattern_run. eexists. split; [reflexivity|].
  unfold grid_shape, grid_cardinality.
  change (existsb (λ '(r, c), (grid pattern !!! r) !!! c) (positions 5 5))
    with (existsb (λ '(r, c), required pattern r c) (positions 5 5)).
  rewrite andb_true_iff. split.
  - rewrite existsb_filter_length, Nat.ltb_lt. split; intros [H1 H2]; (split; [done|lia]).
  - rewrite existsb_exists. split; intros [H1 H2]; (split; [done|]).
    + destruct H2 as ([r c] & [Hr Hc]%list_elem_of_In%elem_of_positions & H).
      by exists r, c.
    + destruct H2 as (r & c & Hr & Hc & H). exists (r, c). split; [|done].
      by apply list_elem_of_In, elem_of_positions.
Qed.

(** X25. getPatternPositions and the matcher: for a 5x5 grid
    getPatternPositions returns, in row-major order, exactly the positions
    where the grid is true, and their number is the grid count that
    analyzeGame reports as totalRequired; for a standard pattern on a 5x5
    card checkPattern is true exactly when the cells at these positions are
    all marked, and getMissingNumbers lists the values of those of these
    cells that are unmarked and not FREE. *)
Theorem getPatternPositions_spec pattern :
  grid_shape pattern →
  ∃ ps, getPatternPositions pattern = Some ps
    ∧ (∀ row col, (row, col) ∈ ps
                  ↔ (row < 5)%nat ∧ (col < 5)%nat ∧ required pattern row col = true)
    ∧ NoDup ps
    ∧ Z.of_nat (length ps) = grid_cardinality pattern
    ∧ ∀ card, card_shape card → standard pattern →
        checkPattern card pattern
        = Some (forallb (λ '(row, col), marked (cell card row col)) ps)
        ∧ getMissingNumbers card pattern
          = Some (map value (List.filter (λ c, negb (marked c) && negb (is_free c))
                               (map (λ '(row, col), cell card row col) ps))).
Proof.
  intros Hg. rewrite getPatternPositions_run by done. eexists. split; [reflexivity|].
  split; [|split; [|split; [reflexivity|]]].
  - intros row col. rewrite list_elem_of_In, List.filter_In, <- list_elem_of_In,
      elem_of_positions. tauto.
  - apply NoDup_filter_list. apply (bool_decide_unpack _). by vm_compute.
  - intros card Hs Hst.
    rewrite checkPattern_standard, getMissingNumbers_standard by done.
    unfold required_cells, standard_missing, required_cells.
    rewrite forallb_map. split; [|done]. f_equal. apply forallb_eq. by intros [r c].
Qed.

Lemma getPatternPositions_spec_witness :
  ∃ ps, getPatternPositions four_corners = Some ps
    ∧ (∀ row col, (row, col) ∈ ps
                  ↔ (row < 5)%nat ∧ (col < 5)%nat ∧ required four_corners row col = true)
    ∧ NoDup ps
    ∧ Z.of_nat (length ps) = grid_cardinality four_corners
    ∧ ∀ card, card_shape card → standard four_corners →
        checkPattern card four_corners
        = Some (forallb (λ '(row, col), marked (cell card row col)) ps)
        ∧ getMissingNumbers card four_corners
          = Some (map value (List.filter (λ c, negb (marked c) && negb (is_free c))
                               (map (λ '(row, col), cell card row col) ps))).
Proof. apply (getPatternPositions_spec four_corners); reflexivity. Defined.

(** X26. isBuiltInPattern protects every name the matcher treats
    specially: each of the five special names is built in, so a pattern
    whose name is not built in is a standard pattern, matched by its grid
    alone; the only built-in name that is matched by its grid is 'Full
    House'. *)
Theorem editable_patterns_are_standard pattern :
  (In (pattern_name pattern) special_names →
   isBuiltInPattern (pattern_name pattern) = true)
  ∧ (isBuiltInPattern (pattern_name pattern) = false → standard pattern)
  ∧ (isBuiltInPattern (pattern_name pattern) = true → standard pattern →
     pattern_name pattern = "Full House"%string).
Proof.
  unfold isBuiltInPattern, builtInNames.
  destruct (special_or_standard pattern) as [Hn|[Hn|[Hn|[Hn|[Hn|Hn]]]]].
  1-5: rewrite Hn; (split; [done|]); split; [discriminate|];
       intros _ Hst; unfold standard in Hst; by rewrite Hn in Hst.
  split; [|split; [done|]].
  - intros Hin. unfold standard in Hn. rewrite forallb_forall in Hn.
    specialize (Hn _ Hin). by rewrite String.eqb_refl in Hn.
  - intros Hb _. destruct (standard_names pattern Hn) as (H1 & H2 & H3 & H4 & H5).
    cbn [existsb] in Hb. rewrite H1, H2, H3, H4, H5 in Hb. cbn [orb] in Hb.
    rewrite orb_false_r in Hb. by apply String.eqb_eq.
Qed.

(** X27. generateBingoCard: with a random source whose values lie in 0-14,
    every card the generator returns is a 5x5 card with the given id and
    creation time and no name; its centre is the FREE cell of column N,
    marked; every other cell is unmarked, carries the letter of its column
    and holds an integer of the range of its column; so the card passes
    validateCompleteCard and validateBingoCard, and every FREE cell of it is
    marked. *)
Theorem generated_card_is_valid id now draws card rest :
  Forall (λ d, 0 ≤ d < 15) draws →
  generateBingoCard id now draws = Some (card, rest) →
  card_id card = id ∧ card_name card = None ∧ card_createdAt card = now
  ∧ card_shape card
  ∧ cell card 2 2 = {| column := N; value := FREE; marked := true |}
  ∧ (∀ row col, (row < 5)%nat → (col < 5)%nat → (row, col) ≠ (2, 2)%nat →
       in_column_range (value (cell card row col)) col
       ∧ marked (cell card row col) = false
       ∧ COLUMNS !! col = Some (column (cell card row col)))
  ∧ free_cells_marked card
  ∧ validateBingoCard card = Some true
  ∧ ∃ result, validateCompleteCard card = Some result ∧ isValid result = true.
Proof.
  intros Hd Hgen. unfold generateBingoCard in Hgen.
  destruct (foldM _ _ (seq 0 5)) as [[cs rest']|] eqn:Efold; [|discriminate].
  cbn [mbind option_bind] in Hgen. injection Hgen as <- <-.
  cbn [foldM seq] in Efold.
  repeat match type of Efold with
         | (?m ≫= _) = _ =>
           let E := fresh "E" in
           destruct m as [[? ?]|] eqn:E; [|discriminate];
           cbn [mbind option_bind] in Efold
         end.
  injection Efold as <- <-.
  apply (generator_column 0 B) in E; [|reflexivity|done].
  destruct E as (a0 & b0 & c0 & d0 & e0 & F0 & N0 & R0 & Hd0).
  vm_compute in F0. injection F0 as <-.
  apply (generator_column 1 I) in E0; [|reflexivity|done].
  destruct E0 as (a1 & b1 & c1 & d1 & e1 & F1 & N1 & R1 & Hd1).
  vm_compute in F1. injection F1 as <-.
  apply (generator_column 2 N) in E1; [|reflexivity|done].
  destruct E1 as (a2 & b2 & c2 & d2 & e2 & F2 & N2 & R2 & Hd2).
  vm_compute in F2. injection F2 as <-.
  apply (generator_column 3 G) in E2; [|reflexivity|done].
  destruct E2 as (a3 & b3 & c3 & d3 & e3 & F3 & N3 & R3 & Hd3).
  vm_compute in F3. injection F3 as <-.
  apply (generator_column 4 O) in E3; [|reflexivity|done].
  destruct E3 as (a4 & b4 & c4 & d4 & e4 & F4 & N4 & R4 & Hd4).
  vm_compute in F4. injection F4 as <-.
  clear Hd Hd0 Hd1 Hd2 Hd3 Hd4.
  repeat match goal with
         | H : Forall _ (_ :: _) |- _ => apply Forall_cons in H as [? H]
         | H : Forall _ [] |- _ => clear H
         | H : NoDup (_ :: _) |- _ =>
           let Hn := fresh "Hn" in apply NoDup_cons in H as [Hn H]
         | H : NoDup [] |- _ => clear H
         | H : _ ∧ _ |- _ => destruct H
         | H : _ ∉ [] |- _ => clear H
         end.
  cbn [fst GENERATOR_RANGES] in *.
  set (card := {| card_id := id; card_name := None; cells := _; card_createdAt := now |}).
  assert (Hs : card_shape card) by reflexivity.
  assert (Hcells : ∀ row col, (row < 5)%nat → (col < 5)%nat → (row, col) ≠ (2, 2)%nat →
            in_column_range (value (cell card row col)) col
            ∧ marked (cell card row col) = false
            ∧ COLUMNS !! col = Some (column (cell card row col))).
  { intros row col Hr Hc Hne.
    destruct row as [|[|[|[|[|?]]]]]; try lia;
      destruct col as [|[|[|[|[|?]]]]]; try lia; try done;
      (split; [|split; reflexivity]);
      (eexists _, _; split; [reflexivity|split; [reflexivity|]]);
      cbn [range_min range_max]; lia. }
  assert (Hnodup : NoDup (card_values card)).
  { unfold card_values, card. cbn.
    apply (NoDup_values [_; _; _; _; _; _; _; _; _; _; _; _;
                         _; _; _; _; _; _; _; _; _; _; _; _]).
    repeat (apply NoDup_cons; split;
            [apply not_elem_of_different; repeat constructor;
             first [match goal with
                    | |- ?x ≠ ?y =>
                      match goal with
                      | Hx : _ ≤ x, Hx' : x < _, Hy : _ ≤ y, Hy' : y < _ |- _ =>
                        clear - Hx Hx' Hy Hy'; lia
                      end
                    end
                   |intros ->;
                    match goal with
                    | H : _ ∉ _ |- _ =>
                      apply H, list_elem_of_In; clear; simpl; tauto
                    end]|]).
    apply NoDup_nil_2. }
  split; [done|]. split; [done|]. split; [done|]. split; [done|]. split; [done|].
  split; [exact Hcells|]. split; [reflexivity|]. split.
  - rewrite validateBingoCard_run by done. by rewrite bool_decide_eq_true_2.
  - destruct (validateCompleteCard_run card Hs) as (result & E & Hv & _).
    exists result. split; [exact E|]. apply Hv. split; [|exact Hnodup].
    apply forallb_forall. intros [r c] [Hr Hc]%list_elem_of_In%elem_of_positions.
    apply cell_ok_spec; [done|].
    destruct (decide ((r, c) = (2, 2)%nat)) as [[= -> ->]|Hne]; [by left|].
    right. by apply Hcells.
Qed.

Lemma generated_card_is_valid_witness :
  ∃ card,
    generateBingoCard "card_1" 0 example_draws = Some (card, [])
    ∧ card_id card = "card_1"%string ∧ card_name card = None ∧ card_createdAt card = 0
    ∧ card_shape card
    ∧ cell card 2 2 = {| column := N; value := FREE; marked := true |}
    ∧ (∀ row col, (row < 5)%nat → (col < 5)%nat → (row, col) ≠ (2, 2)%nat →
         in_column_range (value (cell card row col)) col
         ∧ marked (cell card row col) = false
         ∧ COLUMNS !! col = Some (column (cell card row col)))
    ∧ free_cells_marked card
    ∧ validateBingoCard card = Some true
    ∧ ∃ result, validateCompleteCard card = Some result ∧ isValid result = true.
Proof.
  eexists. split; [reflexivity|].
  apply (generated_card_is_valid "card_1" 0 example_draws _ []);
    [repeat constructor; lia|reflexivity].
Defined.

(** X28. generateBingoCard returns as soon as the random source supplies,
    for each of the five columns in turn, five values that are pairwise
    distinct: it then consumes exactly these 25 values, and the cell at
    (row, col) other than the centre holds the column minimum plus the value
    drawn for that column at index [row] (for column N past the centre, at
    index [row - 1]; the fifth value drawn for N is not used). *)
Theorem generator_returns id now (d0 d1 d2 d3 d4 rest : list Z) :
  Forall (λ ds, NoDup ds ∧ length ds = 5%nat) [d0; d1; d2; d3; d4] →
  ∃ card,
    generateBingoCard id now (d0 ++ d1 ++ d2 ++ d3 ++ d4 ++ rest) = Some (card, rest)
    ∧ card_shape card
    ∧ ∀ row col column ds d, (row < 5)%nat → (col < 5)%nat → (row, col) ≠ (2, 2)%nat →
        COLUMNS !! col = Some column →
        [d0; d1; d2; d3; d4] !! col = Some ds →
        ds !! number_index row col = Some d →
        value (cell card row col) = Num (d + fst (GENERATOR_RANGES column)).
Proof.
  intros H. rewrite !Forall_cons in H.
  destruct H as ((N0 & L0) & (N1 & L1) & (N2 & L2) & (N3 & L3) & (N4 & L4) & _).
  destruct d0 as [|x0 [|x1 [|x2 [|x3 [|x4 [|]]]]]]; try discriminate.
  destruct d1 as [|y0 [|y1 [|y2 [|y3 [|y4 [|]]]]]]; try discriminate.
  destruct d2 as [|z0 [|z1 [|z2 [|z3 [|z4 [|]]]]]]; try discriminate.
  destruct d3 as [|u0 [|u1 [|u2 [|u3 [|u4 [|]]]]]]; try discriminate.
  destruct d4 as [|v0 [|v1 [|v2 [|v3 [|v4 [|]]]]]]; try discriminate.
  unfold generateBingoCard, generateColumnNumbers. cbn [app foldM seq].
  do 5 (cbn [mbind option_bind lookup list_lookup COLUMNS GENERATOR_RANGES fst];
        rewrite column_loop_five by done;
        cbn -[Z.add column_loop]).
  eexists. split; [reflexivity|]. split; [reflexivity|].
  intros row col column ds d Hr Hc Hne Ecol Eds Ed.
  destruct col as [|[|[|[|[|?]]]]]; try lia;
    injection Ecol as <-; injection Eds as <-;
    destruct row as [|[|[|[|[|?]]]]]; try lia; try done;
    injection Ed as <-; reflexivity.
Qed.

Lemma generator_returns_witness :
  ∃ card,
    generateBingoCard "card_1" 0
      ([0; 1; 2; 3; 4] ++ [0; 1; 2; 3; 4] ++ [0; 1; 2; 3; 4] ++ [0; 1; 2; 3; 4]
       ++ [0; 1; 2; 3; 4] ++ []) = Some (card, [])
    ∧ card_shape card
    ∧ ∀ row col column ds d, (row < 5)%nat → (col < 5)%nat → (row, col) ≠ (2, 2)%nat →
        COLUMNS !! col = Some column →
        [[0; 1; 2; 3; 4]; [0; 1; 2; 3; 4]; [0; 1; 2; 3; 4]; [0; 1; 2; 3; 4];
         [0; 1; 2; 3; 4]] !! col = Some ds →
        ds !! number_index row col = Some d →
        value (cell card row col) = Num (d + fst (GENERATOR_RANGES column)).
Proof.
  apply (generator_returns "card_1" 0 [0; 1; 2; 3; 4] [0; 1; 2; 3; 4] [0; 1; 2; 3; 4]
           [0; 1; 2; 3; 4] [0; 1; 2; 3; 4] []).
  repeat constructor; try (apply (bool_decide_unpack _); reflexivity).
Defined.

(** * A game with nothing called, and imported cards *)

(** X29. Applying an empty list of called numbers is a reset: when
    applyCalledNumbersToCards runs with no number called on 5x5 cards whose
    FREE cells are marked, it returns as many cards as it was given, and each
    of them has the value that resetCard returns for the card it was made
    from, in whatever store that card is held. *)
Theorem empty_call_is_reset h cardsRef numsRef cards :
  load_cards h cardsRef = Some cards →
  load_numbers h numsRef = Some [] →
  List.Forall card_shape cards →
  List.Forall free_cells_marked cards →
  ∃ out h1 called,
    applyCalledNumbersToCards cardsRef numsRef h = Returned out h1
    ∧ load_cards h1 out = Some called
    ∧ Forall2 (λ card card',
        ∀ hc ref, load_card hc ref = Some card →
          ∃ reset h2, resetCard ref hc = Returned reset h2
                      ∧ load_card h2 reset = Some card') cards called.
Proof.
  intros Hcards Hnums Hshape Hfree.
  destruct (applyCalledNumbersToCards_run h numsRef [] Hnums cardsRef cards Hcards)
    as (out & h1 & refs & E & _ & _ & _ & _ & Hout).
  exists out, h1, (map (called_card []) cards). split; [exact E|]. split; [exact Hout|].
  clear - Hshape Hfree. induction cards as [|card cards IH]; [constructor|].
  apply List.Forall_cons_iff in Hshape as [Hs Hshape].
  apply List.Forall_cons_iff in Hfree as [Hf Hfree].
  cbn [map]. constructor; [|by apply IH].
  intros hc ref Hc. destruct (resetCard_run hc ref card Hc Hs) as (reset & h2 & Er & _ & _ & Hl).
  exists reset, h2. split; [exact Er|]. by rewrite empty_call_reset.
Qed.

Lemma empty_call_is_reset_witness :
  ∃ out h1 called,
    applyCalledNumbersToCards 32 33 empty_call_heap = Returned out h1
    ∧ load_cards h1 out = Some called
    ∧ Forall2 (λ card card',
        ∀ hc ref, load_card hc ref = Some card →
          ∃ reset h2, resetCard ref hc = Returned reset h2
                      ∧ load_card h2 reset = Some card') [card_two_pairs] called.
Proof.
  apply (empty_call_is_reset empty_call_heap 32 33 [card_two_pairs]);
    [reflexivity|reflexivity|repeat constructor..].
Defined.

(** X30. The import check rejects every card with a FREE cell: on a card as
    it is written to a backup file, validateCard of exportImportService.ts
    returns true exactly when the card is 5x5 and every cell holds a number;
    so a card with a FREE cell or an empty cell anywhere in its grid (every
    generated card has FREE at its centre) does not pass the check. *)
Theorem validateCard_rejects_free_cells card :
  (validateCard (card_json card) = true
   ↔ card_shape card
     ∧ ∀ row col, (row < 5)%nat → (col < 5)%nat →
         ∃ n, value (cell card row col) = Num n)
  ∧ ((∃ row col, (row < 5)%nat ∧ (col < 5)%nat
                 ∧ (value (cell card row col) = FREE
                    ∨ value (cell card row col) = Blank)) →
     validateCard (card_json card) = false).
Proof.
  assert (Hiff : validateCard (card_json card) = true
                 ↔ card_shape card
                   ∧ ∀ row col, (row < 5)%nat → (col < 5)%nat →
                       ∃ n, value (cell card row col) = Num n).
  { rewrite validateCard_json_spec. split; intros [Hs Hnum]; (split; [done|]);
      intros row col Hr Hc; specialize (Hnum row col Hr Hc); unfold is_numeric in *.
    - destruct (value (cell card row col)) as [n| |]; [by exists n|done..].
    - by destruct Hnum as [n ->]. }
  split; [exact Hiff|].
  intros (row & col & Hr & Hc & Hv).
  destruct (validateCard (card_json card)) eqn:E; [|done].
  destruct Hiff as [Hiff _]. destruct (Hiff eq_refl) as [_ Hnum].
  destruct (Hnum row col Hr Hc) as [n Hn]. rewrite Hn in Hv. by destruct Hv.
Qed.

Lemma validateCard_rejects_free_cells_witness :
  validateCard (card_json card_two_pairs) = false.
Proof.
  apply (proj2 (validateCard_rejects_free_cells card_two_pairs)).
  exists 2%nat, 2%nat. split; [lia|]. split; [lia|]. left. reflexivity.
Defined.
